(** * chalisha-reporter: the report pipeline and the Azure mirror, embedded in Rocq

    The development follows the two source files of the repository:

    - the reporter class [ChalishaReporter] (constructor, [onBegin],
      [onTestEnd], [onEnd], [onExit], [cleanDirectory],
      [captureNestedSteps], [getHostAppPackageJson]);
    - the uploader class [AzureBlobStorageUploader] (constructor,
      [readJsonFile], [uploadDirectoryToBlobStorage], [getContentType],
      [uploadPlaywrightReport]).

    The Node.js modules the code calls ([path], [fs], [uuid]) and the Azure
    client are not part of the repository.  [path] is modelled after the
    algorithm of Node's [path.posix]; [fs] as operations on a tree of files
    and directories; [uuid] as an oracle; the Azure client as arbitrary
    fallible operations.  What the process decides and the code cannot see
    is a field of [World]: the identifiers, the clock, what [JSON.parse]
    makes of a text, the faults of the service, the messages of the
    exceptions of [fs], and what the module loader finds beyond the file it
    is asked for. *)

From stdpp Require Import gmap strings list pretty.
From Stdlib Require Import ZArith Ascii Lia.

Set Warnings "-register-all".

Local Open Scope string_scope.
Local Open Scope Z_scope.
Local Open Scope list_scope.
Local Open Scope stdpp_scope.

(** ** Node's [path] module, POSIX flavour *)

Module Path.

(** The pieces of a string between ['/'] characters; never an empty list:
    ["a//b"] gives [["a"; ""; "b"]]. *)
Fixpoint split (s : string) : list string :=
  match s with
  | EmptyString => [EmptyString]
  | String c s' =>
      if Ascii.eqb c "/" then EmptyString :: split s'
      else match split s' with
           | seg :: rest => String c seg :: rest
           | [] => [String c EmptyString]
           end
  end.

Definition isAbsolute (p : string) : bool :=
  match p with
  | String c _ => Ascii.eqb c "/"
  | EmptyString => false
  end.

Fixpoint endsWithSlash (p : string) : bool :=
  match p with
  | EmptyString => false
  | String c EmptyString => Ascii.eqb c "/"
  | String _ p' => endsWithSlash p'
  end.

(** [normalizeString] of lib/path.js, on segments.  [res] is the result built
    so far, last segment first.  An empty segment or ["."] is dropped; [".."]
    removes the last segment unless there is none or it is [".."] itself, in
    which case it is kept only when [allowAboveRoot]. *)
Fixpoint normalizeSegments (allowAboveRoot : bool) (res segs : list string)
  : list string :=
  match segs with
  | [] => rev res
  | seg :: rest =>
      if String.eqb seg "" || String.eqb seg "." then
        normalizeSegments allowAboveRoot res rest
      else if String.eqb seg ".." then
        match res with
        | top :: res' =>
            if String.eqb top ".." then
              normalizeSegments allowAboveRoot
                (if allowAboveRoot then ".." :: res else res) rest
            else normalizeSegments allowAboveRoot res' rest
        | [] =>
            normalizeSegments allowAboveRoot
              (if allowAboveRoot then [".."] else []) rest
        end
      else normalizeSegments allowAboveRoot (seg :: res) rest
  end.

Definition normalizeString (path : string) (allowAboveRoot : bool) : string :=
  String.concat "/" (normalizeSegments allowAboveRoot [] (split path)).

Definition normalize (path : string) : string :=
  if String.eqb path "" then "."
  else
    let absolute := isAbsolute path in
    let trailingSeparator := endsWithSlash path in
    let path' := normalizeString path (negb absolute) in
    if String.eqb path' "" then
      if absolute then "/" else if trailingSeparator then "./" else "."
    else
      let path'' := if trailingSeparator then path' +:+ "/" else path' in
      if absolute then "/" +:+ path'' else path''.

(** [join(...args)]: the non-empty arguments glued with ['/'], normalized. *)
Fixpoint glue (joined : option string) (args : list string) : option string :=
  match args with
  | [] => joined
  | arg :: rest =>
      if String.eqb arg "" then glue joined rest
      else match joined with
           | None => glue (Some arg) rest
           | Some j => glue (Some (j +:+ "/" +:+ arg)) rest
           end
  end.

Definition join (args : list string) : string :=
  match glue None args with
  | None => "."
  | Some joined => normalize joined
  end.

(** [resolve(...args)]: the arguments are taken from the right until an
    absolute one is met; the working directory is used when none is. *)
Fixpoint resolveLoop (args : list string) (resolvedPath : string)
  : string * bool :=
  match args with
  | [] => (resolvedPath, false)
  | path :: rest =>
      if String.eqb path "" then resolveLoop rest resolvedPath
      else if isAbsolute path then (path +:+ "/" +:+ resolvedPath, true)
      else resolveLoop rest (path +:+ "/" +:+ resolvedPath)
  end.

Definition resolveSegments (cwd : string) (args : list string)
  : bool * list string :=
  let '(resolvedPath, resolvedAbsolute) := resolveLoop (rev args ++ [cwd]) "" in
  (resolvedAbsolute,
   normalizeSegments (negb resolvedAbsolute) [] (split resolvedPath)).

Definition resolve (cwd : string) (args : list string) : string :=
  let '(resolvedAbsolute, segs) := resolveSegments cwd args in
  let resolvedPath := String.concat "/" segs in
  if resolvedAbsolute then "/" +:+ resolvedPath
  else if String.eqb resolvedPath "" then "." else resolvedPath.

(** [relative(from, to)]: both are resolved, the common leading segments are
    dropped, and one [".."] per remaining segment of [from] is put before what
    remains of [to]. *)
Fixpoint dropCommon (from to : list string) : list string * list string :=
  match from, to with
  | f :: from', t :: to' =>
      if String.eqb f t then dropCommon from' to' else (from, to)
  | _, _ => (from, to)
  end.

Definition relative (cwd from to : string) : string :=
  if String.eqb from to then ""
  else
    let from' := resolve cwd [from] in
    let to' := resolve cwd [to] in
    if String.eqb from' to' then ""
    else
      let '(up, down) := dropCommon (snd (resolveSegments cwd [from]))
                                    (snd (resolveSegments cwd [to])) in
      String.concat "/" (repeat ".." (length up) ++ down).

(** [extname(path)]: from the last ['.'] of the last path component to its
    end; empty when there is no dot, when the only dot is the first character
    of the component, or when the component is [".."].  Trailing slashes are
    not part of the component. *)
Fixpoint lastSegment (segs : list string) : string :=
  match segs with
  | [] => ""
  | seg :: rest =>
      let l := lastSegment rest in
      if String.eqb l "" then seg else l
  end.

Definition basenameOf (path : string) : string := lastSegment (split path).

(** The suffix of [s] that starts at its last ['.'], when it has one. *)
Fixpoint fromLastDot (s : string) : option string :=
  match s with
  | EmptyString => None
  | String c s' =>
      match fromLastDot s' with
      | Some e => Some e
      | None => if Ascii.eqb c "." then Some s else None
      end
  end.

Definition extname (path : string) : string :=
  let base := basenameOf path in
  match base with
  | EmptyString => ""
  | String _ tail =>
      if String.eqb base ".." then ""
      else match fromLastDot tail with
           | Some e => e
           | None => ""
           end
  end.

End Path.

(** ** Exceptions and state

    A method either returns or throws; what it did to the state before it
    threw stays done. *)

(** What is thrown: an object with a [message], as the exceptions of [fs],
    of [require] and of the Azure client are. *)
Record Error := { message : string }.

(** What a call of a library function gives: a value or an exception. *)
Inductive answer (A : Type) : Type :=
| Success (a : A)
| Failure (e : Error).
Arguments Success {A} a.
Arguments Failure {A} e.

(** [Unfinished] is no outcome of the program: it marks a run of the model
    that was given too small a recursion budget (only the directory walk of
    the uploader takes one).  It cannot be caught. *)
Inductive result (A : Type) : Type :=
| Ok (a : A)
| Throw (e : Error)
| Unfinished.
Arguments Ok {A} a.
Arguments Throw {A} e.
Arguments Unfinished {A}.

Definition M (S A : Type) : Type := S -> result A * S.

Global Instance M_ret {S} : MRet (M S) := fun A a s => (Ok a, s).

Global Instance M_bind {S} : MBind (M S) := fun A B f m s =>
  match m s with
  | (Ok a, s') => f a s'
  | (Throw e, s') => (Throw e, s')
  | (Unfinished, s') => (Unfinished, s')
  end.

Definition throw {S A} (e : Error) : M S A := fun s => (Throw e, s).

(** [try { body } catch (error) { handler(error) }] *)
Definition tryCatch {S A} (body : M S A) (handler : Error -> M S A) : M S A :=
  fun s =>
    match body s with
    | (Ok a, s') => (Ok a, s')
    | (Throw e, s') => handler e s'
    | (Unfinished, s') => (Unfinished, s')
    end.

Definition gets {S A} (f : S -> A) : M S A := fun s => (Ok (f s), s).
Definition modify {S} (f : S -> S) : M S unit := fun s => (Ok tt, f s).

(** [for (const x of xs) { body(x) }] and [xs.forEach(body)] *)
Fixpoint forEach {S A} (xs : list A) (body : A -> M S unit) : M S unit :=
  match xs with
  | [] => mret tt
  | x :: rest => body x;; forEach rest body
  end.

(** [xs.map(f)] for a callback with effects *)
Fixpoint mapM {S A B} (f : A -> M S B) (xs : list A) : M S (list B) :=
  match xs with
  | [] => mret []
  | x :: rest => y ← f x; ys ← mapM f rest; mret (y :: ys)
  end.

(** Runs a computation on one component of a larger state. *)
Definition zoom {S T A} (proj : T -> S) (inj : S -> T -> T) (m : M S A) : M T A :=
  fun t => let '(r, s') := m (proj t) in (r, inj s' t).

Definition succeeds {S A} (r : result A * S) : bool :=
  match r with (Ok _, _) => true | _ => false end.

(** ** Node's [fs] module on a tree of files and directories *)

Module Fs.

Inductive node : Type :=
| File (data : string)
| Dir (entries : list (string * node)).

Definition isDirectory (n : node) : bool :=
  match n with Dir _ => true | File _ => false end.

Fixpoint entry (name : string) (es : list (string * node)) : option node :=
  match es with
  | [] => None
  | (k, n) :: rest => if String.eqb k name then Some n else entry name rest
  end.

(** Puts [n] under [name]: in place when the name is taken, last otherwise. *)
Fixpoint setEntry (name : string) (n : node) (es : list (string * node))
  : list (string * node) :=
  match es with
  | [] => [(name, n)]
  | (k, m) :: rest =>
      if String.eqb k name then (k, n) :: rest
      else (k, m) :: setEntry name n rest
  end.

Fixpoint dropEntry (name : string) (es : list (string * node))
  : list (string * node) :=
  match es with
  | [] => []
  | (k, m) :: rest =>
      if String.eqb k name then dropEntry name rest
      else (k, m) :: dropEntry name rest
  end.

(** The node at a path given by its segments from the root. *)
Fixpoint find (segs : list string) (n : node) : option node :=
  match segs with
  | [] => Some n
  | s :: rest =>
      match n with
      | Dir es =>
          match entry s es with
          | Some c => find rest c
          | None => None
          end
      | File _ => None
      end
  end.

(** The errors of the operations on the tree, by their code and its
    description.  The exception an [fs] function throws for one of them has
    a longer message, which Node makes of the code, the description, the
    system call and the paths: see [thrownBy] below. *)
Definition ENOENT : Error := {| message := "ENOENT: no such file or directory" |}.
Definition ENOTDIR : Error := {| message := "ENOTDIR: not a directory" |}.
Definition EISDIR : Error := {| message := "EISDIR: illegal operation on a directory" |}.
Definition EEXIST : Error := {| message := "EEXIST: file already exists" |}.
Definition EBUSY : Error := {| message := "EBUSY: resource busy or locked" |}.

(** [mkdir -p]: every missing directory on the way is created; a regular
    file on the way, or at the end, is an error. *)
Fixpoint mkdirp (segs : list string) (n : node) : answer node :=
  match n with
  | File _ => Failure (match segs with [] => EEXIST | _ => ENOTDIR end)
  | Dir es =>
      match segs with
      | [] => Success n
      | s :: rest =>
          match mkdirp rest (default (Dir []) (entry s es)) with
          | Success c => Success (Dir (setEntry s c es))
          | Failure e => Failure e
          end
      end
  end.

(** Removes the entry at [segs] when [allowed] accepts the node found there. *)
Fixpoint remove (allowed : node -> option Error) (segs : list string) (n : node)
  : answer node :=
  match n with
  | File _ => Failure ENOTDIR
  | Dir es =>
      match segs with
      | [] => Failure EBUSY
      | s :: rest =>
          match entry s es with
          | None => Failure ENOENT
          | Some c =>
              match rest with
              | [] =>
                  match allowed c with
                  | None => Success (Dir (dropEntry s es))
                  | Some e => Failure e
                  end
              | _ =>
                  match remove allowed rest c with
                  | Success c' => Success (Dir (setEntry s c' es))
                  | Failure e => Failure e
                  end
              end
          end
      end
  end.

(** Creates or overwrites the regular file at [segs]; its directory must
    exist. *)
Fixpoint write (data : string) (segs : list string) (n : node) : answer node :=
  match n with
  | File _ => Failure ENOTDIR
  | Dir es =>
      match segs with
      | [] => Failure EISDIR
      | s :: rest =>
          match rest with
          | [] =>
              match entry s es with
              | Some (Dir _) => Failure EISDIR
              | _ => Success (Dir (setEntry s (File data) es))
              end
          | _ =>
              match entry s es with
              | None => Failure ENOENT
              | Some c =>
                  match write data rest c with
                  | Success c' => Success (Dir (setEntry s c' es))
                  | Failure e => Failure e
                  end
              end
          end
      end
  end.

Definition read (segs : list string) (n : node) : answer string :=
  match find segs n with
  | Some (File data) => Success data
  | Some (Dir _) => Failure EISDIR
  | None => Failure ENOENT
  end.

(** A directory entry as [readdirSync(_, { withFileTypes: true })] gives it. *)
Record Dirent := { name : string; dirent_isDirectory : bool }.

Definition readdir (segs : list string) (n : node) : answer (list Dirent) :=
  match find segs n with
  | Some (Dir es) =>
      Success (map (fun e => {| name := fst e; dirent_isDirectory := isDirectory (snd e) |}) es)
  | Some (File _) => Failure ENOTDIR
  | None => Failure ENOENT
  end.

(** File and directory names as a file system has them: not empty, not ["."]
    or [".."], no ['/'] inside; and no name twice in a directory. *)
Definition validName (s : string) : bool :=
  negb (String.eqb s "") && negb (String.eqb s ".") && negb (String.eqb s "..")
  && match Path.split s with [_] => true | _ => false end.

Fixpoint distinct (names : list string) : bool :=
  match names with
  | [] => true
  | x :: rest => negb (existsb (String.eqb x) rest) && distinct rest
  end.

Fixpoint wf (n : node) : bool :=
  match n with
  | File _ => true
  | Dir es =>
      forallb validName (map fst es) && distinct (map fst es)
      && forallb (fun e => wf (snd e)) es
  end.

End Fs.

(** ** The process: file system, working directory, identifiers, console *)

(** What [JSON.parse] makes of the host's package.json: only [name] is read. *)
Record PackageJson := { pkg_name : option string }.

(** A request sent to the blob service. *)
Inductive NetworkCall : Type :=
| CreateIfNotExists (container access : string)
| UploadData (container blobPath data blobContentType : string).

Record World := {
  fs : Fs.node;
  cwd : string;                        (* process.cwd() *)
  uuid_source : nat -> string;         (* what uuidv4() returns, call by call *)
  uuid_drawn : nat;                    (* calls of uuidv4() so far *)
  clock : Z;                           (* new Date().getTime() *)
  console : list string;               (* lines written by console.log/error *)
  JSON_parse : string -> answer (option PackageJson);
  network : list NetworkCall;          (* requests sent so far, in order *)
  (* whether the service fails a request, given the requests before it *)
  azure_fault : list NetworkCall -> NetworkCall -> option Error;
  (* whether the client library rejects a connection string *)
  connection_fault : string -> option Error;
  (* the message of the exception an fs function throws, for the tree, the
     function, its path arguments and the error *)
  fs_message : Fs.node -> string -> list string -> Error -> string;
  (* what require.resolve finds, or throws, for an absolute name that is not
     the name of a regular file: its search goes on with the extensions
     .js, .json and .node, and with a directory of that name *)
  module_search : Fs.node -> string -> answer string;
}.

Definition set_fs (n : Fs.node) (w : World) : World :=
  {| fs := n; cwd := cwd w; uuid_source := uuid_source w;
     uuid_drawn := uuid_drawn w; clock := clock w; console := console w;
     JSON_parse := JSON_parse w; network := network w;
     azure_fault := azure_fault w; connection_fault := connection_fault w;
     fs_message := fs_message w; module_search := module_search w |}.

Definition set_uuid_drawn (k : nat) (w : World) : World :=
  {| fs := fs w; cwd := cwd w; uuid_source := uuid_source w;
     uuid_drawn := k; clock := clock w; console := console w;
     JSON_parse := JSON_parse w; network := network w;
     azure_fault := azure_fault w; connection_fault := connection_fault w;
     fs_message := fs_message w; module_search := module_search w |}.

Definition set_console (c : list string) (w : World) : World :=
  {| fs := fs w; cwd := cwd w; uuid_source := uuid_source w;
     uuid_drawn := uuid_drawn w; clock := clock w; console := c;
     JSON_parse := JSON_parse w; network := network w;
     azure_fault := azure_fault w; connection_fault := connection_fault w;
     fs_message := fs_message w; module_search := module_search w |}.

Definition set_network (n : list NetworkCall) (w : World) : World :=
  {| fs := fs w; cwd := cwd w; uuid_source := uuid_source w;
     uuid_drawn := uuid_drawn w; clock := clock w; console := console w;
     JSON_parse := JSON_parse w; network := n;
     azure_fault := azure_fault w; connection_fault := connection_fault w;
     fs_message := fs_message w; module_search := module_search w |}.

(** The segments, from the root, of the file a path names in this process. *)
Definition locate (w : World) (p : string) : list string :=
  snd (Path.resolveSegments (cwd w) [p]).

Definition uuidv4 : M World string := fun w =>
  (Ok (uuid_source w (uuid_drawn w)), set_uuid_drawn (S (uuid_drawn w)) w).

Definition console_log (line : string) : M World unit :=
  modify (fun w => set_console (console w ++ [line]) w).

Definition console_error (line : string) : M World unit := console_log line.

(** Sends a request: it is on the wire whether the service then fails it or
    not. *)
Definition request (c : NetworkCall) : M World unit := fun w =>
  let w' := set_network (network w ++ [c]) w in
  match azure_fault w (network w) c with
  | Some e => (Throw e, w')
  | None => (Ok tt, w')
  end.

(** What a function of [fs] gives for the outcome of the operation on the
    tree: the value, or the exception Node makes of the error. *)
Definition thrownBy (w : World) (function : string) (paths : list string)
  (e : Error) : Error :=
  {| message := fs_message w (fs w) function paths e |}.

Definition fsCall {A} (w : World) (function : string) (paths : list string)
  (outcome : answer A) : answer A :=
  match outcome with
  | Success a => Success a
  | Failure e => Failure (thrownBy w function paths e)
  end.

(** An [fs] call that changes the tree, or throws and leaves it as it is. *)
Definition fsUpdate (op : World -> answer Fs.node) : M World unit := fun w =>
  match op w with
  | Success n => (Ok tt, set_fs n w)
  | Failure e => (Throw e, w)
  end.

Definition fsQuery {A} (op : World -> answer A) : M World A := fun w =>
  match op w with
  | Success a => (Ok a, w)
  | Failure e => (Throw e, w)
  end.

Definition existsSync (p : string) : M World bool :=
  gets (fun w => match Fs.find (locate w p) (fs w) with
                 | Some _ => true
                 | None => false
                 end).

Definition mkdirSync_recursive (p : string) : M World unit :=
  fsUpdate (fun w => fsCall w "mkdirSync" [p] (Fs.mkdirp (locate w p) (fs w))).

Definition readdirSync (p : string) : M World (list string) :=
  fsQuery (fun w =>
    fsCall w "readdirSync" [p]
      match Fs.readdir (locate w p) (fs w) with
      | Success ds => Success (map Fs.name ds)
      | Failure e => Failure e
      end).

Definition readdirSync_withFileTypes (p : string) : M World (list Fs.Dirent) :=
  fsQuery (fun w => fsCall w "readdirSync" [p] (Fs.readdir (locate w p) (fs w))).

Definition lstatSync_isDirectory (p : string) : M World bool :=
  fsQuery (fun w =>
    fsCall w "lstatSync" [p]
      match Fs.find (locate w p) (fs w) with
      | Some n => Success (Fs.isDirectory n)
      | None => Failure Fs.ENOENT
      end).

Definition rmdirSync_recursive (p : string) : M World unit :=
  fsUpdate (fun w =>
    fsCall w "rmdirSync" [p]
      (Fs.remove (fun n => if Fs.isDirectory n then None else Some Fs.ENOTDIR)
                 (locate w p) (fs w))).

Definition unlinkSync (p : string) : M World unit :=
  fsUpdate (fun w =>
    fsCall w "unlinkSync" [p]
      (Fs.remove (fun n => if Fs.isDirectory n then Some Fs.EISDIR else None)
                 (locate w p) (fs w))).

Definition readFileSync (p : string) : M World string :=
  fsQuery (fun w => fsCall w "readFileSync" [p] (Fs.read (locate w p) (fs w))).

Definition copyFileSync (src dest : string) : M World unit :=
  fsUpdate (fun w =>
    fsCall w "copyFileSync" [src; dest]
      match Fs.read (locate w src) (fs w) with
      | Success data => Fs.write data (locate w dest) (fs w)
      | Failure e => Failure e
      end).

(** [a || b] on strings: the empty string is falsy. *)
Definition orString (a : option string) (b : string) : string :=
  match a with
  | Some s => if String.eqb s "" then b else s
  | None => b
  end.

(** [if (s)] on an optional string. *)
Definition truthy (a : option string) : bool :=
  negb (String.eqb (orString a "") "").

(** ** The reporter: data *)

(** [TestResult['status']] and [TestCase['expectedStatus']] of
    @playwright/test/reporter. *)
Inductive TestStatus : Type :=
| passed | failed | timedOut | skipped | interrupted.

(** The string a status is at run time. *)
Definition statusName (s : TestStatus) : string :=
  match s with
  | passed => "passed"
  | failed => "failed"
  | timedOut => "timedOut"
  | skipped => "skipped"
  | interrupted => "interrupted"
  end.

Record TestError := { te_message : option string; te_stack : option string }.

Record Location := { file : string; line : Z; column : Z }.

Inductive TestStep : Type :=
  mkTestStep {
    step_title : string;
    step_duration : Z;
    step_location : option Location;
    step_steps : option (list TestStep);
    step_error : option TestError;
  }.

Inductive StepDetails : Type :=
  mkStepDetails {
    sd_name : string;
    sd_duration : Z;
    sd_location : string;
    sd_steps : list StepDetails;
    sd_error : bool;
  }.

(** An attachment, as the runner gives it and as the report records it; the
    runner's attachments have no [url]. *)
Record Attachment := {
  att_name : string;
  att_contentType : string;
  att_path : option string;
  att_body : option string;
  att_url : option string;
}.

Inductive Suite : Type :=
  mkSuite { suite_title : string; suite_parent : option Suite }.

Record Annotation := { ann_type : string; ann_description : option string }.

Record TestCase := {
  tc_title : string;
  tc_location : option Location;
  tc_annotations : list Annotation;
  tc_retries : Z;
  tc_expectedStatus : TestStatus;
  tc_id : string;
  tc_parent : option Suite;
}.

Record TestResult := {
  tr_status : TestStatus;
  tr_duration : Z;
  tr_errors : list TestError;
  tr_retry : Z;
  tr_parallelIndex : Z;
  tr_startTime : Z;
  tr_workerIndex : Z;
  tr_error : option TestError;
  tr_attachments : list Attachment;
  tr_steps : list TestStep;
}.

Record Viewport := { width : Z; height : Z }.

(** [project.use]: each setting may be left out. *)
Record ProjectUse := {
  use_headless : option bool;
  use_viewport : option Viewport;
  use_isMobile : option bool;
  use_hasTouch : option bool;
}.

Record Project := { project_name : string; project_use : ProjectUse }.

Record FullConfig := { projects : list Project }.

Record BrowserContext := {
  bc_name : string;
  bc_headless : bool;
  bc_viewport : Viewport;
  bc_isMobile : bool;
  bc_hasTouch : bool;
}.

Record TestInfo := {
  ti_title : string;
  ti_location : string;
  ti_tags : list string;
  ti_retries : Z;
  ti_expectedStatus : TestStatus;
  ti_fileName : option string;
  ti_suiteTitle : option string;
  ti_testId : string;
}.

(** What [this.browserInfo[browserName] || {}] can be: a stored context, the
    fresh [{}], or what the object inherits under that name. *)
Inductive JsValue : Type :=
| js_undefined
| js_emptyObject                       (* a fresh [{}] *)
| js_context (c : BrowserContext)      (* an object [onBegin] made *)
| js_ObjectPrototype                   (* [Object.prototype] itself *)
| js_function (name : string)          (* the function [Object.prototype[name]] *)
| js_string (s : string)
| js_boolean (b : bool)
| js_viewport (v : Viewport).

(** One element of [testResults]. *)
Record TestReportEntry := {
  e_test : TestInfo;
  e_steps : list StepDetails;
  e_attachments : list Attachment;
  e_status : TestStatus;
  e_duration : Z;
  e_errors : list TestError;
  e_retry : Z;
  e_parallelIndex : Z;
  e_startTime : Z;
  e_workerIndex : Z;
  e_error : option TestError;
  e_browser : JsValue;
}.

Record AzureBlobStorageOptions := {
  containerName : option string;
  connectionString : option string;
}.

Record UploaderOptions := { azureBlobStorage : option AzureBlobStorageOptions }.

Record ChalishaReporterOptions := {
  opt_reportDir : option string;
  opt_reportFileName : option string;
  opt_resultFileName : option string;
  opt_uploaders : option UploaderOptions;
}.

(** The object [browserInfo]: an ordinary object, [{}] at first, used as a
    map from project names to browser contexts.  It has the own properties
    the code assigns and a prototype, which is [Object.prototype] ([None])
    until a context is assigned to ["__proto__"]: that assignment makes no
    property, it installs the context as prototype. *)
Record JsObject := {
  ownProperties : gmap string BrowserContext;
  prototype : option BrowserContext;
}.

(** [{}] *)
Definition emptyObject : JsObject := {| ownProperties := ∅; prototype := None |}.

(** The fields of a [ChalishaReporter]. *)
Record Reporter := {
  reportDir : string;
  runId : string;
  passedCount : Z;
  failedCount : Z;
  skippedCount : Z;
  timedOutCount : Z;
  interruptedCount : Z;
  totalTests : Z;
  startTime : Z;
  testResults : list TestReportEntry;
  projectRoot : string;
  browserInfo : JsObject;
  reportFileName : string;
  resultFileName : string;
  options : ChalishaReporterOptions;
  hostAppPackageJson : option PackageJson;
}.

Definition set_counts (p f s t i : Z) (r : Reporter) : Reporter :=
  {| reportDir := reportDir r; runId := runId r;
     passedCount := p; failedCount := f; skippedCount := s;
     timedOutCount := t; interruptedCount := i;
     totalTests := totalTests r; startTime := startTime r;
     testResults := testResults r; projectRoot := projectRoot r;
     browserInfo := browserInfo r; reportFileName := reportFileName r;
     resultFileName := resultFileName r; options := options r;
     hostAppPackageJson := hostAppPackageJson r |}.

Definition set_totalTests (n : Z) (r : Reporter) : Reporter :=
  {| reportDir := reportDir r; runId := runId r;
     passedCount := passedCount r; failedCount := failedCount r;
     skippedCount := skippedCount r; timedOutCount := timedOutCount r;
     interruptedCount := interruptedCount r;
     totalTests := n; startTime := startTime r;
     testResults := testResults r; projectRoot := projectRoot r;
     browserInfo := browserInfo r; reportFileName := reportFileName r;
     resultFileName := resultFileName r; options := options r;
     hostAppPackageJson := hostAppPackageJson r |}.

Definition set_testResults (es : list TestReportEntry) (r : Reporter) : Reporter :=
  {| reportDir := reportDir r; runId := runId r;
     passedCount := passedCount r; failedCount := failedCount r;
     skippedCount := skippedCount r; timedOutCount := timedOutCount r;
     interruptedCount := interruptedCount r;
     totalTests := totalTests r; startTime := startTime r;
     testResults := es; projectRoot := projectRoot r;
     browserInfo := browserInfo r; reportFileName := reportFileName r;
     resultFileName := resultFileName r; options := options r;
     hostAppPackageJson := hostAppPackageJson r |}.

Definition set_browserInfo (b : JsObject) (r : Reporter) : Reporter :=
  {| reportDir := reportDir r; runId := runId r;
     passedCount := passedCount r; failedCount := failedCount r;
     skippedCount := skippedCount r; timedOutCount := timedOutCount r;
     interruptedCount := interruptedCount r;
     totalTests := totalTests r; startTime := startTime r;
     testResults := testResults r; projectRoot := projectRoot r;
     browserInfo := b; reportFileName := reportFileName r;
     resultFileName := resultFileName r; options := options r;
     hostAppPackageJson := hostAppPackageJson r |}.

(** A method of the reporter runs on the object and the process. *)
Definition inWorld {A} (m : M World A) : M (Reporter * World) A :=
  zoom snd (fun w s => (fst s, w)) m.

Definition this : M (Reporter * World) Reporter := gets fst.

Definition modifyThis (f : Reporter -> Reporter) : M (Reporter * World) unit :=
  modify (fun s => (f (fst s), snd s)).

(** ** [captureNestedSteps] *)

(** [`${path.relative(this.projectRoot, location.file)}:${location.line}`],
    or [''] without a location. *)
Definition locationString (cwd projectRoot : string) (l : option Location) : string :=
  match l with
  | Some l => Path.relative cwd projectRoot (file l) +:+ ":" +:+ pretty (line l)
  | None => ""
  end.

(** The callback of [steps.map] in [captureNestedSteps], at a given level.
    The recursive call [this.captureNestedSteps(step.steps || [], level + 1)]
    is written out: nothing for an absent or empty list or at level 4 and
    beyond, the callback at the next level on each child otherwise. *)
Fixpoint captureStep (cwd projectRoot : string) (level : Z) (step : TestStep)
  {struct step} : StepDetails :=
  match step with
  | mkTestStep title duration location steps error =>
      {| sd_name := title;
         sd_duration := duration;
         sd_location := locationString cwd projectRoot location;
         sd_steps :=
           match steps with
           | Some children =>
               if (length children =? 0)%nat || (4 <=? level + 1) then []
               else map (captureStep cwd projectRoot (level + 1)) children
           | None => []
           end;
         sd_error := match error with Some _ => true | None => false end |}
  end.

(** [captureNestedSteps(steps, level)]; [None] is an absent list. *)
Definition captureNestedSteps (cwd projectRoot : string)
  (steps : option (list TestStep)) (level : Z) : list StepDetails :=
  match steps with
  | None => []
  | Some steps =>
      if (length steps =? 0)%nat || (4 <=? level) then []
      else map (captureStep cwd projectRoot level) steps
  end.

(** ** The uploader, [AzureBlobStorageUploader] *)

Definition dquote : string := String (Ascii.ascii_of_nat 34) EmptyString.

(** [s.toLowerCase()]; the letters A to Z are the only characters whose lower
    case can occur in one of the extensions [getContentType] tests for. *)
Definition lowerChar (c : ascii) : ascii :=
  let n := Ascii.nat_of_ascii c in
  if (65 <=? n)%nat && (n <=? 90)%nat then Ascii.ascii_of_nat (n + 32) else c.

Fixpoint toLowerCase (s : string) : string :=
  match s with
  | EmptyString => EmptyString
  | String c s' => String (lowerChar c) (toLowerCase s')
  end.

(** [s.replace(/\\/g, '/')] *)
Fixpoint replaceBackslashes (s : string) : string :=
  match s with
  | EmptyString => EmptyString
  | String c s' =>
      String (if Ascii.eqb c "\" then "/"%char else c) (replaceBackslashes s')
  end.

Record AzureBlobStorageUploader := {
  up_containerName : string;
  up_localReportDir : string;
  up_connectionString : string;
  up_runId : string;
  up_appName : string;
}.

(** The constructor of the uploader.  The two clients it builds are handles
    on the container [up_containerName]; building them sends nothing. *)
Definition newAzureBlobStorageUploader
  (runId appName containerName connectionString reportDir : string)
  : M World AzureBlobStorageUploader :=
  cwd ← gets cwd;
  let localReportDir := Path.resolve cwd [cwd; reportDir] in
  let connectionString := orString (Some connectionString) "" in
  if String.eqb connectionString "" then
    throw {| message := "Azure Storage connection string is missing!" |}
  else
    fault ← gets (fun w => connection_fault w connectionString);
    match fault with
    | Some e => throw e
    | None =>
        mret {| up_containerName := containerName;
                up_localReportDir := localReportDir;
                up_connectionString := connectionString;
                up_runId := runId;
                up_appName := appName |}
    end.

Definition getContentType (fileName : string) : string :=
  let extension := toLowerCase (Path.extname fileName) in
  if String.eqb extension ".html" then "text/html"
  else if String.eqb extension ".json" then "application/json"
  else if String.eqb extension ".txt" then "text/plain"
  else if String.eqb extension ".png" then "image/png"
  else if String.eqb extension ".jpg" then "image/jpeg"
  else if String.eqb extension ".jpeg" then "image/jpeg"
  else "application/octet-stream".

(** [uploadDirectoryToBlobStorage(directoryPath, containerClient, remotePath)]
    with a bound on the depth of the recursion. *)
Fixpoint uploadDirectoryToBlobStorage (budget : nat)
  (u : AzureBlobStorageUploader) (directoryPath remotePath : string)
  : M World unit :=
  match budget with
  | O => fun w => (Unfinished, w)
  | S budget' =>
      console_log ("uploadDirectoryToBlobStorage " +:+ remotePath);;
      files ← readdirSync_withFileTypes directoryPath;
      forEach files (fun file =>
        let localFilePath := Path.join [directoryPath; Fs.name file] in
        let blobPath :=
          replaceBackslashes (Path.join [remotePath; Fs.name file]) in
        if Fs.dirent_isDirectory file then
          uploadDirectoryToBlobStorage budget' u localFilePath blobPath
        else
          fileContent ← readFileSync localFilePath;
          request (UploadData (up_containerName u) blobPath fileContent
                              (getContentType (Fs.name file)));;
          console_log ("Uploaded: " +:+ blobPath))
  end.

Definition remoteRoot (u : AzureBlobStorageUploader) : string :=
  "chalisha-reporter/" +:+ up_appName u +:+ "/" +:+ up_runId u.

(** The [try] block of [uploadPlaywrightReport] and its [catch] clause. *)
Definition uploadPlaywrightReport_try (budget : nat) (u : AzureBlobStorageUploader)
  : M World unit :=
  console_log ("Azure Storage Connection String: " +:+ up_connectionString u);;
  console_log ("Container Name: " +:+ up_containerName u);;
  request (CreateIfNotExists (up_containerName u) "container");;
  console_log ("Container " +:+ dquote +:+ up_containerName u +:+ dquote
               +:+ " is ready.");;
  let remotePath := remoteRoot u in
  uploadDirectoryToBlobStorage budget u (up_localReportDir u) remotePath;;
  console_log ("All files and folders from " +:+ dquote
               +:+ up_localReportDir u +:+ dquote
               +:+ " have been uploaded to " +:+ dquote +:+ remotePath
               +:+ dquote +:+ " in Azure Blob Storage.").

Definition uploadPlaywrightReport_catch (error : Error) : M World unit :=
  console_error ("Error uploading report to Azure Blob Storage: "
                 +:+ message error).

Definition uploadPlaywrightReport (budget : nat) (u : AzureBlobStorageUploader)
  : M World unit :=
  tryCatch (uploadPlaywrightReport_try budget u) uploadPlaywrightReport_catch.

(** ** The reporter: methods *)

(** [require.resolve] of an absolute file name: the name itself when it is
    the name of a regular file; what the search of the module loader gives
    otherwise. *)
Definition require_resolve (p : string) : M World string := fun w =>
  match Fs.find (locate w p) (fs w) with
  | Some (Fs.File _) => (Ok p, w)
  | _ =>
      match module_search w (fs w) p with
      | Success found => (Ok found, w)
      | Failure e => (Throw e, w)
      end
  end.

Definition getHostAppPackageJson : M World (option PackageJson) :=
  tryCatch
    (cwd ← gets cwd;
     hostAppPackagePath ← require_resolve (Path.join [cwd; "package.json"]);
     text ← readFileSync hostAppPackagePath;
     fsQuery (fun w => JSON_parse w text))
    (fun error =>
       console_error
         ("Error finding or reading the main application's package.json: "
          +:+ message error);;
       mret None).

Definition cleanDirectory (directoryPath : string) : M World unit :=
  files ← readdirSync directoryPath;
  forEach files (fun file =>
    let fullPath := Path.join [directoryPath; file] in
    isDir ← lstatSync_isDirectory fullPath;
    if isDir : bool then rmdirSync_recursive fullPath
    else unlinkSync fullPath);;
  console_log ("Cleaned output directory: " +:+ directoryPath).

(** [new ChalishaReporter(options)] *)
Definition newChalishaReporter (options : ChalishaReporterOptions)
  : M World Reporter :=
  projectRoot ← gets cwd;
  let reportDir := orString (opt_reportDir options) "reports/chalisha-reporter/" in
  let reportFileName := orString (opt_reportFileName options) "report.json" in
  let resultFileName := orString (opt_resultFileName options) "result.json" in
  runId ← uuidv4;
  startTime ← gets clock;
  hostAppPackageJson ← getHostAppPackageJson;
  cwd ← gets cwd;
  let outputDir := Path.resolve cwd [projectRoot; reportDir] in
  there ← existsSync outputDir;
  (if negb there then mkdirSync_recursive outputDir
   else cleanDirectory outputDir);;
  mret {| reportDir := reportDir; runId := runId;
          passedCount := 0; failedCount := 0; skippedCount := 0;
          timedOutCount := 0; interruptedCount := 0;
          totalTests := 0; startTime := startTime;
          testResults := []; projectRoot := projectRoot;
          browserInfo := emptyObject; reportFileName := reportFileName;
          resultFileName := resultFileName; options := options;
          hostAppPackageJson := hostAppPackageJson |}.

(** [a || b] on an optional boolean and on an optional viewport. *)
Definition orBool (a : option bool) (b : bool) : bool :=
  match a with Some true => true | _ => b end.

Definition orViewport (a : option Viewport) (b : Viewport) : Viewport :=
  match a with Some v => v | None => b end.

Definition browserContextOf (project : Project) : BrowserContext :=
  {| bc_name := orString (Some (project_name project)) "unknown";
     bc_headless := orBool (use_headless (project_use project)) false;
     bc_viewport := orViewport (use_viewport (project_use project))
                               {| width := 1280; height := 720 |};
     bc_isMobile := orBool (use_isMobile (project_use project)) false;
     bc_hasTouch := orBool (use_hasTouch (project_use project)) false |}.

(** [browserInfo[name] = context].  Every name but ["__proto__"] becomes (or
    stays) an own property, also one the object inherits; ["__proto__"] is
    the accessor of [Object.prototype], whose setter replaces the prototype. *)
Definition setProperty (name : string) (context : BrowserContext) (o : JsObject)
  : JsObject :=
  if String.eqb name "__proto__" then
    {| ownProperties := ownProperties o; prototype := Some context |}
  else
    {| ownProperties := <[name := context]> (ownProperties o);
       prototype := prototype o |}.

(** The own properties of a context [onBegin] made. *)
Definition contextProperty (name : string) (c : BrowserContext) : option JsValue :=
  if String.eqb name "name" then Some (js_string (bc_name c))
  else if String.eqb name "headless" then Some (js_boolean (bc_headless c))
  else if String.eqb name "viewport" then Some (js_viewport (bc_viewport c))
  else if String.eqb name "isMobile" then Some (js_boolean (bc_isMobile c))
  else if String.eqb name "hasTouch" then Some (js_boolean (bc_hasTouch c))
  else None.

(** The properties of [Object.prototype] that are functions; ["__proto__"]
    is its one other property. *)
Definition objectPrototypeFunctions : list string :=
  ["constructor"; "__defineGetter__"; "__defineSetter__"; "hasOwnProperty";
   "__lookupGetter__"; "__lookupSetter__"; "isPrototypeOf";
   "propertyIsEnumerable"; "toString"; "valueOf"; "toLocaleString"].

(** [browserInfo[name]]: the own property; else the property of the context
    installed as prototype, if one is; else the property of
    [Object.prototype].  ["__proto__"] reads the prototype. *)
Definition getProperty (name : string) (o : JsObject) : JsValue :=
  if String.eqb name "__proto__" then
    match prototype o with
    | Some c => js_context c
    | None => js_ObjectPrototype
    end
  else
    match ownProperties o !! name with
    | Some c => js_context c
    | None =>
        match prototype o ≫= contextProperty name with
        | Some v => v
        | None =>
            if existsb (String.eqb name) objectPrototypeFunctions
            then js_function name
            else js_undefined
        end
    end.

(** [if (v)]: [undefined], [''] and [false] are falsy, objects and functions
    are not. *)
Definition jsTruthy (v : JsValue) : bool :=
  match v with
  | js_undefined => false
  | js_string s => negb (String.eqb s "")
  | js_boolean b => b
  | _ => true
  end.

(** [v || {}] *)
Definition orEmptyObject (v : JsValue) : JsValue :=
  if jsTruthy v then v else js_emptyObject.

(** [onBegin(config, suite)]; [allTests] is [suite.allTests()]. *)
Definition onBegin (config : FullConfig) (allTests : list TestCase)
  : M (Reporter * World) unit :=
  modifyThis (set_totalTests (Z.of_nat (length allTests)));;
  forEach (projects config) (fun project =>
    modifyThis (fun r =>
      set_browserInfo
        (setProperty (project_name project) (browserContextOf project)
                     (browserInfo r)) r)).

(** The [switch (result.status)] of [onTestEnd]; it has no default case. *)
Definition countStatus (status : string) (r : Reporter) : Reporter :=
  if String.eqb status "passed" then
    set_counts (passedCount r + 1) (failedCount r) (skippedCount r)
               (timedOutCount r) (interruptedCount r) r
  else if String.eqb status "failed" then
    set_counts (passedCount r) (failedCount r + 1) (skippedCount r)
               (timedOutCount r) (interruptedCount r) r
  else if String.eqb status "skipped" then
    set_counts (passedCount r) (failedCount r) (skippedCount r + 1)
               (timedOutCount r) (interruptedCount r) r
  else if String.eqb status "timedOut" then
    set_counts (passedCount r) (failedCount r) (skippedCount r)
               (timedOutCount r + 1) (interruptedCount r) r
  else if String.eqb status "interrupted" then
    set_counts (passedCount r) (failedCount r) (skippedCount r)
               (timedOutCount r) (interruptedCount r + 1) r
  else r.

(** The callback of [result.attachments.map] in [onTestEnd]. *)
Definition relocate (attachment : Attachment) : M (Reporter * World) Attachment :=
  if truthy (att_path attachment) then
    let source := orString (att_path attachment) "" in
    let fileExtension := Path.extname source in
    uuid ← inWorld uuidv4;
    let newFileName := uuid +:+ fileExtension in
    r ← this;
    cwd ← inWorld (gets cwd);
    let outputDir := Path.resolve cwd [projectRoot r; reportDir r; "data"] in
    there ← inWorld (existsSync outputDir);
    (if negb there then inWorld (mkdirSync_recursive outputDir) else mret tt);;
    let newFilePath := Path.join [reportDir r; "data"; newFileName] in
    inWorld (copyFileSync source newFilePath);;
    mret {| att_name := att_name attachment;
            att_contentType := att_contentType attachment;
            att_path := Some newFilePath;
            att_body := att_body attachment;
            att_url := Some ("./" +:+ Path.relative cwd (projectRoot r) newFilePath) |}
  else mret attachment.

(** [test.parent?.parent?.title] *)
Definition grandparentTitle (test : TestCase) : option string :=
  match tc_parent test with
  | Some parent =>
      match suite_parent parent with
      | Some grandparent => Some (suite_title grandparent)
      | None => None
      end
  | None => None
  end.

Definition onTestEnd (test : TestCase) (result : TestResult)
  : M (Reporter * World) unit :=
  modifyThis (countStatus (statusName (tr_status result)));;
  r ← this;
  cwd ← inWorld (gets cwd);
  let browserName := orString (grandparentTitle test) "unknown" in
  let browser := orEmptyObject (getProperty browserName (browserInfo r)) in
  let testInfo :=
    {| ti_title := tc_title test;
       ti_location := locationString cwd (projectRoot r) (tc_location test);
       ti_tags := map ann_type (tc_annotations test);
       ti_retries := tc_retries test;
       ti_expectedStatus := tc_expectedStatus test;
       ti_fileName := file <$> tc_location test;
       ti_suiteTitle := suite_title <$> tc_parent test;
       ti_testId := tc_id test |} in
  updatedAttachments ← mapM relocate (tr_attachments result);
  let steps := captureNestedSteps cwd (projectRoot r) (Some (tr_steps result)) 0 in
  modifyThis (fun r =>
    set_testResults
      (testResults r ++
       [{| e_test := testInfo;
           e_steps := steps;
           e_attachments := updatedAttachments;
           e_status := tr_status result;
           e_duration := tr_duration result;
           e_errors := tr_errors result;
           e_retry := tr_retry result;
           e_parallelIndex := tr_parallelIndex result;
           e_startTime := tr_startTime result;
           e_workerIndex := tr_workerIndex result;
           e_error := tr_error result;
           e_browser := browser |}]) r).

(** [onExit()] *)
Definition onExit (budget : nat) : M (Reporter * World) unit :=
  r ← this;
  let azure := opt_uploaders (options r) ≫= azureBlobStorage in
  let azureConnectionString := orString (azure ≫= connectionString) "" in
  let azureContainerName := orString (azure ≫= containerName) "reports" in
  if negb (String.eqb azureConnectionString "") then
    azureUploader ←
      inWorld (newAzureBlobStorageUploader
                 (runId r)
                 (orString (hostAppPackageJson r ≫= pkg_name) "")
                 azureContainerName azureConnectionString (reportDir r));
    inWorld (console_log "Starting upload to Azure blob storage ...");;
    inWorld (uploadPlaywrightReport budget azureUploader)
  else mret tt.

(** The test-end events of a run, delivered one after the other; an event
    whose handling throws is followed by the next all the same. *)
Fixpoint deliver (events : list (TestCase * TestResult)) (s : Reporter * World)
  : Reporter * World :=
  match events with
  | [] => s
  | (test, result) :: rest => deliver rest (snd (onTestEnd test result s))
  end.

Definition counted (r : Reporter) : Z :=
  passedCount r + failedCount r + skippedCount r + timedOutCount r
  + interruptedCount r.

(** ** [onEnd] *)

(** [fs.writeFileSync(path, data)] *)
Definition writeFileSync (p data : string) : M World unit :=
  fsUpdate (fun w => fsCall w "writeFileSync" [p] (Fs.write data (locate w p) (fs w))).

(** [FullResult] of @playwright/test/reporter. *)
Inductive FullStatus : Type :=
| run_passed | run_failed | run_timedout | run_interrupted.

Definition fullStatusName (s : FullStatus) : string :=
  match s with
  | run_passed => "passed"
  | run_failed => "failed"
  | run_timedout => "timedout"
  | run_interrupted => "interrupted"
  end.

Record FullResult := {
  fr_status : FullStatus;
  fr_startTime : Z;
  fr_duration : Z;
}.

(** The object [resultContent] of [onEnd], and [reportContent], which is
    [{ ...resultContent, tests: this.testResults }]. *)
Record ResultContent := {
  rc_runId : string;
  rc_startTime : string;
  rc_duration : Z;
  rc_status : FullStatus;
  rc_totalTests : Z;
  rc_passedTests : Z;
  rc_failedTests : Z;
  rc_skippedTests : Z;
  rc_timedOutTests : Z;
  rc_interruptedTests : Z;
}.

Record ReportContent := {
  rep_result : ResultContent;
  rep_tests : list TestReportEntry;
}.

(** What [onEnd] takes from the JavaScript runtime: the two renderings of a
    date and [JSON.stringify(_, null, 2)] on the two objects.  Nothing is
    assumed of them. *)
Record JsRuntime := {
  toLocaleString : Z -> string;
  toISOString : Z -> string;
  JSON_stringify_result : ResultContent -> string;
  JSON_stringify_report : ReportContent -> string;
}.

Definition newline : string := String (Ascii.ascii_of_nat 10) EmptyString.

(** The object literal [resultContent]; [now] is [new Date().getTime()]. *)
Definition resultContentOf (js : JsRuntime) (r : Reporter) (now : Z)
  (result : FullResult) : ResultContent :=
  {| rc_runId := runId r;
     rc_startTime := toISOString js (startTime r);
     rc_duration := now - startTime r;
     rc_status := fr_status result;
     rc_totalTests := totalTests r;
     rc_passedTests := passedCount r;
     rc_failedTests := failedCount r;
     rc_skippedTests := skippedCount r;
     rc_timedOutTests := timedOutCount r;
     rc_interruptedTests := interruptedCount r |}.

(** [onEnd(result)] *)
Definition onEnd (js : JsRuntime) (result : FullResult)
  : M (Reporter * World) unit :=
  r ← this;
  inWorld (console_log newline);;
  inWorld (console_log ("Finished the run with ID: " +:+ runId r
                        +:+ " and status: " +:+ fullStatusName (fr_status result)));;
  inWorld (console_log ("Total duration of test run: "
                        +:+ pretty (fr_duration result) +:+ " ms"));;
  inWorld (console_log ("Test run started at: "
                        +:+ toLocaleString js (fr_startTime result)));;
  now ← inWorld (gets clock);
  let resultContent := resultContentOf js r now result in
  let reportContent :=
    {| rep_result := resultContent; rep_tests := testResults r |} in
  cwd ← inWorld (gets cwd);
  let resultFilePath :=
    Path.resolve cwd [projectRoot r; reportDir r; resultFileName r] in
  inWorld (writeFileSync resultFilePath (JSON_stringify_result js resultContent));;
  let reportFilePath :=
    Path.resolve cwd [projectRoot r; reportDir r; reportFileName r] in
  inWorld (writeFileSync reportFilePath (JSON_stringify_report js reportContent));;
  inWorld (console_log ("chalisha-reporter report saved at: "
                        +:+ Path.resolve cwd [projectRoot r; reportDir r])).

(** ** [readJsonFile] of the uploader

    [parse] is [JSON.parse]; [None] is the [null] the method returns when
    reading or parsing threw. *)
Definition readJsonFile {J : Type} (parse : string -> answer J) (file : string)
  : M World (option J) :=
  tryCatch
    (fileContent ← readFileSync file;
     value ← fsQuery (fun _ => parse fileContent);
     mret (Some value))
    (fun error =>
       console_error ("Error reading or parsing the file: " +:+ message error);;
       mret None).

(** ** Vocabulary for the statements *)

(** The nodes of a step tree at a given level, left to right; level 0 is the
    list itself. *)
Fixpoint stepsAt (k : nat) (steps : list TestStep) : list TestStep :=
  match k with
  | O => steps
  | S k' => flat_map (fun s => stepsAt k' (default [] (step_steps s))) steps
  end.

Fixpoint detailsAt (k : nat) (details : list StepDetails) : list StepDetails :=
  match k with
  | O => details
  | S k' => flat_map (fun d => detailsAt k' (sd_steps d)) details
  end.

(** What a summary says of its own step, and what the step says of itself. *)
Definition ownDetails (d : StepDetails) : string * Z * string * bool :=
  (sd_name d, sd_duration d, sd_location d, sd_error d).

Definition ownStep (cwd projectRoot : string) (s : TestStep) : string * Z * string * bool :=
  (step_title s, step_duration s,
   locationString cwd projectRoot (step_location s),
   match step_error s with Some _ => true | None => false end).

(** The last project of a list that has a given name. *)
Fixpoint lastNamed (k : string) (ps : list Project) : option Project :=
  match ps with
  | [] => None
  | p :: rest =>
      match lastNamed k rest with
      | Some q => Some q
      | None => if String.eqb (project_name p) k then Some p else None
      end
  end.

(** The names under which [browserInfo], empty before [onBegin], has
    something that no project was declared with: the properties of
    [Object.prototype] and, when a project is called ["__proto__"], those of
    its context. *)
Definition inheritedName (ps : list Project) (k : string) : bool :=
  String.eqb k "__proto__"
  || existsb (String.eqb k) objectPrototypeFunctions
  || match lastNamed "__proto__" ps with
     | Some _ =>
         existsb (String.eqb k) ["name"; "headless"; "viewport"; "isMobile"; "hasTouch"]
     | None => false
     end.

(** The connection string [onExit] reads:
    [this.options?.uploaders?.azureBlobStorage?.connectionString]. *)
Definition configuredConnectionString (r : Reporter) : option string :=
  (opt_uploaders (options r) ≫= azureBlobStorage) ≫= connectionString.

(** The output directory the constructor works on:
    [path.resolve(this.projectRoot, this.reportDir)]. *)
Definition outputDirOf (options : ChalishaReporterOptions) (w : World) : string :=
  Path.resolve (cwd w)
    [cwd w; orString (opt_reportDir options) "reports/chalisha-reporter/"].

(** How deep a tree of directories is: 0 for a file, 1 for a directory
    without subdirectories. *)
Fixpoint treeHeight (n : Fs.node) : nat :=
  match n with
  | Fs.File _ => O
  | Fs.Dir es => S (list_max (map (fun e => treeHeight (snd e)) es))
  end.

(** The regular files below a directory, in listing order, each with the
    names that lead to it from the directory (its own name last) and its
    content. *)
Fixpoint filesOf (n : Fs.node) : list (list string * string) :=
  match n with
  | Fs.File _ => []
  | Fs.Dir es =>
      flat_map (fun e =>
        match snd e with
        | Fs.File data => [([fst e], data)]
        | Fs.Dir _ => map (fun f => (fst e :: fst f, snd f)) (filesOf (snd e))
        end) es
  end.

(** The blob path of what is found, name after name, below a directory
    mirrored to [remotePath]: one
    [path.join(remotePath, name).replace(/\\/g, '/')] for each name, the
    result being the remote path of the next. *)
Fixpoint blobPathOf (remotePath : string) (names : list string) : string :=
  match names with
  | [] => remotePath
  | name :: rest =>
      blobPathOf (replaceBackslashes (Path.join [remotePath; name])) rest
  end.

(** A string without a backslash. *)
Definition backslashFree (s : string) : bool :=
  String.eqb (replaceBackslashes s) s.


(** The request that uploads one file of [filesOf] for the remote path [P]:
    at its blob path, with its content, typed by the extension of its own
    name. *)
Definition uploadOf (container P : string) (f : list string * string)
  : NetworkCall :=
  UploadData container (blobPathOf P (fst f)) (snd f)
             (getContentType (default "" (last (fst f)))).

(** An identifier in the form uuid gives: 36 characters, hexadecimal digits
    and dashes. *)
Definition isUuidChar (c : ascii) : bool :=
  let n := Ascii.nat_of_ascii c in
  ((48 <=? n)%nat && (n <=? 57)%nat) || ((97 <=? n)%nat && (n <=? 102)%nat)
  || (n =? 45)%nat.

Fixpoint allChars (p : ascii -> bool) (s : string) : bool :=
  match s with
  | EmptyString => true
  | String c s' => p c && allChars p s'
  end.

Definition isUuid (s : string) : bool :=
  (String.length s =? 36)%nat && allChars isUuidChar s.

(** The identifiers the next [k] calls of [uuidv4()] give. *)
Definition nextUuids (w : World) (k : nat) : list string :=
  map (uuid_source w) (seq (uuid_drawn w) k).

(** The name and path [onTestEnd] gives the copy of an attachment that is
    relocated next: [`${uuidv4()}${path.extname(attachment.path)}`] in
    [path.join(this.reportDir, 'data', newFileName)]. *)
Definition newFileNameOf (w : World) (a : Attachment) : string :=
  uuid_source w (uuid_drawn w) +:+ Path.extname (orString (att_path a) "").

Definition newFilePathOf (r : Reporter) (w : World) (a : Attachment) : string :=
  Path.join [reportDir r; "data"; newFileNameOf w a].

(** The directory of the copies:
    [path.resolve(this.projectRoot, this.reportDir, 'data')]. *)
Definition dataDirectoryOf (r : Reporter) (w : World) : string :=
  Path.resolve (cwd w) [projectRoot r; reportDir r; "data"].

(** The content of the regular file a path names, if it names one. *)
Definition contentAt (w : World) (p : string) : option string :=
  match Fs.find (locate w p) (fs w) with
  | Some (Fs.File data) => Some data
  | _ => None
  end.

(** ** Vocabulary of the proofs *)

(** A string with no ['/'] in it. *)
Definition slashFree (s : string) : Prop := Path.split s = [s].

(** A segment that normalization keeps as it is. *)
Definition proper (s : string) : Prop := s <> "" /\ s <> "." /\ s <> "..".

(** Segments that are file names. *)
Definition names (segs : list string) : Prop :=
  Forall (fun x => proper x /\ slashFree x) segs.

(** The segments and the leading slash of what [join] makes of a prefix. *)
Definition prefixSegments (Q : string) : list string :=
  Path.normalizeSegments (negb (Path.isAbsolute Q)) [] (Path.split Q).

Definition prefixRoot (Q : string) : string :=
  if Path.isAbsolute Q then "/" else "".

Definition notBackslash (c : ascii) : bool := negb (Ascii.eqb c "\").

(** The absolute normalized path with the given segments. *)
Definition renderAbs (segs : list string) : string :=
  "/" +:+ String.concat "/" segs.

(** What is glued before the file name in
    [path.join(this.reportDir, 'data', newFileName)]. *)
Definition dataDirOf (reportDir : string) : string :=
  if String.eqb reportDir "" then "data" else reportDir +:+ "/" +:+ "data".

(** Two paths that part ways: neither leads to the other. *)
Fixpoint diverge (a b : list string) : bool :=
  match a, b with
  | x :: a', y :: b' => if String.eqb x y then diverge a' b' else true
  | _, _ => false
  end.

(** A computation of the reporter that leaves the object's fields alone. *)
Definition keepsThis {A} (m : M (Reporter * World) A) : Prop :=
  forall s, fst (snd (m s)) = fst s.

(** What [onBegin] does for one project. *)
Definition storeProject (project : Project) (r : Reporter) : Reporter :=
  set_browserInfo
    (setProperty (project_name project) (browserContextOf project) (browserInfo r)) r.

(** A computation that only looks at the world and always returns or throws. *)
Definition looksOnly {A} (m : M World A) : Prop :=
  forall w, snd (m w) = w /\ fst (m w) <> Unfinished.

(** Two worlds with the same files, working directory and service. *)
Definition sameFiles (w w' : World) : Prop :=
  fs w' = fs w /\ cwd w' = cwd w /\ azure_fault w' = azure_fault w.

(** A computation that leaves the files and the working directory alone. *)
Definition keepsFiles {A} (m : M World A) : Prop :=
  forall w, sameFiles w (snd (m w)).

(** The entry [readdirSync] lists for an entry of the tree. *)
Definition direntOf (e : string * Fs.node) : Fs.Dirent :=
  {| Fs.name := fst e; Fs.dirent_isDirectory := Fs.isDirectory (snd e) |}.

(** The attachment that replaces a relocated one. *)
Definition relocated (r : Reporter) (w : World) (a : Attachment) : Attachment :=
  {| att_name := att_name a;
     att_contentType := att_contentType a;
     att_path := Some (newFilePathOf r w a);
     att_body := att_body a;
     att_url := Some ("./" +:+ Path.relative (cwd w) (projectRoot r)
                                              (newFilePathOf r w a)) |}.

(** Two worlds that differ by their files and the count of identifiers
    drawn, at most. *)
Definition sameProcess (w w' : World) : Prop :=
  cwd w' = cwd w /\ uuid_source w' = uuid_source w
  /\ azure_fault w' = azure_fault w /\ network w' = network w.

(** Where the directory of the copies is, for a reporter whose project root
    is the working directory [renderAbs C]. *)
Definition dataLoc (r : Reporter) (C : list string) : list string :=
  snd (Path.resolveSegments (renderAbs C) [renderAbs C; reportDir r; "data"]).

(** A location that none of the next [k] copies can take. *)
Definition freshFor (r : Reporter) (C : list string) (w : World) (k : nat)
  (q : list string) : Prop :=
  forall i ext, (i < k)%nat ->
    q <> dataLoc r C ++ [uuid_source w (uuid_drawn w + i) +:+ ext].

(** How many attachments before the [i]-th have a path: as many identifiers
    have been drawn when its turn comes. *)
Fixpoint drawnBefore (i : nat) (atts : list Attachment) : nat :=
  match i, atts with
  | S i', a :: rest =>
      ((if truthy (att_path a) then 1 else 0) + drawnBefore i' rest)%nat
  | _, _ => O
  end.

(** The entry [onTestEnd] appends, given the relocated attachments. *)
Definition entryOf (test : TestCase) (res : TestResult) (r : Reporter)
  (cwd : string) (updatedAttachments : list Attachment) : TestReportEntry :=
  {| e_test :=
       {| ti_title := tc_title test;
          ti_location := locationString cwd (projectRoot r) (tc_location test);
          ti_tags := map ann_type (tc_annotations test);
          ti_retries := tc_retries test;
          ti_expectedStatus := tc_expectedStatus test;
          ti_fileName := file <$> tc_location test;
          ti_suiteTitle := suite_title <$> tc_parent test;
          ti_testId := tc_id test |};
     e_steps := captureNestedSteps cwd (projectRoot r) (Some (tr_steps res)) 0;
     e_attachments := updatedAttachments;
     e_status := tr_status res;
     e_duration := tr_duration res;
     e_errors := tr_errors res;
     e_retry := tr_retry res;
     e_parallelIndex := tr_parallelIndex res;
     e_startTime := tr_startTime res;
     e_workerIndex := tr_workerIndex res;
     e_error := tr_error res;
     e_browser :=
       orEmptyObject
         (getProperty (orString (grandparentTitle test) "unknown") (browserInfo r)) |}.

(** What an entry says of the event it was made for. *)
Definition entryFor (entry : TestReportEntry) (ev : TestCase * TestResult) : Prop :=
  ti_testId (e_test entry) = tc_id (fst ev)
  /\ ti_title (e_test entry) = tc_title (fst ev)
  /\ e_status entry = tr_status (snd ev)
  /\ e_duration entry = tr_duration (snd ev)
  /\ e_retry entry = tr_retry (snd ev)
  /\ length (e_attachments entry) = length (tr_attachments (snd ev)).

(** The events, of those delivered one after the other from a state, whose
    handling returned. *)
Fixpoint returnedEvents (events : list (TestCase * TestResult))
  (s : Reporter * World) : list (TestCase * TestResult) :=
  match events with
  | [] => []
  | (test, result) :: rest =>
      (if succeeds (onTestEnd test result s) then [(test, result)] else [])
      ++ returnedEvents rest (snd (onTestEnd test result s))
  end.

(** Two worlds that differ by their console, at most. *)
Definition sameButConsole (w w' : World) : Prop :=
  fs w' = fs w /\ cwd w' = cwd w /\ network w' = network w
  /\ uuid_drawn w' = uuid_drawn w /\ uuid_source w' = uuid_source w
  /\ clock w' = clock w /\ azure_fault w' = azure_fault w.

(** The two files of [onEnd], and what it writes to them. *)
Definition resultFilePathOf (r : Reporter) (w : World) : string :=
  Path.resolve (cwd w) [projectRoot r; reportDir r; resultFileName r].

Definition reportFilePathOf (r : Reporter) (w : World) : string :=
  Path.resolve (cwd w) [projectRoot r; reportDir r; reportFileName r].

Definition resultTextOf (js : JsRuntime) (r : Reporter) (w : World)
  (result : FullResult) : string :=
  JSON_stringify_result js (resultContentOf js r (clock w) result).

Definition reportTextOf (js : JsRuntime) (r : Reporter) (w : World)
  (result : FullResult) : string :=
  JSON_stringify_report js
    {| rep_result := resultContentOf js r (clock w) result;
       rep_tests := testResults r |}.

(** Two worlds that differ by their files and their console, at most. *)
Definition sameEnvironment (w w' : World) : Prop :=
  cwd w' = cwd w /\ uuid_source w' = uuid_source w
  /\ uuid_drawn w' = uuid_drawn w /\ clock w' = clock w
  /\ network w' = network w /\ azure_fault w' = azure_fault w
  /\ connection_fault w' = connection_fault w.

(** A computation that works on the files and the console only. *)
Definition localOnly {A} (m : M World A) : Prop :=
  forall w, sameEnvironment w (snd (m w)).

(** Two states of a reporter with the fields the constructor fixes. *)
Definition sameSettings (r r' : Reporter) : Prop :=
  reportDir r' = reportDir r /\ runId r' = runId r
  /\ startTime r' = startTime r /\ projectRoot r' = projectRoot r
  /\ reportFileName r' = reportFileName r
  /\ resultFileName r' = resultFileName r
  /\ options r' = options r
  /\ hostAppPackageJson r' = hostAppPackageJson r.

(** Whether the service accepts each of [calls], sent one after the other
    after [start]. *)
Fixpoint accepted (fault : list NetworkCall -> NetworkCall -> option Error)
  (start calls : list NetworkCall) : bool :=
  match calls with
  | [] => true
  | c :: rest =>
      match fault start c with
      | None => accepted fault (start ++ [c]) rest
      | Some _ => false
      end
  end.

(** Requests sent one after the other until one fails: all of [calls], all
    accepted, when the outcome is a return; when it is an exception, the
    calls up to and including the first one the service failed, which it
    failed with that exception. *)
Definition sentUntilFailure
  (fault : list NetworkCall -> NetworkCall -> option Error)
  (start calls : list NetworkCall) (out : result unit) (sent : list NetworkCall)
  : Prop :=
  match out with
  | Ok _ => sent = calls /\ accepted fault start calls = true
  | Throw e =>
      exists before c after,
        calls = before ++ c :: after /\ sent = before ++ [c]
        /\ accepted fault start before = true
        /\ fault (start ++ before) c = Some e
  | Unfinished => False
  end.

(** The container [onExit] uploads to, and the uploader it builds for a
    connection string. *)
Definition configuredContainerName (r : Reporter) : string :=
  orString ((opt_uploaders (options r) ≫= azureBlobStorage) ≫= containerName)
           "reports".

Definition uploaderOf (r : Reporter) (w : World) (connectionString : string)
  : AzureBlobStorageUploader :=
  {| up_containerName := configuredContainerName r;
     up_localReportDir := Path.resolve (cwd w) [cwd w; reportDir r];
     up_connectionString := connectionString;
     up_runId := runId r;
     up_appName := orString (hostAppPackageJson r ≫= pkg_name) "" |}.

(** The requests of [uploadPlaywrightReport] for a report directory: the
    container, then the files. *)
Definition requestsOf (u : AzureBlobStorageUploader) (n : Fs.node)
  : list NetworkCall :=
  CreateIfNotExists (up_containerName u) "container"
  :: map (uploadOf (up_containerName u) (remoteRoot u)) (filesOf n).

(** The second world has the requests and the console lines of the first,
    and possibly more after them. *)
Definition extends (w w' : World) : Prop :=
  (exists sent, network w' = network w ++ sent)
  /\ (exists lines, console w' = console w ++ lines).

(** A computation that only adds to the requests sent and to the console. *)
Definition onlyAdds {A} (m : M World A) : Prop :=
  forall w, extends w (snd (m w)).

(** ** A small run, for the examples *)

Module Sample.

Definition uuids (k : nat) : string :=
  match k with
  | 0%nat => "0f8fad5b-d9cb-469f-a165-70867728950e"
  | 1%nat => "7c9e6679-7425-40de-944b-e07fc1f90ae7"
  | 2%nat => "3f2504e0-4f89-41d3-9a0c-0305e82c3301"
  | _ => "16fd2706-8baf-433b-82eb-8c7fada847da"
  end.

(** /proj is the project, with a report of an earlier run; /tmp holds two
    screenshots; /root is the tree [root/{a.json, sub/b.png}]. *)
Definition tree : Fs.node :=
  Fs.Dir
    [("proj",
      Fs.Dir [("package.json", Fs.File "{ name: shop }");
              ("reports",
               Fs.Dir [("chalisha-reporter",
                        Fs.Dir [("report.json", Fs.File "stale");
                                ("data", Fs.Dir [("old.png", Fs.File "stale")])])])]);
     ("tmp", Fs.Dir [("shot.png", Fs.File "PNG-1"); ("trace.zip", Fs.File "ZIP-1")]);
     ("root",
      Fs.Dir [("a.json", Fs.File "{}");
              ("sub", Fs.Dir [("b.png", Fs.File "PNG-2")])])].

(** Messages in the way of Node: the code and its description, the system
    call of the function, and the paths. *)
Definition syscallOf (function : string) : string :=
  if String.eqb function "readdirSync" then "scandir"
  else if String.eqb function "readFileSync" then "open"
  else if String.eqb function "writeFileSync" then "open"
  else if String.eqb function "copyFileSync" then "copyfile"
  else if String.eqb function "mkdirSync" then "mkdir"
  else if String.eqb function "lstatSync" then "lstat"
  else if String.eqb function "unlinkSync" then "unlink"
  else if String.eqb function "rmdirSync" then "rmdir"
  else function.

Definition nodeMessage (_ : Fs.node) (function : string) (paths : list string)
  (e : Error) : string :=
  if String.eqb function "readFileSync" && String.eqb (message e) (message Fs.EISDIR)
  then message e +:+ ", read"
  else
    message e +:+ ", " +:+ syscallOf function
    +:+ match paths with
        | [p] => " '" +:+ p +:+ "'"
        | [p; q] => " '" +:+ p +:+ "' -> '" +:+ q +:+ "'"
        | _ => ""
        end.

(** A module loader that finds nothing beside the file asked for. *)
Definition notFound (_ : Fs.node) (p : string) : answer string :=
  Failure {| message := "Cannot find module '" +:+ p +:+ "'" |}.

Definition world : World :=
  {| fs := tree;
     cwd := "/proj";
     uuid_source := uuids;
     uuid_drawn := 0;
     clock := 1700000000000;
     console := [];
     JSON_parse := fun _ => Success (Some {| pkg_name := Some "shop" |});
     network := [];
     azure_fault := fun _ _ => None;
     connection_fault := fun _ => None;
     fs_message := nodeMessage;
     module_search := notFound |}.

(** The same process on a disk that has only the project directory. *)
Definition bareWorld : World :=
  set_fs (Fs.Dir [("proj", Fs.Dir [])]) world.

Definition defaults : ChalishaReporterOptions :=
  {| opt_reportDir := None;
     opt_reportFileName := None;
     opt_resultFileName := None;
     opt_uploaders := None |}.

(** The reporter the constructor makes with [defaults]. *)
Definition reporter : Reporter :=
  {| reportDir := "reports/chalisha-reporter/";
     runId := uuids 0;
     passedCount := 0; failedCount := 0; skippedCount := 0;
     timedOutCount := 0; interruptedCount := 0;
     totalTests := 0; startTime := 1700000000000;
     testResults := []; projectRoot := "/proj";
     browserInfo := emptyObject;
     reportFileName := "report.json"; resultFileName := "result.json";
     options := defaults;
     hostAppPackageJson := Some {| pkg_name := Some "shop" |} |}.

(** The process once the run identifier has been drawn. *)
Definition runningWorld : World := set_uuid_drawn 1 world.

Definition screenshot : Attachment :=
  {| att_name := "screenshot"; att_contentType := "image/png";
     att_path := Some "/tmp/shot.png"; att_body := None; att_url := None |}.

Definition config : FullConfig :=
  {| projects :=
       [{| project_name := "chromium";
           project_use := {| use_headless := Some true; use_viewport := None;
                             use_isMobile := None; use_hasTouch := None |} |}] |}.

Definition test : TestCase :=
  {| tc_title := "adds to cart";
     tc_location := Some {| file := "/proj/tests/cart.spec.ts"; line := 12; column := 5 |};
     tc_annotations := [];
     tc_retries := 0;
     tc_expectedStatus := passed;
     tc_id := "t-1";
     tc_parent :=
       Some {| suite_title := "cart.spec.ts";
               suite_parent :=
                 Some {| suite_title := "chromium"; suite_parent := None |} |} |}.

(** A failed test with the same screenshot attached twice. *)
Definition testResult : TestResult :=
  {| tr_status := failed;
     tr_duration := 1500;
     tr_errors := [];
     tr_retry := 0;
     tr_parallelIndex := 0;
     tr_startTime := 1700000000100;
     tr_workerIndex := 0;
     tr_error := None;
     tr_attachments := [screenshot; screenshot];
     tr_steps := [] |}.

Definition uploader : AzureBlobStorageUploader :=
  {| up_containerName := "reports";
     up_localReportDir := "/root";
     up_connectionString := "UseDevelopmentStorage=true";
     up_runId := uuids 0;
     up_appName := "shop" |}.


(** A disk with a directory /mirror that has a file whose name holds a
    backslash, beside a directory [a]. *)
Definition backslashWorld : World :=
  set_fs (Fs.Dir [("mirror",
                   Fs.Dir [("a\b.json", Fs.File "1");
                           ("a", Fs.Dir [("b.json", Fs.File "2")])])]) world.

(** A service that refuses every request. *)
Definition offline : World :=
  {| fs := tree; cwd := "/proj"; uuid_source := uuids; uuid_drawn := 1;
     clock := 1700000000000; console := [];
     JSON_parse := fun _ => Success (Some {| pkg_name := Some "shop" |});
     network := [];
     azure_fault := fun _ _ => Some {| message := "getaddrinfo ENOTFOUND" |};
     connection_fault := fun _ => None;
     fs_message := nodeMessage;
     module_search := notFound |}.

(** A tree of steps six levels deep, one step per level. *)
Definition step (title : string) (children : list TestStep) : TestStep :=
  {| step_title := title; step_duration := 1; step_location := None;
     step_steps := Some children; step_error := None |}.

Definition sixLevels : list TestStep :=
  [step "l0" [step "l1" [step "l2" [step "l3" [step "l4" [step "l5" []]]]]]].

(** A runtime whose renderings are short enough to read. *)
Definition js : JsRuntime :=
  {| toLocaleString := fun t => "local " +:+ pretty t;
     toISOString := fun t => "iso " +:+ pretty t;
     JSON_stringify_result := fun rc =>
       "result " +:+ rc_runId rc +:+ " passed=" +:+ pretty (rc_passedTests rc)
       +:+ " failed=" +:+ pretty (rc_failedTests rc)
       +:+ " total=" +:+ pretty (rc_totalTests rc);
     JSON_stringify_report := fun rep =>
       "report " +:+ rc_runId (rep_result rep) +:+ " tests="
       +:+ pretty (Z.of_nat (length (rep_tests rep))) |}.

Definition fullResult : FullResult :=
  {| fr_status := run_failed; fr_startTime := 1700000000000; fr_duration := 4200 |}.

(** A passed test whose only attachment is a body, without a path. *)
Definition note : Attachment :=
  {| att_name := "note"; att_contentType := "text/plain";
     att_path := None; att_body := Some "hello"; att_url := None |}.

Definition quietResult : TestResult :=
  {| tr_status := passed;
     tr_duration := 20;
     tr_errors := [];
     tr_retry := 0;
     tr_parallelIndex := 0;
     tr_startTime := 1700000000200;
     tr_workerIndex := 0;
     tr_error := None;
     tr_attachments := [note];
     tr_steps := [] |}.

(** A failed test whose screenshot is not on disk. *)
Definition lostScreenshot : Attachment :=
  {| att_name := "screenshot"; att_contentType := "image/png";
     att_path := Some "/tmp/missing.png"; att_body := None; att_url := None |}.

Definition lostResult : TestResult :=
  {| tr_status := failed;
     tr_duration := 1500;
     tr_errors := [];
     tr_retry := 0;
     tr_parallelIndex := 0;
     tr_startTime := 1700000000100;
     tr_workerIndex := 0;
     tr_error := None;
     tr_attachments := [lostScreenshot; screenshot];
     tr_steps := [] |}.

(** Options that name a regular file as report directory. *)
Definition blockedOptions : ChalishaReporterOptions :=
  {| opt_reportDir := Some "package.json";
     opt_reportFileName := None;
     opt_resultFileName := None;
     opt_uploaders := None |}.

(** Options with a connection string, and the reporter made with them. *)
Definition azureOptions : ChalishaReporterOptions :=
  {| opt_reportDir := None;
     opt_reportFileName := None;
     opt_resultFileName := None;
     opt_uploaders :=
       Some {| azureBlobStorage :=
                 Some {| containerName := None;
                         connectionString := Some "UseDevelopmentStorage=true" |} |} |}.

Definition azureReporter : Reporter :=
  {| reportDir := "reports/chalisha-reporter/";
     runId := uuids 0;
     passedCount := 0; failedCount := 0; skippedCount := 0;
     timedOutCount := 0; interruptedCount := 0;
     totalTests := 0; startTime := 1700000000000;
     testResults := []; projectRoot := "/proj";
     browserInfo := emptyObject;
     reportFileName := "report.json"; resultFileName := "result.json";
     options := azureOptions;
     hostAppPackageJson := Some {| pkg_name := Some "shop" |} |}.

(** A client library that rejects every connection string. *)
Definition rejecting : World :=
  {| fs := tree; cwd := "/proj"; uuid_source := uuids; uuid_drawn := 1;
     clock := 1700000000000; console := [];
     JSON_parse := fun _ => Success (Some {| pkg_name := Some "shop" |});
     network := [];
     azure_fault := fun _ _ => None;
     connection_fault := fun _ => Some {| message := "Invalid connection string" |};
     fs_message := nodeMessage;
     module_search := notFound |}.

(** A service that accepts the container and the first upload, and refuses
    every request after them. *)
Definition flaky : World :=
  {| fs := tree; cwd := "/proj"; uuid_source := uuids; uuid_drawn := 1;
     clock := 1700000000000; console := [];
     JSON_parse := fun _ => Success (Some {| pkg_name := Some "shop" |});
     network := [];
     azure_fault := fun sent _ =>
       if (length sent <? 2)%nat then None
       else Some {| message := "503 Server Busy" |};
     connection_fault := fun _ => None;
     fs_message := nodeMessage;
     module_search := notFound |}.

End Sample.

(** * Facts about paths *)

Module PathLemmas.
Import Path.

(** The functions of [path] on the examples of its documentation. *)
Example join_documented :
  join ["/foo"; "bar"; "baz/asdf"; "quux"; ".."] = "/foo/bar/baz/asdf"
  /\ join [] = "." /\ join ["a"; ""; "b/"] = "a/b/".
Proof. repeat split. Qed.

Example normalize_documented :
  normalize "/foo/bar//baz/asdf/quux/.." = "/foo/bar/baz/asdf"
  /\ normalize "" = "." /\ normalize "./" = "./" /\ normalize "a/../.." = ".."
  /\ normalize "/.." = "/".
Proof. repeat split. Qed.

Example resolve_documented :
  resolve "/home/myself/node" ["/foo/bar"; "./baz"] = "/foo/bar/baz"
  /\ resolve "/home/myself/node" ["/foo/bar"; "/tmp/file/"] = "/tmp/file"
  /\ resolve "/home/myself/node" ["wwwroot"; "static_files/png/"; "../gif/image.gif"]
     = "/home/myself/node/wwwroot/static_files/gif/image.gif".
Proof. repeat split. Qed.

Example relative_documented :
  relative "/" "/data/orandea/test/aaa" "/data/orandea/impl/bbb" = "../../impl/bbb"
  /\ relative "/x" "/x/a" "/x" = ".." /\ relative "/x" "" "" = "".
Proof. repeat split. Qed.

Example extname_documented :
  map extname ["index.html"; "index.coffee.md"; "index."; "index"; ".index"; ".index.md"]
  = [".html"; ".md"; "."; ""; ""; ".md"].
Proof. reflexivity. Qed.

Lemma append_cons (x : ascii) (a b : string) :
  String x a +:+ b = String x (a +:+ b).
Proof. reflexivity. Qed.

Lemma append_nil_l (b : string) : "" +:+ b = b.
Proof. reflexivity. Qed.

Lemma append_assoc (a b c : string) : (a +:+ b) +:+ c = a +:+ (b +:+ c).
Proof.
  induction a as [|x a IH]; [reflexivity |].
  rewrite !append_cons. f_equal. exact IH.
Qed.

Lemma append_eq_nil (a b : string) : a +:+ b = "" -> a = "" /\ b = "".
Proof. destruct a; [auto | rewrite append_cons; discriminate]. Qed.

(** *** [split] *)

Lemma split_not_nil (s : string) : split s <> [].
Proof.
  induction s as [|c s IH]; simpl; [discriminate |].
  destruct (Ascii.eqb c "/"); [discriminate |].
  destruct (split s); discriminate.
Qed.

Lemma split_slash (a b : string) : split (a +:+ "/" +:+ b) = split a ++ split b.
Proof.
  induction a as [|c a IH]; [reflexivity |].
  rewrite append_cons. simpl.
  destruct (Ascii.eqb c "/"); [now rewrite IH |].
  rewrite IH. destruct (split a) as [|h t] eqn:E; [|reflexivity].
  now destruct (split_not_nil a).
Qed.

Lemma slashFree_cons (c : ascii) (s : string) :
  slashFree (String c s) <-> Ascii.eqb c "/" = false /\ slashFree s.
Proof.
  unfold slashFree; simpl. destruct (Ascii.eqb c "/") eqn:E.
  - split; [discriminate | intros [? _]; discriminate].
  - split.
    + intros H. split; [reflexivity |].
      destruct (split s) as [|h t] eqn:Es; [now destruct (split_not_nil s) |].
      now inversion H; subst.
    + intros [_ H]. now rewrite H.
Qed.

Lemma split_segments_slashFree (s : string) : Forall slashFree (split s).
Proof.
  induction s as [|c s IH]; simpl.
  - repeat constructor.
  - destruct (Ascii.eqb c "/") eqn:E.
    + constructor; [reflexivity | exact IH].
    + destruct (split s) as [|h t]; [repeat constructor; apply slashFree_cons; now split |].
      inversion IH; subst. constructor; [|assumption].
      apply slashFree_cons. now split.
Qed.

Lemma slashFree_app (a b : string) : slashFree a -> slashFree b -> slashFree (a +:+ b).
Proof.
  induction a as [|c a IH]; [auto |].
  rewrite append_cons.
  intros Ha Hb. apply slashFree_cons in Ha as [Hc Ha].
  apply slashFree_cons. split; [assumption | now apply IH].
Qed.

Lemma split_concat (l : list string) :
  l <> [] -> Forall slashFree l -> split (String.concat "/" l) = l.
Proof.
  induction l as [|x l IH]; [congruence |].
  intros _ H. inversion H as [|? ? Hx Hl]; subst.
  destruct l as [|y l]; [exact Hx |].
  change (String.concat "/" (x :: y :: l))
    with (x +:+ "/" +:+ String.concat "/" (y :: l)).
  rewrite split_slash, Hx, IH; [reflexivity | discriminate | assumption].
Qed.

Lemma concat_app (l : list string) (x : string) :
  l <> [] -> String.concat "/" (l ++ [x]) = String.concat "/" l +:+ "/" +:+ x.
Proof.
  induction l as [|y l IH]; [congruence |]. intros _.
  destruct l as [|z l]; [reflexivity |].
  change (String.concat "/" ((y :: z :: l) ++ [x]))
    with (y +:+ "/" +:+ String.concat "/" ((z :: l) ++ [x])).
  rewrite IH by discriminate.
  change (String.concat "/" (y :: z :: l))
    with (y +:+ "/" +:+ String.concat "/" (z :: l)).
  now rewrite !append_assoc.
Qed.

(** *** Names and normal segment lists *)

Lemma split_single (s h : string) : split s = [h] -> h = s.
Proof.
  revert h. induction s as [|c s IH]; simpl; intros h E; [congruence |].
  destruct (Ascii.eqb c "/").
  - injection E as _ E2. now destruct (split_not_nil s).
  - destruct (split s) as [|h' t] eqn:Es; [now destruct (split_not_nil s) |].
    inversion E; subst. f_equal. now apply IH.
Qed.

Lemma validName_spec (s : string) :
  Fs.validName s = true <-> proper s /\ slashFree s.
Proof.
  unfold Fs.validName, proper, slashFree.
  rewrite !andb_true_iff, !negb_true_iff, !String.eqb_neq.
  split.
  - intros [[[? ?] ?] Hs]. repeat split; try assumption.
    destruct (split s) as [|h [|? ?]] eqn:E; try discriminate.
    now rewrite (split_single s h E).
  - intros [(? & ? & ?) ->]. repeat split; assumption.
Qed.

(** *** [normalizeSegments] *)

Lemma normalizeSegments_app (a : bool) (res l1 l2 : list string) :
  normalizeSegments a res (l1 ++ l2)
  = normalizeSegments a (rev (normalizeSegments a res l1)) l2.
Proof.
  revert res. induction l1 as [|x l1 IH]; intros res; simpl.
  - now rewrite rev_involutive.
  - destruct (String.eqb x "" || String.eqb x "."); [apply IH |].
    destruct (String.eqb x ".."); [| apply IH].
    destruct res as [|top res]; [apply IH |].
    destruct (String.eqb top ".."); apply IH.
Qed.

Lemma normalizeSegments_proper (a : bool) (res l : list string) :
  Forall proper l -> normalizeSegments a res l = rev res ++ l.
Proof.
  revert res. induction l as [|x l IH]; intros res H; simpl.
  - now rewrite app_nil_r.
  - inversion H as [|? ? (H1 & H2 & H3) Hl]; subst.
    apply String.eqb_neq in H1, H2, H3. rewrite H1, H2, H3. simpl.
    rewrite IH by assumption. simpl. now rewrite <- app_assoc.
Qed.

Lemma normalizeSegments_skip (a : bool) (res l : list string) (x : string) :
  x = "" \/ x = "." -> normalizeSegments a res (x :: l) = normalizeSegments a res l.
Proof. intros [-> | ->]; reflexivity. Qed.

(** Without [allowAboveRoot], what is built from proper segments is proper. *)
Lemma normalizeSegments_false_proper (res l : list string) :
  Forall proper res -> Forall proper (normalizeSegments false res l).
Proof.
  revert res. induction l as [|x l IH]; intros res H; simpl.
  - now apply Forall_rev.
  - destruct (String.eqb x "" || String.eqb x ".") eqn:E1; [now apply IH |].
    destruct (String.eqb x "..") eqn:E2.
    + destruct res as [|top res]; [now apply IH |].
      inversion H; subst.
      destruct (String.eqb top ".."); apply IH; [constructor|]; assumption.
    + apply IH. constructor; [|assumption].
      apply orb_false_iff in E1 as [E0 E1].
      apply String.eqb_neq in E0, E1, E2. now repeat split.
Qed.

Lemma normalizeSegments_slashFree (a : bool) (res l : list string) :
  Forall slashFree res -> Forall slashFree l ->
  Forall slashFree (normalizeSegments a res l).
Proof.
  revert res. induction l as [|x l IH]; intros res Hr Hl; simpl.
  - now apply Forall_rev.
  - inversion Hl; subst.
    destruct (String.eqb x "" || String.eqb x "."); [now apply IH |].
    destruct (String.eqb x "..") eqn:E2.
    + destruct res as [|top res].
      * apply IH; [|assumption]. destruct a; repeat constructor.
      * inversion Hr; subst. destruct (String.eqb top "..").
        -- apply IH; [|assumption].
           destruct a; [constructor; [reflexivity |] |]; assumption.
        -- now apply IH.
    + apply IH; [constructor|]; assumption.
Qed.

(** Normalizing a stretch of segments beforehand changes nothing. *)
Lemma normalizeSegments_absorb (a : bool) (res inner l1 l2 : list string) :
  Forall (fun x => x <> "" /\ x <> ".") inner ->
  normalizeSegments a res (normalizeSegments true inner l1 ++ l2)
  = normalizeSegments a res (rev inner ++ l1 ++ l2).
Proof.
  revert inner. induction l1 as [|x l1 IH]; intros inner Hi.
  - reflexivity.
  - cbn [normalizeSegments].
    assert (Hskip : forall y, (y = "" \/ y = ".") ->
      normalizeSegments a res (rev inner ++ y :: l1 ++ l2)
      = normalizeSegments a res (rev inner ++ l1 ++ l2)).
    { intros y Hy. rewrite !(normalizeSegments_app a res (rev inner)).
      now apply normalizeSegments_skip. }
    destruct (String.eqb x "" || String.eqb x ".") eqn:E1.
    { rewrite IH by assumption. symmetry. apply Hskip.
      apply orb_true_iff in E1 as [E|E]; apply String.eqb_eq in E; auto. }
    apply orb_false_iff in E1 as [E0 E1]. apply String.eqb_neq in E0, E1.
    destruct (String.eqb x "..") eqn:E2.
    + apply String.eqb_eq in E2; subst x.
      destruct inner as [|top inner].
      * rewrite IH by (repeat constructor; congruence). reflexivity.
      * inversion Hi as [|? ? [Ht0 Ht1] Hi']; subst.
        destruct (String.eqb top "..") eqn:E3.
        -- rewrite IH by (constructor; [split; congruence | assumption]).
           simpl. now rewrite <- !app_assoc.
        -- rewrite IH by assumption. simpl. rewrite <- !app_assoc. simpl.
           rewrite !(normalizeSegments_app a res (rev inner)).
           set (r := rev (normalizeSegments a res (rev inner))).
           simpl. apply String.eqb_neq in Ht0, Ht1. rewrite Ht0, Ht1, E3. simpl.
           reflexivity.
    + rewrite IH by (constructor; [split; assumption | assumption]).
      simpl. now rewrite <- !app_assoc.
Qed.

(** *** Absolute normalized paths *)

Lemma names_proper (l : list string) : names l -> Forall proper l.
Proof. intros H. eapply Forall_impl; [exact H |]. now intros x [? ?]. Qed.

Lemma names_slashFree (l : list string) : names l -> Forall slashFree l.
Proof. intros H. eapply Forall_impl; [exact H |]. now intros x [? ?]. Qed.

Lemma names_app (l1 l2 : list string) : names l1 -> names l2 -> names (l1 ++ l2).
Proof. intros; now apply Forall_app. Qed.

Lemma normalizeSegments_nil_end (a : bool) (res l : list string) :
  normalizeSegments a res (l ++ [""]) = normalizeSegments a res l.
Proof. rewrite normalizeSegments_app. simpl. apply rev_involutive. Qed.

(** Splitting what was glued gives the segments back, up to empty ones. *)
Lemma normalizeSegments_split_concat (a : bool) (res l : list string) :
  Forall slashFree l ->
  normalizeSegments a res (split (String.concat "/" l)) = normalizeSegments a res l.
Proof.
  intros H. destruct l as [|x l]; [reflexivity |].
  now rewrite split_concat.
Qed.

Lemma split_renderAbs (l : list string) :
  split (renderAbs l) = "" :: split (String.concat "/" l).
Proof. reflexivity. Qed.

Lemma isAbsolute_renderAbs (l : list string) : isAbsolute (renderAbs l) = true.
Proof. reflexivity. Qed.

Lemma eqb_cons_nil (c : ascii) (s : string) : String.eqb (String c s) "" = false.
Proof. reflexivity. Qed.

Lemma concat_names_not_nil (l : list string) :
  l <> [] -> Forall proper l -> String.concat "/" l <> "".
Proof.
  destruct l as [|x l]; [congruence |]. intros _ H.
  inversion H as [|? ? (Hx & _) _]; subst.
  destruct l; [exact Hx |].
  change (String.concat "/" (x :: s :: l))
    with (x +:+ "/" +:+ String.concat "/" (s :: l)).
  intros E. apply append_eq_nil in E as [E _]. contradiction.
Qed.

Lemma endsWithSlash_app (a n : string) :
  n <> "" -> endsWithSlash (a +:+ n) = endsWithSlash n.
Proof.
  intros Hn. induction a as [|c a IH]; [reflexivity |].
  rewrite append_cons. simpl.
  destruct (a +:+ n) eqn:E; [|exact IH].
  apply append_eq_nil in E as [_ E]. contradiction.
Qed.

Lemma endsWithSlash_slashFree (n : string) : slashFree n -> endsWithSlash n = false.
Proof.
  induction n as [|c n IH]; [reflexivity |].
  intros H. apply slashFree_cons in H as [Hc Hn]. simpl.
  destruct n; [exact Hc | now apply IH].
Qed.

Lemma isAbsolute_app (a b : string) : a <> "" -> isAbsolute (a +:+ b) = isAbsolute a.
Proof. destruct a; [congruence | reflexivity]. Qed.

Lemma isAbsolute_slashFree (n : string) : slashFree n -> isAbsolute n = false.
Proof.
  destruct n as [|c n]; [reflexivity |].
  intros H. now apply slashFree_cons in H as [Hc _].
Qed.

(** [resolve] of an absolute normalized path is the path. *)
Lemma resolveSegments_renderAbs (cwd : string) (D : list string) :
  names D -> resolveSegments cwd [renderAbs D] = (true, D).
Proof.
  intros H. unfold resolveSegments. simpl rev. simpl app.
  unfold resolveLoop. rewrite isAbsolute_renderAbs.
  change (String.eqb (renderAbs D) "") with false. cbv iota.
  f_equal. simpl negb.
  unfold renderAbs. rewrite append_assoc.
  change ("/" +:+ String.concat "/" D +:+ "/" +:+ "")
    with (String "/" (String.concat "/" D +:+ "/" +:+ "")).
  change (split (String "/" (String.concat "/" D +:+ "/" +:+ "")))
    with ("" :: split (String.concat "/" D +:+ "/" +:+ "")).
  rewrite split_slash. simpl split at 2.
  rewrite normalizeSegments_skip by auto.
  rewrite normalizeSegments_nil_end.
  rewrite normalizeSegments_split_concat by now apply names_slashFree.
  now rewrite normalizeSegments_proper by now apply names_proper.
Qed.

(** Whatever is resolved in an absolute working directory is absolute and
    normalized. *)
Lemma resolveLoop_absolute (cwd acc : string) (args : list string) :
  isAbsolute cwd = true ->
  exists p, resolveLoop (args ++ [cwd]) acc = (p, true).
Proof.
  intros Hc. revert acc. induction args as [|x args IH]; intros acc; simpl.
  - destruct cwd; [discriminate |].
    rewrite eqb_cons_nil, Hc. eauto.
  - destruct (String.eqb x ""); [apply IH |].
    destruct (isAbsolute x); [eauto | apply IH].
Qed.

Lemma resolveSegments_names (cwd : string) (args : list string) :
  isAbsolute cwd = true ->
  exists N, resolveSegments cwd args = (true, N) /\ names N.
Proof.
  intros Hc. unfold resolveSegments.
  destruct (resolveLoop_absolute cwd "" (rev args) Hc) as [p ->].
  eexists; split; [reflexivity |]. simpl negb.
  apply Forall_forall. intros x Hx. split.
  - pose proof (normalizeSegments_false_proper [] (split p) (List.Forall_nil _)) as F.
    rewrite Forall_forall in F. now apply F.
  - pose proof (normalizeSegments_slashFree false [] (split p) (List.Forall_nil _)
                  (split_segments_slashFree p)) as F.
    rewrite Forall_forall in F. now apply F.
Qed.

Lemma resolve_renderAbs (cwd : string) (args : list string) (N : list string) :
  resolveSegments cwd args = (true, N) -> resolve cwd args = renderAbs N.
Proof. unfold resolve. now intros ->. Qed.

(** A path that [resolve] leaves as it is. *)
Lemma fixed_by_resolve (root cwd : string) :
  isAbsolute root = true -> resolve root [cwd] = cwd ->
  exists C, names C /\ cwd = renderAbs C.
Proof.
  intros Hr E.
  destruct (resolveSegments_names root [cwd] Hr) as (N & HN & Hn).
  exists N. split; [assumption |].
  now rewrite <- E, (resolve_renderAbs _ _ _ HN).
Qed.

(** [join] of a directory and an entry of it. *)
Lemma join_renderAbs (D : list string) (n : string) :
  names D -> proper n -> slashFree n ->
  join [renderAbs D; n] = renderAbs (D ++ [n]).
Proof.
  intros HD Hn Hs. pose proof Hn as (Hn0 & _).
  unfold join. simpl glue.
  change (String.eqb (renderAbs D) "") with false. cbv iota.
  apply String.eqb_neq in Hn0 as Hn0'. rewrite Hn0'.
  unfold normalize.
  change (String.eqb (renderAbs D +:+ "/" +:+ n) "") with false. cbv iota.
  rewrite isAbsolute_app by discriminate. rewrite isAbsolute_renderAbs.
  replace (endsWithSlash (renderAbs D +:+ "/" +:+ n)) with false.
  2:{ symmetry. change (renderAbs D +:+ "/" +:+ n) with (renderAbs D +:+ ("/" +:+ n)).
      rewrite <- append_assoc. rewrite endsWithSlash_app by assumption.
      now apply endsWithSlash_slashFree. }
  unfold normalizeString. simpl negb.
  rewrite split_slash, split_renderAbs, Hs.
  assert (normalizeSegments false [] (("" :: split (String.concat "/" D)) ++ [n])
          = D ++ [n]) as ->.
  { simpl app. rewrite normalizeSegments_skip by auto.
    rewrite normalizeSegments_app.
    rewrite normalizeSegments_split_concat by now apply names_slashFree.
    rewrite (normalizeSegments_proper false [] D) by now apply names_proper.
    rewrite normalizeSegments_proper by (constructor; [exact Hn | constructor]).
    now rewrite rev_involutive. }
  assert (String.concat "/" (D ++ [n]) <> "") as Hne.
  { apply concat_names_not_nil; [now destruct D |].
    apply Forall_app. split; [now apply names_proper |].
    constructor; [exact Hn | constructor]. }
  apply String.eqb_neq in Hne. rewrite Hne. reflexivity.
Qed.

(** *** Relative prefixes *)




Lemma replaceBackslashes_app (a b : string) :
  replaceBackslashes (a +:+ b) = replaceBackslashes a +:+ replaceBackslashes b.
Proof.
  induction a as [|c a IH]; [reflexivity |].
  rewrite append_cons. simpl. rewrite append_cons. now rewrite IH.
Qed.

(** *** [relative] and back *)

Lemma dropCommon_spec (from to : list string) :
  exists common,
    from = common ++ fst (dropCommon from to)
    /\ to = common ++ snd (dropCommon from to).
Proof.
  revert to. induction from as [|f from IH]; intros to.
  - exists []. now destruct to.
  - destruct to as [|t to]; [now exists [] |]. simpl.
    destruct (String.eqb_spec f t) as [->|Hne]; [|now exists []].
    destruct (IH to) as (common & H1 & H2).
    exists (t :: common). simpl. now rewrite <- H1, <- H2.
Qed.

(** One [".."] per segment takes the segments away. *)
Lemma normalizeSegments_up (up base l : list string) :
  Forall proper up ->
  normalizeSegments false (rev up ++ base) (repeat ".." (length up) ++ l)
  = normalizeSegments false base l.
Proof.
  intros H. induction up as [|x up IH] using rev_ind; [reflexivity |].
  apply Forall_app in H as [Hup Hx]. inversion Hx as [|? ? (_ & _ & Hx2) _]; subst.
  rewrite rev_app_distr, length_app. simpl length.
  replace (length up + 1)%nat with (S (length up)) by lia.
  simpl. apply String.eqb_neq in Hx2. rewrite Hx2. now apply IH.
Qed.

Lemma renderAbs_inj (A B : list string) :
  names A -> names B -> renderAbs A = renderAbs B -> A = B.
Proof.
  intros HA HB E.
  pose proof (resolveSegments_renderAbs "/" A HA) as H1.
  pose proof (resolveSegments_renderAbs "/" B HB) as H2.
  rewrite E in H1. congruence.
Qed.

(** Resolving, from a directory, the path that [relative] gives from that
    directory leads where the path led. *)
Lemma resolve_relative (C : list string) (p : string) :
  names C ->
  resolve (renderAbs C) [renderAbs C; "./" +:+ relative (renderAbs C) (renderAbs C) p]
  = resolve (renderAbs C) [p].
Proof.
  intros HC. set (cwd := renderAbs C).
  destruct (resolveSegments_names cwd [p] eq_refl) as (T & HT & HTn).
  pose proof (resolveSegments_renderAbs cwd C HC) as HCs. fold cwd in HCs.
  assert (Hrel : normalizeSegments false (rev C) (split (relative cwd cwd p)) = T).
  { unfold relative.
    destruct (String.eqb_spec cwd p) as [<-|Hne].
    { simpl. rewrite rev_involutive. congruence. }
    rewrite (resolve_renderAbs _ _ _ HT), (resolve_renderAbs _ _ _ HCs).
    destruct (String.eqb_spec (renderAbs C) (renderAbs T)) as [E|Hne'].
    { simpl. rewrite rev_involutive. now apply renderAbs_inj. }
    rewrite HT, HCs. cbn [snd].
    destruct (dropCommon_spec C T) as (common & H1 & H2).
    destruct (dropCommon C T) as [up down]. cbn [fst snd] in H1, H2.
    assert (Hup : names up) by (rewrite H1 in HC; now apply Forall_app in HC).
    assert (Hdown : names down) by (rewrite H2 in HTn; now apply Forall_app in HTn).
    assert (Hcommon : names common) by (rewrite H1 in HC; now apply Forall_app in HC).
    rewrite normalizeSegments_split_concat.
    2:{ apply Forall_app. split; [|now apply names_slashFree].
        clear. induction (length up); simpl; constructor; [reflexivity | assumption]. }
    rewrite H1 at 1. rewrite rev_app_distr.
    rewrite normalizeSegments_up by now apply names_proper.
    rewrite normalizeSegments_proper by now apply names_proper.
    now rewrite rev_involutive, H2. }
  assert (Hurl : resolveSegments cwd [cwd; "./" +:+ relative cwd cwd p] = (true, T)).
  { unfold resolveSegments. simpl rev. simpl app.
    cbn [resolveLoop]. 
    change (String.eqb ("./" +:+ relative cwd cwd p) "") with false.
    change (isAbsolute ("./" +:+ relative cwd cwd p)) with false.
    cbv iota.
    change (String.eqb cwd "") with false. change (isAbsolute cwd) with true.
    cbv iota. f_equal. simpl negb.
    rewrite (split_slash cwd). unfold cwd at 1. rewrite split_renderAbs.
    change (("./" +:+ relative cwd cwd p) +:+ "/" +:+ "")
      with ("." +:+ "/" +:+ (relative cwd cwd p +:+ "/" +:+ "")).
    rewrite (split_slash "."), (split_slash (relative cwd cwd p)).
    change (split ".") with ["."]. change (split "") with [""].
    simpl app. rewrite normalizeSegments_skip by auto.
    rewrite normalizeSegments_app.
    rewrite normalizeSegments_split_concat by now apply names_slashFree.
    rewrite (normalizeSegments_proper false [] C) by now apply names_proper.
    simpl app. rewrite normalizeSegments_skip by auto.
    rewrite normalizeSegments_nil_end. exact Hrel. }
  now rewrite (resolve_renderAbs _ _ _ Hurl), (resolve_renderAbs _ _ _ HT).
Qed.

(** *** The destination of a relocated attachment *)

Lemma normalizeSegments_push (a : bool) (res : list string) (n : string) :
  proper n -> normalizeSegments a res [n] = rev res ++ [n].
Proof.
  intros H. apply normalizeSegments_proper. constructor; [exact H | constructor].
Qed.

Lemma lastSegment_last (l : list string) (n : string) :
  n <> "" -> lastSegment (l ++ [n]) = n.
Proof.
  intros Hn. induction l as [|x l IH]; simpl.
  - reflexivity.
  - rewrite IH. apply String.eqb_neq in Hn. now rewrite Hn.
Qed.

(** The segments [normalizeSegments] gives are never empty nor ["."]. *)
Lemma normalizeSegments_kept (a : bool) (res l : list string) :
  Forall (fun x => x <> "" /\ x <> ".") res ->
  Forall (fun x => x <> "" /\ x <> ".") (normalizeSegments a res l).
Proof.
  revert res. induction l as [|x l IH]; intros res H; simpl.
  - now apply Forall_rev.
  - destruct (String.eqb x "" || String.eqb x ".") eqn:E1; [now apply IH |].
    apply orb_false_iff in E1 as [E0 E1]. apply String.eqb_neq in E0, E1.
    destruct (String.eqb x "..") eqn:E2.
    + destruct res as [|top res].
      * apply IH. destruct a; repeat constructor; discriminate.
      * inversion H; subst. destruct (String.eqb top "..").
        -- apply IH. destruct a; [constructor; [split; discriminate |] |]; assumption.
        -- now apply IH.
    + apply IH. constructor; [now split | assumption].
Qed.

Lemma isAbsolute_concat (x : string) (l : list string) :
  x <> "" -> slashFree x -> isAbsolute (String.concat "/" (x :: l)) = false.
Proof.
  intros Hx Hs. destruct l as [|y l].
  - now apply isAbsolute_slashFree.
  - change (String.concat "/" (x :: y :: l))
      with (x +:+ "/" +:+ String.concat "/" (y :: l)).
    rewrite isAbsolute_app by assumption. now apply isAbsolute_slashFree.
Qed.

Lemma dataDirOf_not_nil (rd : string) : dataDirOf rd <> "".
Proof.
  unfold dataDirOf. destruct (String.eqb_spec rd ""); [discriminate |].
  intros E. apply append_eq_nil in E as [E _]. contradiction.
Qed.

Lemma join_data (rd n : string) :
  proper n -> slashFree n ->
  let absolute := isAbsolute (dataDirOf rd) in
  let M := normalizeSegments (negb absolute) [] (split (dataDirOf rd)) in
  join [rd; "data"; n]
  = (if absolute then "/" else "") +:+ String.concat "/" (M ++ [n]).
Proof.
  intros Hn Hs absolute M. pose proof Hn as (Hn0 & _).
  assert (Hglue : glue None [rd; "data"; n] = Some (dataDirOf rd +:+ "/" +:+ n)).
  { unfold dataDirOf. simpl. apply String.eqb_neq in Hn0. rewrite Hn0.
    destruct (String.eqb rd ""); reflexivity. }
  unfold join. rewrite Hglue. unfold normalize.
  assert (HX : String.eqb (dataDirOf rd +:+ "/" +:+ n) "" = false).
  { apply String.eqb_neq. intros E. apply append_eq_nil in E as [_ E]. discriminate. }
  rewrite HX, isAbsolute_app by apply dataDirOf_not_nil. fold absolute.
  replace (endsWithSlash (dataDirOf rd +:+ "/" +:+ n)) with false.
  2:{ symmetry. change (dataDirOf rd +:+ "/" +:+ n) with (dataDirOf rd +:+ ("/" +:+ n)).
      rewrite <- append_assoc. rewrite endsWithSlash_app by assumption.
      now apply endsWithSlash_slashFree. }
  unfold normalizeString. rewrite split_slash, Hs.
  assert (normalizeSegments (negb absolute) [] (split (dataDirOf rd) ++ [n]) = M ++ [n]) as ->.
  { rewrite normalizeSegments_app. fold M.
    rewrite normalizeSegments_push by assumption. now rewrite rev_involutive. }
  assert (Hne : String.eqb (String.concat "/" (M ++ [n])) "" = false).
  { apply String.eqb_neq. destruct M as [|m M'].
    - exact Hn0.
    - rewrite concat_app by discriminate. intros E.
      apply append_eq_nil in E as [_ E]. discriminate. }
  rewrite Hne. now destruct absolute.
Qed.

Lemma data_segments_slashFree (rd : string) (a : bool) :
  Forall slashFree (normalizeSegments a [] (split (dataDirOf rd))).
Proof.
  apply normalizeSegments_slashFree; [constructor | apply split_segments_slashFree].
Qed.

(** The last component of the destination is the new file name. *)
Lemma basenameOf_join_data (rd n : string) :
  proper n -> slashFree n -> basenameOf (join [rd; "data"; n]) = n.
Proof.
  intros Hn Hs. rewrite (join_data rd n Hn Hs). cbv zeta.
  set (M := normalizeSegments _ [] _).
  assert (HM : Forall slashFree (M ++ [n])).
  { apply Forall_app. split; [apply data_segments_slashFree |].
    constructor; [exact Hs | constructor]. }
  unfold basenameOf.
  assert (Hsplit : split (String.concat "/" (M ++ [n])) = M ++ [n])
    by (apply split_concat; [now destruct M | exact HM]).
  destruct (isAbsolute (dataDirOf rd)).
  - change (split ("/" +:+ String.concat "/" (M ++ [n])))
      with ("" :: split (String.concat "/" (M ++ [n]))).
    rewrite Hsplit. change ("" :: M ++ [n]) with (("" :: M) ++ [n]).
    apply lastSegment_last, Hn.
  - rewrite append_nil_l, Hsplit. apply lastSegment_last, Hn.
Qed.

(** Where the destination is: in the directory
    [path.resolve(projectRoot, reportDir, 'data')], under the new name. *)
Lemma locate_join_data (C : list string) (rd n : string) :
  names C -> proper n -> slashFree n ->
  snd (resolveSegments (renderAbs C) [join [rd; "data"; n]])
  = snd (resolveSegments (renderAbs C) [renderAbs C; rd; "data"]) ++ [n].
Proof.
  intros HC Hn Hs. set (cwd := renderAbs C).
  rewrite (join_data rd n Hn Hs). cbv zeta.
  assert (Hright : snd (resolveSegments cwd [cwd; rd; "data"])
                   = if isAbsolute (dataDirOf rd)
                     then normalizeSegments false [] (split (dataDirOf rd))
                     else normalizeSegments false (rev C) (split (dataDirOf rd))).
  { unfold resolveSegments, dataDirOf. simpl rev. simpl app. cbn [resolveLoop].
    change (String.eqb "data" "") with false. change (isAbsolute "data") with false.
    cbv iota.
    destruct (String.eqb_spec rd "") as [->|Hrd].
    - change (String.eqb cwd "") with false. change (isAbsolute cwd) with true.
      cbv iota. cbn [snd negb].
      rewrite (split_slash cwd). unfold cwd at 1. rewrite split_renderAbs.
      change (split ("data" +:+ "/" +:+ "")) with ["data"; ""].
      change (isAbsolute "data") with false. cbv iota.
      simpl app. rewrite normalizeSegments_skip by auto.
      rewrite normalizeSegments_app.
      rewrite normalizeSegments_split_concat by now apply names_slashFree.
      rewrite (normalizeSegments_proper false [] C) by now apply names_proper.
      simpl app. reflexivity.
    - rewrite isAbsolute_app by assumption.
      destruct (isAbsolute rd) eqn:Ha.
      + cbn [snd negb].
        change (rd +:+ "/" +:+ "data" +:+ "/" +:+ "")
          with (rd +:+ "/" +:+ ("data" +:+ "/" +:+ "")).
        rewrite !(split_slash rd).
        change (split ("data" +:+ "/" +:+ "")) with ["data"; ""].
        change (split "data") with ["data"].
        change ["data"; ""] with (["data"] ++ [""]).
        now rewrite app_assoc, normalizeSegments_nil_end.
      + change (String.eqb cwd "") with false. change (isAbsolute cwd) with true.
        cbv iota. cbn [snd negb].
        rewrite (split_slash cwd). unfold cwd at 1. rewrite split_renderAbs.
        change (rd +:+ "/" +:+ "data" +:+ "/" +:+ "")
          with (rd +:+ "/" +:+ ("data" +:+ "/" +:+ "")).
        rewrite !(split_slash rd).
        change (split ("data" +:+ "/" +:+ "")) with ["data"; ""].
        change (split "data") with ["data"].
        simpl app. rewrite normalizeSegments_skip by auto.
        rewrite normalizeSegments_app.
        rewrite normalizeSegments_split_concat by now apply names_slashFree.
        rewrite (normalizeSegments_proper false [] C) by now apply names_proper.
        simpl app.
        change (split rd ++ ["data"; ""]) with (split rd ++ ["data"] ++ [""]).
        now rewrite app_assoc, normalizeSegments_nil_end. }
  rewrite Hright. clear Hright.
  destruct (isAbsolute (dataDirOf rd)) eqn:Ha; cbn [negb].
  - set (M := normalizeSegments false [] (split (dataDirOf rd))).
    assert (HM : names (M ++ [n])).
    { apply Forall_forall. intros x Hx. apply elem_of_app in Hx as [Hx|Hx].
      - split.
        + pose proof (normalizeSegments_false_proper [] (split (dataDirOf rd))
                        (List.Forall_nil _)) as F.
          rewrite Forall_forall in F. now apply F.
        + pose proof (data_segments_slashFree rd false) as F.
          rewrite Forall_forall in F. now apply F.
      - apply list_elem_of_singleton in Hx as ->. now split. }
    change ("/" +:+ String.concat "/" (M ++ [n])) with (renderAbs (M ++ [n])).
    now rewrite resolveSegments_renderAbs.
  - set (M := normalizeSegments true [] (split (dataDirOf rd))).
    rewrite append_nil_l.
    assert (HMk : Forall (fun x => x <> "" /\ x <> ".") M)
      by (apply normalizeSegments_kept; constructor).
    assert (HMs : Forall slashFree (M ++ [n])).
    { apply Forall_app. split; [apply data_segments_slashFree |].
      constructor; [exact Hs | constructor]. }
    assert (Hrel : isAbsolute (String.concat "/" (M ++ [n])) = false).
    { destruct M as [|m M'].
      - simpl. now apply isAbsolute_slashFree.
      - inversion HMk as [|? ? [Hm _] _]; subst. inversion HMs; subst.
        now apply isAbsolute_concat. }
    assert (Hne : String.eqb (String.concat "/" (M ++ [n])) "" = false).
    { apply String.eqb_neq. destruct Hn as (Hn0 & _). destruct M as [|m M'].
      - exact Hn0.
      - rewrite concat_app by discriminate. intros E.
        apply append_eq_nil in E as [_ E]. discriminate. }
    unfold resolveSegments. simpl rev. simpl app. cbn [resolveLoop].
    rewrite Hne, Hrel.
    change (String.eqb cwd "") with false. change (isAbsolute cwd) with true.
    cbv iota. cbn [snd negb].
    rewrite (split_slash cwd). unfold cwd at 1. rewrite split_renderAbs.
    rewrite (split_slash (String.concat "/" (M ++ [n]))).
    change (split "") with [""].
    rewrite (split_concat (M ++ [n])) by (try assumption; now destruct M).
    simpl app. rewrite normalizeSegments_skip by auto.
    rewrite normalizeSegments_app.
    rewrite normalizeSegments_split_concat by now apply names_slashFree.
    rewrite (normalizeSegments_proper false [] C) by now apply names_proper.
    simpl app.
    rewrite normalizeSegments_nil_end.
    unfold M. rewrite normalizeSegments_absorb by constructor.
    simpl rev. simpl app.
    rewrite normalizeSegments_app, normalizeSegments_push by assumption.
    now rewrite rev_involutive.
Qed.

(** *** [join] of any prefix and a relative path made of names *)

Lemma concat_nil_inv (l : list string) :
  String.concat "/" l = "" -> l = [] \/ l = [""].
Proof.
  destruct l as [|x [|y l]]; simpl; intros E; [now left | right; now subst |].
  apply append_eq_nil in E as [_ E]. discriminate.
Qed.

Lemma concat_app_names_not_nil (M ks : list string) :
  ks <> [] -> names ks -> String.concat "/" (M ++ ks) <> "".
Proof.
  intros Hk Hn E. apply concat_nil_inv in E as [E|E].
  - apply app_eq_nil in E as [_ E]. contradiction.
  - destruct ks as [|k ks] using rev_ind; [contradiction |].
    rewrite app_assoc in E. change [""] with ([] ++ [""]) in E.
    apply app_inj_tail in E as [_ E].
    apply Forall_app in Hn as [_ Hn]. inversion Hn as [|? ? [(H & _) _] _]; subst.
    now apply H.
Qed.

Lemma endsWithSlash_concat (ks : list string) :
  ks <> [] -> names ks -> endsWithSlash (String.concat "/" ks) = false.
Proof.
  induction ks as [|x ks IH]; [congruence |]. intros _ H.
  inversion H as [|? ? [Hp Hs] Hks]; subst.
  destruct ks as [|y ks]; [now apply endsWithSlash_slashFree |].
  change (String.concat "/" (x :: y :: ks))
    with (x +:+ ("/" +:+ String.concat "/" (y :: ks))).
  rewrite <- append_assoc. rewrite endsWithSlash_app.
  - apply IH; [discriminate | assumption].
  - apply concat_names_not_nil; [discriminate | now apply names_proper].
Qed.

Lemma isAbsolute_concat_names (ks : list string) :
  ks <> [] -> names ks -> isAbsolute (String.concat "/" ks) = false.
Proof.
  destruct ks as [|x ks]; [congruence |]. intros _ H.
  inversion H as [|? ? [(Hx & _) Hs] _]; subst. now apply isAbsolute_concat.
Qed.

Lemma join_names (Q : string) (ks : list string) :
  ks <> [] -> names ks ->
  join [Q; String.concat "/" ks]
  = prefixRoot Q +:+ String.concat "/" (prefixSegments Q ++ ks).
Proof.
  intros Hk Hn. set (rel := String.concat "/" ks).
  assert (Hrel : rel <> "") by (apply concat_names_not_nil; [assumption | now apply names_proper]).
  apply String.eqb_neq in Hrel as Hrel'.
  unfold join, prefixRoot, prefixSegments. simpl glue. rewrite Hrel'.
  destruct (String.eqb_spec Q "") as [->|HQ].
  - unfold normalize. rewrite Hrel'.
    assert (isAbsolute rel = false) as -> by now apply isAbsolute_concat_names.
    assert (endsWithSlash rel = false) as -> by now apply endsWithSlash_concat.
    unfold normalizeString. simpl negb.
    assert (normalizeSegments true [] (split rel) = ks) as ->.
    { unfold rel. rewrite normalizeSegments_split_concat by now apply names_slashFree.
      apply normalizeSegments_proper. now apply names_proper. }
    fold rel. rewrite Hrel'. reflexivity.
  - unfold normalize.
    assert (HX : String.eqb (Q +:+ "/" +:+ rel) "" = false).
    { apply String.eqb_neq. intros E. apply append_eq_nil in E as [E _]. contradiction. }
    rewrite HX, isAbsolute_app by assumption.
    replace (endsWithSlash (Q +:+ "/" +:+ rel)) with false.
    2:{ symmetry. change (Q +:+ "/" +:+ rel) with (Q +:+ ("/" +:+ rel)).
        rewrite <- append_assoc. rewrite endsWithSlash_app by assumption.
        now apply endsWithSlash_concat. }
    unfold normalizeString. rewrite split_slash.
    set (M := normalizeSegments (negb (isAbsolute Q)) [] (split Q)).
    assert (normalizeSegments (negb (isAbsolute Q)) [] (split Q ++ split rel) = M ++ ks) as ->.
    { rewrite normalizeSegments_app. fold M. unfold rel.
      rewrite normalizeSegments_split_concat by now apply names_slashFree.
      rewrite normalizeSegments_proper by now apply names_proper.
      now rewrite rev_involutive. }
    pose proof (concat_app_names_not_nil M ks Hk Hn) as Hne.
    apply String.eqb_neq in Hne. rewrite Hne. now destruct (isAbsolute Q).
Qed.

Lemma prefixSegments_slashFree (Q : string) : Forall slashFree (prefixSegments Q).
Proof.
  apply normalizeSegments_slashFree; [constructor | apply split_segments_slashFree].
Qed.

(** One more name after the prefix. *)
Lemma join_step (Q k : string) :
  proper k -> slashFree k ->
  prefixRoot (join [Q; k]) = prefixRoot Q
  /\ prefixSegments (join [Q; k]) = prefixSegments Q ++ [k].
Proof.
  intros Hp Hs.
  assert (Hk : names [k]) by (constructor; [now split | constructor]).
  pose proof (join_names Q [k] ltac:(discriminate) Hk) as E.
  change (String.concat "/" [k]) with k in E. rewrite E.
  unfold prefixRoot, prefixSegments.
  set (M := normalizeSegments (negb (isAbsolute Q)) [] (split Q)).
  assert (HMs : Forall slashFree (M ++ [k])).
  { apply Forall_app. split; [apply prefixSegments_slashFree |].
    constructor; [exact Hs | constructor]. }
  assert (Hsplit : split (String.concat "/" (M ++ [k])) = M ++ [k])
    by (apply split_concat; [now destruct M | exact HMs]).
  destruct (isAbsolute Q) eqn:Ha.
  - change (isAbsolute ("/" +:+ String.concat "/" (M ++ [k]))) with true.
    split; [reflexivity |]. simpl negb.
    change (split ("/" +:+ String.concat "/" (M ++ [k])))
      with ("" :: split (String.concat "/" (M ++ [k]))).
    rewrite Hsplit, normalizeSegments_skip by auto.
    apply normalizeSegments_proper. apply Forall_app. split.
    + apply normalizeSegments_false_proper. constructor.
    + constructor; [exact Hp | constructor].
  - rewrite append_nil_l.
    assert (HMk : Forall (fun x => x <> "" /\ x <> ".") M)
      by (apply normalizeSegments_kept; constructor).
    assert (Hrel : isAbsolute (String.concat "/" (M ++ [k])) = false).
    { destruct M as [|m M'].
      - simpl. now apply isAbsolute_slashFree.
      - inversion HMk as [|? ? [Hm _] _]; subst. inversion HMs; subst.
        now apply isAbsolute_concat. }
    rewrite Hrel. split; [reflexivity |]. simpl negb. rewrite Hsplit.
    unfold M. simpl negb.
    rewrite normalizeSegments_absorb by constructor. simpl rev. simpl app.
    rewrite normalizeSegments_app, normalizeSegments_push by assumption.
    now rewrite rev_involutive.
Qed.

(** Joining name after name is joining the relative path at once. *)
Lemma join_join (Q k : string) (ks : list string) :
  proper k -> slashFree k -> ks <> [] -> names ks ->
  join [join [Q; k]; String.concat "/" ks]
  = join [Q; k +:+ "/" +:+ String.concat "/" ks].
Proof.
  intros Hp Hs Hk Hn.
  destruct (join_step Q k Hp Hs) as [E1 E2].
  rewrite (join_names (join [Q; k]) ks Hk Hn), E1, E2.
  assert (Hkk : names (k :: ks)) by (constructor; [now split | assumption]).
  pose proof (join_names Q (k :: ks) ltac:(discriminate) Hkk) as E.
  replace (String.concat "/" (k :: ks)) with (k +:+ "/" +:+ String.concat "/" ks) in E
    by (now destruct ks).
  rewrite E. now rewrite <- app_assoc.
Qed.



(** *** Backslashes *)

Lemma backslashFree_allChars (s : string) :
  backslashFree s = true <-> allChars notBackslash s = true.
Proof.
  unfold backslashFree. rewrite String.eqb_eq.
  induction s as [|c s IH]; simpl; [tauto |].
  unfold notBackslash at 1. rewrite andb_true_iff, <- IH.
  destruct (Ascii.eqb_spec c "\") as [->|Hne]; simpl.
  - split; [discriminate | intros [? _]; discriminate].
  - split; [intros [= E]; now split | intros [_ ->]; reflexivity].
Qed.

Lemma allChars_app (p : ascii -> bool) (a b : string) :
  allChars p (a +:+ b) = allChars p a && allChars p b.
Proof.
  induction a as [|c a IH]; [reflexivity |].
  rewrite append_cons. simpl. now rewrite IH, andb_assoc.
Qed.

Lemma allChars_split (p : ascii -> bool) (s : string) :
  allChars p s = true -> Forall (fun x => allChars p x = true) (split s).
Proof.
  induction s as [|c s IH]; simpl; [repeat constructor |].
  rewrite andb_true_iff. intros [Hc Hs]. specialize (IH Hs).
  destruct (Ascii.eqb c "/"); [constructor; [reflexivity | assumption] |].
  destruct (split s) as [|x l]; [repeat constructor; simpl; now rewrite Hc |].
  inversion IH; subst. constructor; [simpl; now rewrite Hc | assumption].
Qed.

Lemma allChars_concat (p : ascii -> bool) (l : list string) :
  p "/"%char = true -> Forall (fun x => allChars p x = true) l ->
  allChars p (String.concat "/" l) = true.
Proof.
  intros Hp. induction l as [|x l IH]; [reflexivity |]. intros H.
  inversion H; subst. destruct l as [|y l]; [assumption |].
  change (String.concat "/" (x :: y :: l))
    with (x +:+ "/" +:+ String.concat "/" (y :: l)).
  rewrite !allChars_app. rewrite IH by assumption.
  simpl. rewrite Hp. now rewrite H2.
Qed.

Lemma normalizeSegments_Forall (P : string -> Prop) (a : bool) (res l : list string) :
  P ".." -> Forall P res -> Forall P l -> Forall P (normalizeSegments a res l).
Proof.
  intros Hdd. revert res. induction l as [|x l IH]; intros res Hr Hl; simpl.
  - now apply Forall_rev.
  - inversion Hl; subst.
    destruct (String.eqb x "" || String.eqb x "."); [now apply IH |].
    destruct (String.eqb x "..").
    + destruct res as [|top res].
      * apply IH; [|assumption]. destruct a; repeat constructor; assumption.
      * inversion Hr; subst. destruct (String.eqb top "..").
        -- apply IH; [|assumption]. destruct a; [constructor |]; assumption.
        -- now apply IH.
    + apply IH; [constructor |]; assumption.
Qed.

Lemma backslashFree_join (Q k : string) :
  backslashFree Q = true -> backslashFree k = true ->
  proper k -> slashFree k ->
  backslashFree (join [Q; k]) = true.
Proof.
  intros HQ Hk Hp Hs.
  assert (Hn : names [k]) by (constructor; [now split | constructor]).
  pose proof (join_names Q [k] ltac:(discriminate) Hn) as E.
  change (String.concat "/" [k]) with k in E. rewrite E.
  apply backslashFree_allChars. apply backslashFree_allChars in HQ, Hk.
  rewrite allChars_app. apply andb_true_iff. split.
  - unfold prefixRoot. now destruct (isAbsolute Q).
  - apply allChars_concat; [reflexivity |]. apply Forall_app. split.
    + apply normalizeSegments_Forall; [reflexivity | constructor |].
      now apply allChars_split.
    + constructor; [assumption | constructor].
Qed.

Lemma backslashFree_join_names (Q : string) (ks : list string) :
  backslashFree Q = true -> ks <> [] -> names ks ->
  backslashFree (String.concat "/" ks) = true ->
  backslashFree (join [Q; String.concat "/" ks]) = true.
Proof.
  intros HQ Hk Hn Hb. rewrite (join_names Q ks Hk Hn).
  apply backslashFree_allChars. apply backslashFree_allChars in HQ, Hb.
  rewrite allChars_app. apply andb_true_iff. split.
  - unfold prefixRoot. now destruct (isAbsolute Q).
  - apply allChars_concat; [reflexivity |]. apply Forall_app. split.
    + apply normalizeSegments_Forall; [reflexivity | constructor |].
      now apply allChars_split.
    + apply allChars_split in Hb.
      rewrite split_concat in Hb; [exact Hb | exact Hk | now apply names_slashFree].
Qed.

End PathLemmas.

(** * Facts about the file tree *)

Module FsLemmas.
Import Fs.

Lemma entry_setEntry_eq (k : string) (n : node) (es : list (string * node)) :
  entry k (setEntry k n es) = Some n.
Proof.
  induction es as [|[k' m] es IH]; simpl.
  - now rewrite String.eqb_refl.
  - destruct (String.eqb k' k) eqn:E; simpl; now rewrite E.
Qed.

Lemma entry_setEntry_ne (k k' : string) (n : node) (es : list (string * node)) :
  k <> k' -> entry k' (setEntry k n es) = entry k' es.
Proof.
  intros Hne. induction es as [|[k0 m] es IH]; simpl.
  - apply String.eqb_neq in Hne. now rewrite Hne.
  - destruct (String.eqb_spec k0 k) as [->|Hk]; simpl.
    + apply String.eqb_neq in Hne. now rewrite Hne.
    + destruct (String.eqb k0 k'); [reflexivity | exact IH].
Qed.

Lemma entry_dropEntry_ne (k k' : string) (es : list (string * node)) :
  k <> k' -> entry k' (dropEntry k es) = entry k' es.
Proof.
  intros Hne. induction es as [|[k0 m] es IH]; simpl; [reflexivity |].
  destruct (String.eqb_spec k0 k) as [->|Hk]; simpl.
  - apply String.eqb_neq in Hne. now rewrite Hne.
  - destruct (String.eqb k0 k'); [reflexivity | exact IH].
Qed.

Lemma dropEntry_absent (k : string) (es : list (string * node)) :
  existsb (String.eqb k) (map fst es) = false -> dropEntry k es = es.
Proof.
  induction es as [|[k0 m] es IH]; simpl; [reflexivity |].
  intros H. apply orb_false_iff in H as [H1 H2].
  rewrite String.eqb_sym, H1. f_equal. now apply IH.
Qed.

Lemma find_app (a b : list string) (n : node) :
  find (a ++ b) n = find a n ≫= find b.
Proof.
  revert n. induction a as [|s a IH]; intros n; simpl; [reflexivity |].
  destruct n as [|es]; [reflexivity |].
  destruct (entry s es); [apply IH | reflexivity].
Qed.

Lemma find_cons_Dir (s : string) (rest : list string) (es : list (string * node)) :
  find (s :: rest) (Dir es) = entry s es ≫= find rest.
Proof. simpl. now destruct (entry s es). Qed.

Lemma find_Some_cons (s : string) (rest : list string) (n m : node) :
  find (s :: rest) n = Some m ->
  exists es c, n = Dir es /\ entry s es = Some c /\ find rest c = Some m.
Proof.
  destruct n as [|es]; simpl; [discriminate |].
  destruct (entry s es) as [c|] eqn:E; [|discriminate]. eauto.
Qed.

(** *** Well-formed trees *)

Lemma wf_Dir (es : list (string * node)) :
  wf (Dir es) = true ->
  forallb validName (map fst es) = true
  /\ distinct (map fst es) = true
  /\ forall k c, entry k es = Some c -> wf c = true.
Proof.
  simpl. rewrite !andb_true_iff. intros [[H1 H2] H3]. repeat split; try assumption.
  intros k c. clear H1 H2. induction es as [|[k0 m] es IH]; simpl in *; [discriminate |].
  apply andb_true_iff in H3 as [Hm Hes].
  destruct (String.eqb k0 k); [intros [= <-]; exact Hm | now apply IH].
Qed.

Lemma wf_find (segs : list string) (n m : node) :
  wf n = true -> find segs n = Some m -> wf m = true.
Proof.
  revert n. induction segs as [|s segs IH]; intros n Hn H.
  - simpl in H. now injection H as <-.
  - apply find_Some_cons in H as (es & c & -> & He & Hf).
    apply wf_Dir in Hn as (_ & _ & Hc). eapply IH; eauto.
Qed.

(** *** [remove] *)

Lemma remove_entry (allowed : node -> option Error) (O : list string) (s : string)
  (root c : node) (es : list (string * node)) :
  find O root = Some (Dir es) -> entry s es = Some c -> allowed c = None ->
  exists root',
    remove allowed (O ++ [s]) root = Success root'
    /\ find O root' = Some (Dir (dropEntry s es)).
Proof.
  revert root. induction O as [|o O IH]; intros root Hf He Ha.
  - simpl in Hf. injection Hf as ->. simpl. rewrite He, Ha. eauto.
  - apply find_Some_cons in Hf as (es0 & c0 & -> & He0 & Hf0).
    destruct (IH c0 Hf0 He Ha) as (c0' & Hr & Hf').
    exists (Dir (setEntry o c0' es0)). split.
    + change ((o :: O) ++ [s]) with (o :: (O ++ [s])).
      cbn [remove]. rewrite He0, Hr. now destruct O.
    + rewrite find_cons_Dir, entry_setEntry_eq. exact Hf'.
Qed.

Lemma diverge_prefix (a b : list string) :
  ~ a `prefix_of` b -> ~ b `prefix_of` a -> diverge a b = true.
Proof.
  revert b. induction a as [|x a IH]; intros b Hab Hba.
  - destruct Hab. apply prefix_nil.
  - destruct b as [|y b]; [destruct Hba; apply prefix_nil |].
    simpl. destruct (String.eqb_spec x y) as [->|Hne]; [|reflexivity].
    apply IH; intros H; [apply Hab | apply Hba]; now apply prefix_cons.
Qed.

Lemma diverge_app_r (a b l : list string) :
  diverge a b = true -> diverge a (b ++ l) = true.
Proof.
  revert b. induction a as [|x a IH]; intros b; [discriminate |].
  destruct b as [|y b]; [discriminate |]. simpl.
  destruct (String.eqb x y); [apply IH | reflexivity].
Qed.

(** What [remove] leaves alone. *)
Lemma remove_frame (allowed : node -> option Error) (segs q : list string)
  (root root' : node) :
  remove allowed segs root = Success root' ->
  diverge q segs = true -> find q root' = find q root.
Proof.
  revert q root root'. induction segs as [|s rest IH]; intros q root root' Hr Hd.
  - destruct q; discriminate.
  - destruct q as [|x q]; [discriminate |].
    destruct root as [d|es]; [discriminate |]. cbn [remove] in Hr.
    destruct (entry s es) as [c|] eqn:E; [|discriminate].
    simpl in Hd. destruct (String.eqb_spec x s) as [->|Hne].
    + destruct rest as [|s' rest]; [destruct q; discriminate |].
      destruct (remove allowed (s' :: rest) c) as [c'|e] eqn:Ec; [|discriminate].
      injection Hr as <-. rewrite !find_cons_Dir, entry_setEntry_eq, E. simpl.
      eapply IH; eassumption.
    + destruct rest as [|s' rest].
      * destruct (allowed c); [discriminate |]. injection Hr as <-.
        rewrite !find_cons_Dir, entry_dropEntry_ne; [reflexivity | congruence].
      * destruct (remove allowed (s' :: rest) c) as [c'|e]; [|discriminate].
        injection Hr as <-.
        rewrite !find_cons_Dir, entry_setEntry_ne; [reflexivity | congruence].
Qed.

(** *** [mkdirp] *)

Lemma mkdirp_empty (segs : list string) :
  exists c, mkdirp segs (Dir []) = Success c
            /\ find segs c = Some (Dir [])
            /\ forall q, q `prefix_of` segs -> exists es, find q c = Some (Dir es).
Proof.
  induction segs as [|s segs (c & Hc & Hf & Hp)]; simpl.
  - eexists; repeat split. intros q Hq. apply prefix_nil_inv in Hq as ->. simpl; eauto.
  - rewrite Hc. eexists; split; [reflexivity |]. split.
    + simpl. now rewrite String.eqb_refl.
    + intros q Hq. destruct q as [|x q]; [simpl; eauto |].
      apply prefix_cons_inv_1 in Hq as Hx. subst x.
      apply prefix_cons_inv_2 in Hq. simpl. rewrite String.eqb_refl. now apply Hp.
Qed.

(** When there is nothing at [segs] and no regular file on the way, [mkdirp]
    makes an empty directory there, and every directory on the way is one. *)
Lemma mkdirp_missing (segs : list string) (root : node) :
  find segs root = None ->
  (forall q d, q `prefix_of` segs -> find q root <> Some (File d)) ->
  exists root',
    mkdirp segs root = Success root'
    /\ find segs root' = Some (Dir [])
    /\ forall q, q `prefix_of` segs -> exists es, find q root' = Some (Dir es).
Proof.
  revert root. induction segs as [|s segs IH]; intros root Hn Hp.
  - discriminate.
  - destruct root as [d|es]; [now destruct (Hp [] d (prefix_nil _)) |].
    cbn [mkdirp]. destruct (entry s es) as [c|] eqn:E.
    + simpl default.
      assert (Hn' : find segs c = None) by (now rewrite find_cons_Dir, E in Hn).
      assert (Hp' : forall q d, q `prefix_of` segs -> find q c <> Some (File d)).
      { intros q d Hq. specialize (Hp (s :: q) d (prefix_cons _ _ _ Hq)).
        now rewrite find_cons_Dir, E in Hp. }
      destruct (IH c Hn' Hp') as (c' & Hm & Hf & Hd). rewrite Hm.
      eexists; split; [reflexivity |]. split.
      * now rewrite find_cons_Dir, entry_setEntry_eq.
      * intros q Hq. destruct q as [|x q]; [simpl; eauto |].
        apply prefix_cons_inv_1 in Hq as Hx. subst x.
        apply prefix_cons_inv_2 in Hq.
        rewrite find_cons_Dir, entry_setEntry_eq. now apply Hd.
    + simpl default. destruct (mkdirp_empty segs) as (c' & Hm & Hf & Hd). rewrite Hm.
      eexists; split; [reflexivity |]. split.
      * now rewrite find_cons_Dir, entry_setEntry_eq.
      * intros q Hq. destruct q as [|x q]; [simpl; eauto |].
        apply prefix_cons_inv_1 in Hq as Hx. subst x.
        apply prefix_cons_inv_2 in Hq.
        rewrite find_cons_Dir, entry_setEntry_eq. now apply Hd.
Qed.

Lemma mkdirp_frame (segs q : list string) (root root' : node) :
  mkdirp segs root = Success root' ->
  diverge q segs = true -> find q root' = find q root.
Proof.
  revert q root root'. induction segs as [|s rest IH]; intros q root root' Hr Hd.
  - destruct q; discriminate.
  - destruct q as [|x q]; [discriminate |].
    destruct root as [d|es]; [discriminate |]. cbn [mkdirp] in Hr.
    destruct (mkdirp rest (default (Dir []) (entry s es))) as [c'|e] eqn:Ec;
      [|discriminate].
    injection Hr as <-. simpl in Hd.
    destruct (String.eqb_spec x s) as [->|Hne].
    + rewrite !find_cons_Dir, entry_setEntry_eq. simpl.
      rewrite (IH q _ _ Ec Hd).
      destruct (entry s es) as [c|]; [reflexivity |]. simpl.
      destruct q; [discriminate | reflexivity].
    + rewrite !find_cons_Dir, entry_setEntry_ne; [reflexivity | congruence].
Qed.

(** *** Regular files under [mkdirp] and [write] *)

Lemma mkdirp_keeps_files (segs q : list string) (root root' : node) (d : string) :
  mkdirp segs root = Success root' ->
  find q root = Some (File d) -> find q root' = Some (File d).
Proof.
  revert q root root'. induction segs as [|s rest IH]; intros q root root' Hm Hq.
  - destruct root; simpl in Hm; [discriminate | now injection Hm as <-].
  - destruct root as [d0|es]; [discriminate |]. cbn [mkdirp] in Hm.
    destruct (mkdirp rest (default (Dir []) (entry s es))) as [c'|e] eqn:Ec;
      [|discriminate].
    injection Hm as <-.
    destruct q as [|x q]; [discriminate |].
    rewrite find_cons_Dir in Hq. rewrite find_cons_Dir.
    destruct (String.eqb_spec x s) as [->|Hne].
    + rewrite entry_setEntry_eq. simpl.
      destruct (entry s es) as [c|]; [|discriminate]. simpl in *.
      eapply IH; eassumption.
    + rewrite entry_setEntry_ne by congruence. exact Hq.
Qed.

Lemma write_other (data : string) (segs q : list string) (root root' : node) (d : string) :
  write data segs root = Success root' -> q <> segs ->
  find q root = Some (File d) -> find q root' = Some (File d).
Proof.
  revert q root root'. induction segs as [|s rest IH]; intros q root root' Hw Hne Hq.
  - destruct root; discriminate.
  - destruct root as [d0|es]; [discriminate |]. cbn [write] in Hw.
    destruct q as [|x q]; [discriminate |].
    rewrite find_cons_Dir in Hq.
    destruct rest as [|s' rest].
    + destruct (String.eqb_spec x s) as [->|Hxs].
      * destruct (entry s es) as [[d1|es1]|] eqn:E; try discriminate.
        simpl in Hq. destruct q; [congruence | discriminate].
      * assert (root' = Dir (setEntry s (File data) es)) as ->.
        { destruct (entry s es) as [[?|?]|]; congruence. }
        rewrite find_cons_Dir. now rewrite entry_setEntry_ne by congruence.
    + destruct (entry s es) as [c|] eqn:E; [|discriminate].
      destruct (write data (s' :: rest) c) as [c'|e] eqn:Ec; [|discriminate].
      injection Hw as <-. rewrite find_cons_Dir.
      destruct (String.eqb_spec x s) as [->|Hxs].
      * rewrite entry_setEntry_eq. rewrite E in Hq. simpl in *.
        eapply IH; [eassumption | congruence | assumption].
      * now rewrite entry_setEntry_ne by congruence.
Qed.

Lemma write_same (data : string) (segs : list string) (root root' : node) :
  write data segs root = Success root' -> find segs root' = Some (File data).
Proof.
  revert root root'. induction segs as [|s rest IH]; intros root root' Hw.
  - destruct root; discriminate.
  - destruct root as [d0|es]; [discriminate |]. cbn [write] in Hw.
    destruct rest as [|s' rest].
    + assert (root' = Dir (setEntry s (File data) es)) as ->.
      { destruct (entry s es) as [[?|?]|]; congruence. }
      rewrite find_cons_Dir, entry_setEntry_eq. reflexivity.
    + destruct (entry s es) as [c|] eqn:E; [|discriminate].
      destruct (write data (s' :: rest) c) as [c'|e] eqn:Ec; [|discriminate].
      injection Hw as <-. rewrite find_cons_Dir, entry_setEntry_eq. simpl.
      eapply IH; eassumption.
Qed.

End FsLemmas.

(** * The reporter and the uploader *)

Import PathLemmas FsLemmas.

(** ** Running the monad *)

Lemma run_bind {S A B} (m : M S A) (f : A -> M S B) (s : S) :
  (m ≫= f) s = match m s with
               | (Ok a, s') => f a s'
               | (Throw e, s') => (Throw e, s')
               | (Unfinished, s') => (Unfinished, s')
               end.
Proof. reflexivity. Qed.

Lemma run_ret {S A} (a : A) (s : S) : (mret a : M S A) s = (Ok a, s).
Proof. reflexivity. Qed.

Lemma keepsThis_ret {A} (a : A) : keepsThis (mret a).
Proof. now intros s. Qed.

Lemma keepsThis_inWorld {A} (m : M World A) : keepsThis (inWorld m).
Proof. intros [r w]. unfold inWorld, zoom. simpl. now destruct (m w). Qed.

Lemma keepsThis_this : keepsThis this.
Proof. now intros s. Qed.

Lemma keepsThis_bind {A B} (m : M (Reporter * World) A) (f : A -> M (Reporter * World) B) :
  keepsThis m -> (forall a, keepsThis (f a)) -> keepsThis (m ≫= f).
Proof.
  intros Hm Hf s. rewrite run_bind. specialize (Hm s).
  destruct (m s) as [[a|e|] s']; simpl in *; [|assumption..].
  now rewrite Hf.
Qed.

Lemma keepsThis_mapM {A B} (f : A -> M (Reporter * World) B) (xs : list A) :
  (forall a, keepsThis (f a)) -> keepsThis (mapM f xs).
Proof.
  intros Hf. induction xs as [|x xs IH]; simpl.
  - apply keepsThis_ret.
  - apply keepsThis_bind; [apply Hf |]. intros y.
    apply keepsThis_bind; [apply IH |]. intros ys. apply keepsThis_ret.
Qed.

Lemma keepsThis_relocate (a : Attachment) : keepsThis (relocate a).
Proof.
  unfold relocate. destruct (truthy (att_path a)); [|apply keepsThis_ret].
  repeat first
    [ apply keepsThis_inWorld | apply keepsThis_this | apply keepsThis_ret
    | apply keepsThis_bind; [|intros ?] ].
  destruct (negb _); [apply keepsThis_inWorld | apply keepsThis_ret].
Qed.

Lemma counted_countStatus (st : TestStatus) (r : Reporter) :
  counted (countStatus (statusName st) r) = counted r + 1.
Proof. destruct st; unfold counted; simpl; lia. Qed.

Lemma counted_onTestEnd (test : TestCase) (result : TestResult) (s : Reporter * World) :
  counted (fst (snd (onTestEnd test result s))) = counted (fst s) + 1.
Proof.
  unfold onTestEnd. rewrite run_bind. 
  unfold modifyThis at 1, modify at 1. cbv beta iota.
  set (s1 := (countStatus (statusName (tr_status result)) (fst s), snd s)).
  assert (counted (fst s1) = counted (fst s) + 1) as <- by apply counted_countStatus.
  clearbody s1. rewrite run_bind. unfold this at 1, gets at 1. cbv beta iota.
  rewrite run_bind.
  pose proof (keepsThis_inWorld (gets cwd) s1) as H1.
  destruct (inWorld (gets cwd) s1) as [[c|e|] s2]; simpl in H1; simpl snd; simpl fst; try now rewrite H1.
  rewrite run_bind.
  pose proof (keepsThis_mapM relocate (tr_attachments result) keepsThis_relocate s2) as H2.
  destruct (mapM relocate (tr_attachments result) s2) as [[atts|e|] s3]; simpl in H2; simpl snd; simpl fst; now rewrite H2, H1.
Qed.

Lemma counted_deliver (events : list (TestCase * TestResult)) (s : Reporter * World) :
  counted (fst (deliver events s)) = counted (fst s) + Z.of_nat (length events).
Proof.
  revert s. induction events as [|[test result] events IH]; intros s.
  - simpl. lia.
  - cbn [deliver]. rewrite IH, counted_onTestEnd. cbn [length]. lia.
Qed.

(** ** [captureNestedSteps] *)

Lemma captureStep_eq (cwd root : string) (level : Z) (step : TestStep) :
  captureStep cwd root level step
  = {| sd_name := step_title step;
       sd_duration := step_duration step;
       sd_location := locationString cwd root (step_location step);
       sd_steps := captureNestedSteps cwd root
                     (Some (default [] (step_steps step))) (level + 1);
       sd_error := match step_error step with Some _ => true | None => false end |}.
Proof.
  destruct step as [title duration location [children|] error]; simpl; reflexivity.
Qed.

Lemma captureNestedSteps_eq (cwd root : string) (steps : option (list TestStep)) (level : Z) :
  captureNestedSteps cwd root steps level
  = match steps with
    | None => []
    | Some steps =>
        if (length steps =? 0)%nat || (4 <=? level) then []
        else map (fun step =>
               {| sd_name := step_title step;
                  sd_duration := step_duration step;
                  sd_location := locationString cwd root (step_location step);
                  sd_steps := captureNestedSteps cwd root
                                (Some (default [] (step_steps step))) (level + 1);
                  sd_error := match step_error step with
                              | Some _ => true
                              | None => false
                              end |}) steps
    end.
Proof.
  destruct steps as [steps|]; [|reflexivity]. unfold captureNestedSteps at 1.
  destruct ((length steps =? 0)%nat || (4 <=? level)); [reflexivity |].
  apply map_ext. intros step. apply captureStep_eq.
Qed.

Lemma captureNestedSteps_deep (cwd root : string) (steps : option (list TestStep)) (level : Z) :
  4 <= level -> captureNestedSteps cwd root steps level = [].
Proof.
  intros H. destruct steps as [steps|]; [|reflexivity]. simpl.
  apply Z.leb_le in H. rewrite H. now rewrite orb_true_r.
Qed.

Lemma captureNestedSteps_map (cwd root : string) (steps : list TestStep) (level : Z) :
  level < 4 ->
  captureNestedSteps cwd root (Some steps) level = map (captureStep cwd root level) steps.
Proof.
  intros H. simpl. apply Z.leb_gt in H. rewrite H.
  destruct steps; reflexivity.
Qed.

Lemma flat_map_nil {A B} (f : A -> list B) (l : list A) :
  (forall a, f a = []) -> flat_map f l = [].
Proof. intros H. induction l as [|a l IH]; simpl; [reflexivity | now rewrite H, IH]. Qed.

Lemma flat_map_map {A B C} (f : A -> B) (g : B -> list C) (l : list A) :
  flat_map g (map f l) = flat_map (fun a => g (f a)) l.
Proof. induction l as [|a l IH]; simpl; [reflexivity | now rewrite IH]. Qed.

Lemma map_flat_map {A B C} (f : A -> list B) (g : B -> C) (l : list A) :
  map g (flat_map f l) = flat_map (fun a => map g (f a)) l.
Proof.
  induction l as [|a l IH]; simpl; [reflexivity |].
  now rewrite map_app, IH.
Qed.

Lemma flat_map_ext' {A B} (f g : A -> list B) (l : list A) :
  (forall a, f a = g a) -> flat_map f l = flat_map g l.
Proof. intros H. induction l as [|a l IH]; simpl; [reflexivity | now rewrite H, IH]. Qed.

Lemma flat_map_flat_map {A B C} (f : A -> list B) (g : B -> list C) (l : list A) :
  flat_map g (flat_map f l) = flat_map (fun a => flat_map g (f a)) l.
Proof.
  induction l as [|a l IH]; simpl; [reflexivity |].
  now rewrite flat_map_app, IH.
Qed.

(** The nodes one level down are the children of the nodes of this level. *)
Lemma detailsAt_succ (k : nat) (details : list StepDetails) :
  detailsAt (S k) details = flat_map sd_steps (detailsAt k details).
Proof.
  revert details. induction k as [|k IH]; intros details.
  - simpl. apply flat_map_ext'. reflexivity.
  - change (detailsAt (S (S k)) details)
      with (flat_map (fun d => detailsAt (S k) (sd_steps d)) details).
    change (detailsAt (S k) details)
      with (flat_map (fun d => detailsAt k (sd_steps d)) details).
    rewrite flat_map_flat_map. apply flat_map_ext'. intros d. apply IH.
Qed.

(** Below level 4 the summaries are those of the steps, level by level. *)
Lemma detailsAt_capture_kept (cwd root : string) (k : nat) :
  forall (level : Z) (steps : list TestStep),
    level + Z.of_nat k < 4 ->
    map ownDetails (detailsAt k (captureNestedSteps cwd root (Some steps) level))
    = map (ownStep cwd root) (stepsAt k steps).
Proof.
  induction k as [|k IH]; intros level steps H.
  - rewrite captureNestedSteps_map by lia. simpl.
    rewrite map_map. apply map_ext. intros s. now rewrite captureStep_eq.
  - rewrite captureNestedSteps_map by lia. simpl.
    rewrite flat_map_map, !map_flat_map.
    apply flat_map_ext'. intros s. rewrite captureStep_eq. simpl.
    apply IH. lia.
Qed.

(** From level 4 on there is nothing. *)
Lemma detailsAt_capture_cut (cwd root : string) (k : nat) :
  forall (level : Z) (steps : list TestStep),
    4 <= level + Z.of_nat k ->
    detailsAt k (captureNestedSteps cwd root (Some steps) level) = [].
Proof.
  induction k as [|k IH]; intros level steps H.
  - cbn [detailsAt]. apply captureNestedSteps_deep. lia.
  - destruct (Z.le_gt_cases 4 level) as [Hl|Hl].
    + now rewrite captureNestedSteps_deep.
    + rewrite captureNestedSteps_map by lia. simpl.
      rewrite flat_map_map. apply flat_map_nil. intros s.
      rewrite captureStep_eq. simpl. apply IH. lia.
Qed.

(** C2. [captureNestedSteps] gives nothing for an absent or empty list and at
    level 4 or beyond; otherwise it gives one summary per step, whose
    children are the capture of the step's children one level down.  So, for
    every tree of steps (of depth 6 or any other), the capture from level 0
    has at levels 0 to 3 the summaries of the steps of these levels, every
    summary at level 3 has no children, and there is nothing at level 4. *)
Theorem captureNestedSteps_bounded (cwd root : string)
  (steps : option (list TestStep)) (tree : list TestStep) (level : Z) :
  captureNestedSteps cwd root None level = []
  /\ captureNestedSteps cwd root (Some []) level = []
  /\ captureNestedSteps cwd root steps (Z.max level 4) = []
  /\ captureNestedSteps cwd root steps level
     = match steps with
       | None => []
       | Some steps =>
           if (length steps =? 0)%nat || (4 <=? level) then []
           else map (fun step =>
                  {| sd_name := step_title step;
                     sd_duration := step_duration step;
                     sd_location := locationString cwd root (step_location step);
                     sd_steps := captureNestedSteps cwd root
                                   (Some (default [] (step_steps step))) (level + 1);
                     sd_error := match step_error step with
                                 | Some _ => true
                                 | None => false
                                 end |}) steps
       end
  /\ (let captured := captureNestedSteps cwd root (Some tree) 0 in
      map ownDetails (detailsAt 0 captured) = map (ownStep cwd root) (stepsAt 0 tree)
      /\ map ownDetails (detailsAt 1 captured) = map (ownStep cwd root) (stepsAt 1 tree)
      /\ map ownDetails (detailsAt 2 captured) = map (ownStep cwd root) (stepsAt 2 tree)
      /\ map ownDetails (detailsAt 3 captured) = map (ownStep cwd root) (stepsAt 3 tree)
      /\ Forall (fun d => sd_steps d = []) (detailsAt 3 captured)
      /\ detailsAt 4 captured = []).
Proof.
  split; [reflexivity |]. split; [reflexivity |].
  split; [apply captureNestedSteps_deep; lia |].
  split; [apply captureNestedSteps_eq |].
  cbv zeta. repeat split; try (apply detailsAt_capture_kept; lia).
  - assert (H : detailsAt 4 (captureNestedSteps cwd root (Some tree) 0) = [])
      by (apply detailsAt_capture_cut; lia).
    rewrite detailsAt_succ in H.
    induction (detailsAt 3 (captureNestedSteps cwd root (Some tree) 0)) as [|d ds IHd].
    + constructor.
    + simpl in H. apply app_eq_nil in H as [H1 H2]. constructor; auto.
  - apply detailsAt_capture_cut. lia.
Qed.

(** ** [onBegin] and the browser of a test *)

Lemma run_forEach_cons {S A} (x : A) (xs : list A) (body : A -> M S unit) (s : S) :
  forEach (x :: xs) body s
  = match body x s with
    | (Ok _, s') => forEach xs body s'
    | (Throw e, s') => (Throw e, s')
    | (Unfinished, s') => (Unfinished, s')
    end.
Proof. reflexivity. Qed.

Lemma storeProjects_run (ps : list Project) (s : Reporter * World) :
  forEach ps (fun project => modifyThis (storeProject project)) s
  = (Ok tt, (fold_left (fun r p => storeProject p r) ps (fst s), snd s)).
Proof.
  revert s. induction ps as [|p ps IH]; intros [r w].
  - reflexivity.
  - rewrite run_forEach_cons. unfold modifyThis at 1, modify at 1. cbv beta iota.
    rewrite IH. reflexivity.
Qed.

(** The own properties and the prototype of [browserInfo] after the
    projects have been stored. *)
Lemma storeProjects_own (ps : list Project) (r : Reporter) (k : string) :
  k <> "__proto__" ->
  ownProperties (browserInfo (fold_left (fun r p => storeProject p r) ps r)) !! k
  = match lastNamed k ps with
    | Some p => Some (browserContextOf p)
    | None => ownProperties (browserInfo r) !! k
    end.
Proof.
  intros Hk. revert r. induction ps as [|p ps IH]; intros r; simpl; [reflexivity |].
  rewrite IH. destruct (lastNamed k ps); [reflexivity |].
  unfold storeProject, setProperty. cbn [browserInfo set_browserInfo].
  destruct (String.eqb_spec (project_name p) "__proto__") as [E|_].
  - cbn [ownProperties]. destruct (String.eqb_spec (project_name p) k); congruence.
  - cbn [ownProperties]. destruct (String.eqb_spec (project_name p) k) as [->|Hne].
    + apply lookup_insert_eq.
    + now apply lookup_insert_ne.
Qed.

Lemma storeProjects_prototype (ps : list Project) (r : Reporter) :
  prototype (browserInfo (fold_left (fun r p => storeProject p r) ps r))
  = match lastNamed "__proto__" ps with
    | Some p => Some (browserContextOf p)
    | None => prototype (browserInfo r)
    end.
Proof.
  revert r. induction ps as [|p ps IH]; intros r; simpl; [reflexivity |].
  rewrite IH. destruct (lastNamed "__proto__" ps); [reflexivity |].
  unfold storeProject, setProperty. cbn [browserInfo set_browserInfo].
  now destruct (String.eqb (project_name p) "__proto__").
Qed.

(** Under the name of a declared project there is its context. *)
Lemma storeProjects_declared (ps : list Project) (r : Reporter) (k : string)
  (p : Project) :
  lastNamed k ps = Some p ->
  getProperty k (browserInfo (fold_left (fun r p => storeProject p r) ps r))
  = js_context (browserContextOf p).
Proof.
  intros H. unfold getProperty.
  destruct (String.eqb_spec k "__proto__") as [->|Hk].
  - now rewrite storeProjects_prototype, H.
  - now rewrite (storeProjects_own ps r k Hk), H.
Qed.

(** A stored context, and whatever else is truthy, is kept by [|| {}]. *)
Lemma orEmptyObject_context (c : BrowserContext) :
  orEmptyObject (js_context c) = js_context c.
Proof. reflexivity. Qed.

(** Under a name no project was declared with, an object that was empty has
    what it inherits. *)
Lemma storeProjects_undeclared (ps : list Project) (r : Reporter) (k : string) :
  browserInfo r = emptyObject -> lastNamed k ps = None ->
  getProperty k (browserInfo (fold_left (fun r p => storeProject p r) ps r))
  = if String.eqb k "__proto__" then js_ObjectPrototype
    else match lastNamed "__proto__" ps ≫= (fun p => contextProperty k (browserContextOf p)) with
         | Some v => v
         | None =>
             if existsb (String.eqb k) objectPrototypeFunctions
             then js_function k else js_undefined
         end.
Proof.
  intros Hr H. unfold getProperty. rewrite storeProjects_prototype, Hr.
  destruct (String.eqb_spec k "__proto__") as [->|Hk].
  - now rewrite H.
  - rewrite (storeProjects_own ps r k Hk), H, Hr. cbn [ownProperties emptyObject prototype].
    rewrite lookup_empty. now destruct (lastNamed "__proto__" ps).
Qed.

Lemma onBegin_run (config : FullConfig) (allTests : list TestCase) (s : Reporter * World) :
  onBegin config allTests s
  = (Ok tt,
     (fold_left (fun r p => storeProject p r) (projects config)
        (set_totalTests (Z.of_nat (length allTests)) (fst s)), snd s)).
Proof.
  unfold onBegin. rewrite run_bind. unfold modifyThis at 1, modify at 1.
  cbv beta iota.
  exact (storeProjects_run (projects config)
           (set_totalTests (Z.of_nat (length allTests)) (fst s), snd s)).
Qed.

Lemma bind_Ok_inv {S A B} (m : M S A) (f : A -> M S B) (s s' : S) (b : B) :
  (m ≫= f) s = (Ok b, s') ->
  exists a s1, m s = (Ok a, s1) /\ f a s1 = (Ok b, s').
Proof.
  rewrite run_bind. destruct (m s) as [[a|e|] s1]; [eauto | discriminate..].
Qed.

Lemma run_inWorld {A} (m : M World A) (r : Reporter) (w : World) :
  inWorld m (r, w) = (fst (m w), (r, snd (m w))).
Proof. unfold inWorld, zoom. simpl. now destruct (m w). Qed.

Lemma countStatus_other_fields (st : TestStatus) (r : Reporter) :
  testResults (countStatus (statusName st) r) = testResults r
  /\ browserInfo (countStatus (statusName st) r) = browserInfo r
  /\ projectRoot (countStatus (statusName st) r) = projectRoot r
  /\ reportDir (countStatus (statusName st) r) = reportDir r.
Proof. destruct st; repeat split. Qed.

Lemma onTestEnd_browser (test : TestCase) (result : TestResult) (s1 s2 : Reporter * World) :
  onTestEnd test result s1 = (Ok tt, s2) ->
  exists entry,
    testResults (fst s2) = testResults (fst s1) ++ [entry]
    /\ e_browser entry
       = orEmptyObject
           (getProperty (orString (grandparentTitle test) "unknown")
                        (browserInfo (fst s1))).
Proof.
  unfold onTestEnd. intros H.
  apply bind_Ok_inv in H as (? & sa & Ha & H).
  unfold modifyThis, modify in Ha. injection Ha as _ <-.
  apply bind_Ok_inv in H as (r & sb & Hb & H).
  unfold this, gets in Hb. injection Hb as <- <-.
  apply bind_Ok_inv in H as (c & sc & Hc & H).
  match type of Hc with ?m ?s = _ =>
    pose proof (keepsThis_inWorld (gets cwd) s) as Kc end.
  rewrite Hc in Kc. simpl in Kc.
  apply bind_Ok_inv in H as (atts & sd & Hd & H).
  pose proof (keepsThis_mapM relocate (tr_attachments result) keepsThis_relocate sc) as Kd.
  rewrite Hd in Kd. simpl in Kd.
  unfold modifyThis, modify in H. injection H as <-.
  destruct (countStatus_other_fields (tr_status result) (fst s1)) as (E1 & E2 & _).
  eexists. cbn [fst snd set_testResults testResults]. rewrite Kd, Kc, E1.
  split; [reflexivity |]. cbn [e_browser]. now rewrite E2.
Qed.

(** The events of a run leave [browserInfo] as [onBegin] made it. *)
Lemma browserInfo_onTestEnd (test : TestCase) (result : TestResult)
  (s : Reporter * World) :
  browserInfo (fst (snd (onTestEnd test result s))) = browserInfo (fst s).
Proof.
  unfold onTestEnd. rewrite run_bind.
  unfold modifyThis at 1, modify at 1. cbv beta iota.
  set (s1 := (countStatus (statusName (tr_status result)) (fst s), snd s)).
  assert (browserInfo (fst s1) = browserInfo (fst s)) as <-
    by apply (countStatus_other_fields (tr_status result) (fst s)).
  clearbody s1. rewrite run_bind. unfold this at 1, gets at 1. cbv beta iota.
  rewrite run_bind.
  pose proof (keepsThis_inWorld (gets cwd) s1) as H1.
  destruct (inWorld (gets cwd) s1) as [[c|e|] s2]; simpl in H1; simpl snd; simpl fst;
    try now rewrite H1.
  rewrite run_bind.
  pose proof (keepsThis_mapM relocate (tr_attachments result) keepsThis_relocate s2) as H2.
  destruct (mapM relocate (tr_attachments result) s2) as [[atts|e|] s3];
    simpl in H2; simpl snd; simpl fst; now rewrite H2, H1.
Qed.

Lemma browserInfo_deliver (events : list (TestCase * TestResult)) (s : Reporter * World) :
  browserInfo (fst (deliver events s)) = browserInfo (fst s).
Proof.
  revert s. induction events as [|[test result] events IH]; intros s; [reflexivity |].
  cbn [deliver]. now rewrite IH, browserInfo_onTestEnd.
Qed.

(** C10. [onBegin] returns and stores the context of each project under the
    project's name, the last project of a name winning; in a context a
    setting left out (or falsy) is replaced by its default: headless false,
    viewport 1280x720, isMobile false, hasTouch false (and the name
    ['unknown'] for an empty name), so that a stored context always has a
    viewport.  The browser recorded for a test is what [browserInfo] has
    under the title of the test's grandparent suite (['unknown'] without
    one), or the empty object when that is falsy.  In a run (the object being
    empty before [onBegin]) the browser is the project's context when a
    project was declared with that title, and it is the empty object only
    when none was; under a title that names no project it is the empty
    object unless the title is a name the object inherits, for which it is
    the inherited value: a title such as ['constructor'] or ['toString']
    gives the function of [Object.prototype].  The events of a run do not
    change [browserInfo]: every entry of the run has the browser that the
    object [onBegin] left gives for its title. *)
Theorem onBegin_defaults (config : FullConfig) (allTests : list TestCase)
  (s : Reporter * World) :
  let stored := browserInfo (fst (snd (onBegin config allTests s))) in
  fst (onBegin config allTests s) = Ok tt
  /\ (forall (k : string) (p : Project),
        lastNamed k (projects config) = Some p ->
        getProperty k stored = js_context (browserContextOf p))
  /\ (forall k : string,
        k <> "__proto__" ->
        ownProperties stored !! k
        = match lastNamed k (projects config) with
          | Some p => Some (browserContextOf p)
          | None => ownProperties (browserInfo (fst s)) !! k
          end)
  /\ prototype stored
     = match lastNamed "__proto__" (projects config) with
       | Some p => Some (browserContextOf p)
       | None => prototype (browserInfo (fst s))
       end
  /\ (forall p : Project,
        bc_name (browserContextOf p)
        = (if String.eqb (project_name p) "" then "unknown" else project_name p)
        /\ bc_headless (browserContextOf p)
           = default false (use_headless (project_use p))
        /\ bc_viewport (browserContextOf p)
           = default {| width := 1280; height := 720 |}
                     (use_viewport (project_use p))
        /\ bc_isMobile (browserContextOf p)
           = default false (use_isMobile (project_use p))
        /\ bc_hasTouch (browserContextOf p)
           = default false (use_hasTouch (project_use p)))
  /\ (forall (test : TestCase) (result : TestResult) (s1 s2 : Reporter * World),
        onTestEnd test result s1 = (Ok tt, s2) ->
        exists entry,
          testResults (fst s2) = testResults (fst s1) ++ [entry]
          /\ e_browser entry
             = orEmptyObject
                 (getProperty (orString (grandparentTitle test) "unknown")
                              (browserInfo (fst s1))))
  /\ (browserInfo (fst s) = emptyObject ->
      forall k : string,
        (orEmptyObject (getProperty k stored) = js_emptyObject ->
         lastNamed k (projects config) = None)
        /\ (lastNamed k (projects config) = None ->
            inheritedName (projects config) k = false ->
            orEmptyObject (getProperty k stored) = js_emptyObject)
        /\ (lastNamed k (projects config) = None ->
            In k objectPrototypeFunctions ->
            orEmptyObject (getProperty k stored) = js_function k))
  /\ (forall (events : list (TestCase * TestResult)) (test : TestCase)
             (result : TestResult) (s2 : Reporter * World),
        let s1 := deliver events (snd (onBegin config allTests s)) in
        onTestEnd test result s1 = (Ok tt, s2) ->
        exists entry,
          testResults (fst s2) = testResults (fst s1) ++ [entry]
          /\ e_browser entry
             = orEmptyObject
                 (getProperty (orString (grandparentTitle test) "unknown") stored)).
Proof.
  intros stored. subst stored. rewrite onBegin_run. cbn [fst snd].
  set (r0 := set_totalTests (Z.of_nat (length allTests)) (fst s)).
  split; [reflexivity |].
  split; [intros k p H; now apply storeProjects_declared |].
  split; [intros k Hk; now rewrite (storeProjects_own _ r0 k Hk) |].
  split; [now rewrite storeProjects_prototype |].
  split; [intros [name [[[|]|] [v|] [[|]|] [[|]|]]]; repeat split |].
  split; [apply onTestEnd_browser |].
  split.
  2:{ intros events test result s2 Hrun.
      destruct (onTestEnd_browser test result _ s2 Hrun) as (entry & He & Hb).
      exists entry. split; [exact He |]. rewrite Hb.
      now rewrite browserInfo_deliver. }
  intros Hempty k.
  assert (Hr0 : browserInfo r0 = emptyObject) by exact Hempty.
  split; [|split].
  - intros H. destruct (lastNamed k (projects config)) as [p|] eqn:E; [|reflexivity].
    rewrite (storeProjects_declared _ r0 k p E) in H. discriminate.
  - intros E Hin. rewrite (storeProjects_undeclared _ r0 k Hr0 E).
    unfold inheritedName in Hin.
    apply orb_false_iff in Hin as [Hin H3]. apply orb_false_iff in Hin as [H1 H2].
    rewrite H1, H2.
    destruct (lastNamed "__proto__" (projects config)) as [p|]; [|reflexivity].
    cbn [mbind option_bind]. unfold contextProperty.
    cbn [existsb] in H3. rewrite !orb_false_iff in H3.
    destruct H3 as (-> & -> & -> & -> & -> & _). reflexivity.
  - intros E Hin. rewrite (storeProjects_undeclared _ r0 k Hr0 E).
    assert (Hk : existsb (String.eqb k) objectPrototypeFunctions = true).
    { apply existsb_exists. exists k. split; [exact Hin | apply String.eqb_refl]. }
    rewrite Hk.
    assert (Hp : String.eqb k "__proto__" = false).
    { cbn [objectPrototypeFunctions In] in Hin.
      repeat (destruct Hin as [<-|Hin]; [reflexivity |]). contradiction. }
    rewrite Hp.
    assert (Hc : forall c, contextProperty k c = None).
    { intros c. unfold contextProperty. cbn [objectPrototypeFunctions In] in Hin.
      repeat (destruct Hin as [<-|Hin]; [reflexivity |]). contradiction. }
    destruct (lastNamed "__proto__" (projects config)) as [p|]; [|reflexivity].
    cbn [mbind option_bind]. now rewrite Hc.
Qed.

(** ** [onExit] without a connection string *)

(** C7. When the connection string option is absent or empty, [onExit]
    returns without throwing and nothing has happened: no uploader was
    built, no request was sent, nothing was written. *)
Theorem onExit_without_connection_string (budget : nat) (r : Reporter) (w : World) :
  configuredConnectionString r = None \/ configuredConnectionString r = Some "" ->
  onExit budget (r, w) = (Ok tt, (r, w)).
Proof.
  intros H. unfold onExit. rewrite run_bind. unfold this, gets. cbv beta iota.
  cbn [fst]. unfold configuredConnectionString in H.
  destruct H as [H | H]; rewrite H; reflexivity.
Qed.

(** ** The constructor and the output directory *)

Lemma looksOnly_gets {A} (f : World -> A) : looksOnly (gets f).
Proof. now intros w. Qed.

Lemma looksOnly_fsQuery {A} (op : World -> answer A) : looksOnly (fsQuery op).
Proof. intros w. unfold fsQuery. now destruct (op w). Qed.

Lemma looksOnly_require_resolve (p : string) : looksOnly (require_resolve p).
Proof.
  intros w. unfold require_resolve.
  destruct (Fs.find (locate w p) (fs w)) as [[|]|];
    try destruct (module_search w (fs w) p); now split.
Qed.

Lemma looksOnly_bind {A B} (m : M World A) (f : A -> M World B) :
  looksOnly m -> (forall a, looksOnly (f a)) -> looksOnly (m ≫= f).
Proof.
  intros Hm Hf w. rewrite run_bind. destruct (Hm w) as [H1 H2].
  destruct (m w) as [[a|e|] w']; simpl in *; subst; [apply Hf | now split | congruence].
Qed.

Lemma sameFiles_refl (w : World) : sameFiles w w.
Proof. now repeat split. Qed.

Lemma sameFiles_trans (w1 w2 w3 : World) :
  sameFiles w1 w2 -> sameFiles w2 w3 -> sameFiles w1 w3.
Proof. intros (? & ? & ?) (? & ? & ?); repeat split; congruence. Qed.

Lemma getHostAppPackageJson_run (w : World) :
  exists pkg w', getHostAppPackageJson w = (Ok pkg, w') /\ sameFiles w w'
                 /\ uuid_drawn w' = uuid_drawn w /\ uuid_source w' = uuid_source w.
Proof.
  unfold getHostAppPackageJson, tryCatch.
  match goal with |- context [match ?body w with _ => _ end] =>
    assert (L : looksOnly body) end.
  { apply looksOnly_bind; [apply looksOnly_gets | intros c].
    apply looksOnly_bind; [apply looksOnly_require_resolve | intros p].
    apply looksOnly_bind; [apply looksOnly_fsQuery | intros t].
    apply looksOnly_fsQuery. }
  destruct (L w) as [L1 L2].
  match goal with |- context [match ?body w with _ => _ end] =>
    destruct (body w) as [[pkg|e|] w1] end; simpl in L1, L2; subst.
  - do 2 eexists. split; [reflexivity |]. repeat split.
  - do 2 eexists. split; [reflexivity |]. repeat split.
  - congruence.
Qed.

Section OutputDirectory.

Variable w0 : World.
Hypothesis cwd_normal : Path.resolve "/" [cwd w0] = cwd w0.

Lemma cwd_absolute : Path.isAbsolute (cwd w0) = true.
Proof.
  destruct (fixed_by_resolve "/" (cwd w0) eq_refl cwd_normal) as (C & _ & ->).
  reflexivity.
Qed.

(** Where a path given to [path.resolve] is. *)
Lemma locate_resolve (w : World) (args : list string) :
  cwd w = cwd w0 ->
  exists N, Path.resolve (cwd w) args = renderAbs N /\ names N
            /\ locate w (Path.resolve (cwd w) args) = N.
Proof.
  intros E. rewrite E.
  destruct (resolveSegments_names (cwd w0) args cwd_absolute) as (N & HN & Hn).
  exists N. rewrite (resolve_renderAbs _ _ _ HN). repeat split; try assumption.
  unfold locate. now rewrite resolveSegments_renderAbs.
Qed.

Lemma locate_renderAbs (w : World) (N : list string) :
  names N -> locate w (renderAbs N) = N.
Proof. intros H. unfold locate. now rewrite resolveSegments_renderAbs. Qed.

(** The loop of [cleanDirectory] on the entries of the directory at [O]. *)
Lemma cleanDirectory_loop (O : list string) (es : list (string * Fs.node)) :
  names O ->
  forall w : World,
    cwd w = cwd w0 ->
    Fs.find O (fs w) = Some (Fs.Dir es) ->
    forallb Fs.validName (map fst es) = true ->
    Fs.distinct (map fst es) = true ->
    exists w',
      forEach (map fst es) (fun file =>
        isDir ← lstatSync_isDirectory (Path.join [renderAbs O; file]);
        if isDir : bool then rmdirSync_recursive (Path.join [renderAbs O; file])
        else unlinkSync (Path.join [renderAbs O; file])) w = (Ok tt, w')
      /\ cwd w' = cwd w0
      /\ Fs.find O (fs w') = Some (Fs.Dir [])
      /\ (forall q, diverge q O = true -> Fs.find q (fs w') = Fs.find q (fs w))
      /\ uuid_drawn w' = uuid_drawn w
      /\ network w' = network w.
Proof.
  intros HO. induction es as [|[k c] es IH]; intros w Hc Hf Hv Hd.
  - exists w. repeat split; assumption.
  - simpl map. rewrite run_forEach_cons. cbv zeta.
    simpl in Hv, Hd. apply andb_true_iff in Hv as [Hk Hv].
    apply andb_true_iff in Hd as [Hk' Hd]. apply negb_true_iff in Hk'.
    apply validName_spec in Hk as [Hkp Hks].
    rewrite (join_renderAbs O k HO Hkp Hks).
    assert (HOk : names (O ++ [k])).
    { apply names_app; [assumption |]. constructor; [now split | constructor]. }
    rewrite run_bind. unfold lstatSync_isDirectory, fsQuery, fsCall.
    rewrite (locate_renderAbs w _ HOk), find_app, Hf. simpl mbind.
    cbn [Fs.find Fs.entry]. rewrite String.eqb_refl.
    set (allowed := fun isDir : bool => fun n : Fs.node =>
           if isDir then (if Fs.isDirectory n then None else Some Fs.ENOTDIR)
           else (if Fs.isDirectory n then Some Fs.EISDIR else None)).
    assert (Hallow : allowed (Fs.isDirectory c) c = None)
      by (unfold allowed; destruct c; reflexivity).
    assert (Hentry : Fs.entry k ((k, c) :: es) = Some c)
      by (simpl; now rewrite String.eqb_refl).
    destruct (remove_entry (allowed (Fs.isDirectory c)) O k (fs w) c _ Hf Hentry Hallow)
      as (root' & Hr & Hf').
    assert (Hstep : (if Fs.isDirectory c
                     then rmdirSync_recursive (renderAbs (O ++ [k]))
                     else unlinkSync (renderAbs (O ++ [k]))) w
                    = (Ok tt, set_fs root' w)).
    { unfold allowed in Hr.
      destruct (Fs.isDirectory c);
        unfold rmdirSync_recursive, unlinkSync, fsUpdate, fsCall; cbv beta;
        rewrite (locate_renderAbs w _ HOk), Hr; reflexivity. }
    rewrite Hstep.
    simpl in Hf'. rewrite String.eqb_refl in Hf'.
    rewrite (dropEntry_absent k es) in Hf' by assumption.
    destruct (IH (set_fs root' w) Hc Hf' Hv Hd) as (w' & Hrun & Hc' & Hfin & Hframe & Hu & Hn).
    exists w'. split; [exact Hrun |]. repeat split; try assumption.
    intros q Hq. rewrite (Hframe q Hq). simpl.
    eapply remove_frame; [exact Hr |]. now apply diverge_app_r.
Qed.

Lemma cleanDirectory_run (O : list string) (es : list (string * Fs.node)) (w : World) :
  names O -> cwd w = cwd w0 ->
  Fs.find O (fs w) = Some (Fs.Dir es) ->
  Fs.wf (Fs.Dir es) = true ->
  exists w',
    cleanDirectory (renderAbs O) w = (Ok tt, w')
    /\ Fs.find O (fs w') = Some (Fs.Dir [])
    /\ (forall q, diverge q O = true -> Fs.find q (fs w') = Fs.find q (fs w)).
Proof.
  intros Hn Hc Hf Hw. apply wf_Dir in Hw as (Hv & Hd & _).
  unfold cleanDirectory. rewrite run_bind.
  unfold readdirSync at 1, fsQuery at 1, fsCall at 1, Fs.readdir at 1.
  rewrite (locate_renderAbs w O Hn), Hf.
  rewrite map_map. simpl Fs.name.
  change (map (fun x : string * Fs.node => fst x) es) with (map fst es).
  rewrite run_bind.
  destruct (cleanDirectory_loop O es Hn w Hc Hf Hv Hd)
    as (w3 & Hrun & Hc3 & Hf3 & Hframe & _).
  cbv zeta. rewrite Hrun. eexists. split; [reflexivity |]. simpl. split; assumption.
Qed.

Lemma locate_same_cwd (w w' : World) (p : string) :
  cwd w' = cwd w -> locate w' p = locate w p.
Proof. unfold locate. now intros ->. Qed.

(** C5. In a process whose working directory is an absolute normalized path
    and whose file tree is well formed: when the output directory exists,
    constructing the reporter succeeds and leaves it in place and empty,
    nothing beside it being touched; when there is nothing at its path and no
    regular file on the way to it, constructing the reporter creates it,
    empty, with every directory on the way. *)
Theorem constructor_output_directory (options : ChalishaReporterOptions) :
  Fs.wf (fs w0) = true ->
  let O := locate w0 (outputDirOf options w0) in
  (forall es,
     Fs.find O (fs w0) = Some (Fs.Dir es) ->
     exists r w',
       newChalishaReporter options w0 = (Ok r, w')
       /\ Fs.find O (fs w') = Some (Fs.Dir [])
       /\ (forall q, ~ q `prefix_of` O -> ~ O `prefix_of` q ->
                     Fs.find q (fs w') = Fs.find q (fs w0)))
  /\ (Fs.find O (fs w0) = None ->
      (forall q d, q `prefix_of` O -> Fs.find q (fs w0) <> Some (Fs.File d)) ->
      exists r w',
        newChalishaReporter options w0 = (Ok r, w')
        /\ Fs.find O (fs w') = Some (Fs.Dir [])
        /\ (forall q, q `prefix_of` O -> exists es, Fs.find q (fs w') = Some (Fs.Dir es))
        /\ (forall q, ~ q `prefix_of` O -> ~ O `prefix_of` q ->
                      Fs.find q (fs w') = Fs.find q (fs w0))).
Proof.
  intros Hwf O.
  set (reportDir := orString (opt_reportDir options) "reports/chalisha-reporter/").
  destruct (locate_resolve w0 [cwd w0; reportDir] eq_refl) as (N & HN & Hn & HO).
  subst N.
  assert (HN' : outputDirOf options w0 = renderAbs O) by exact HN.
  assert (Hn' : names O) by exact Hn.
  clear HN Hn. rename HN' into HN. rename Hn' into Hn.
  set (w1 := set_uuid_drawn (S (uuid_drawn w0)) w0).
  destruct (getHostAppPackageJson_run w1) as (pkg & w2 & Hpkg & (Hfs & Hcwd & _) & _).
  change (fs w1) with (fs w0) in Hfs. change (cwd w1) with (cwd w0) in Hcwd.
  assert (Hstart : forall k : Reporter -> M World Reporter,
    newChalishaReporter options w0
    = ((there ← existsSync (outputDirOf options w0);
        (if negb there then mkdirSync_recursive (outputDirOf options w0)
         else cleanDirectory (outputDirOf options w0));;
        mret {| reportDir := reportDir; runId := uuid_source w0 (uuid_drawn w0);
                passedCount := 0; failedCount := 0; skippedCount := 0;
                timedOutCount := 0; interruptedCount := 0;
                totalTests := 0; startTime := clock w0;
                testResults := []; projectRoot := cwd w0;
                browserInfo := emptyObject;
                reportFileName := orString (opt_reportFileName options) "report.json";
                resultFileName := orString (opt_resultFileName options) "result.json";
                options := options;
                hostAppPackageJson := pkg |}) w2)).
  { intros _. unfold newChalishaReporter.
    rewrite run_bind. unfold gets at 1. cbv beta iota.
    rewrite run_bind. unfold uuidv4 at 1. cbv beta iota. fold w1.
    rewrite run_bind. unfold gets at 1. cbv beta iota.
    rewrite run_bind, Hpkg.
    rewrite run_bind. unfold gets at 1. cbv beta iota.
    rewrite Hcwd. reflexivity. }
  rewrite (Hstart (fun r => mret r)). clear Hstart.
  assert (Hthere : existsSync (outputDirOf options w0) w2
                   = (Ok (match Fs.find O (fs w0) with
                          | Some _ => true
                          | None => false
                          end), w2)).
  { unfold existsSync, gets. now rewrite (locate_same_cwd w0 w2 _ Hcwd), Hfs. }
  rewrite run_bind, Hthere.
  split.
  - intros es Hf. rewrite Hf. simpl negb. cbv iota.
    rewrite run_bind. rewrite HN.
    pose proof (wf_find O _ _ Hwf Hf) as Hw.
    rewrite <- Hfs in Hf.
    destruct (cleanDirectory_run O es w2 Hn Hcwd Hf Hw) as (w3 & Hrun & Hf3 & Hframe).
    rewrite Hrun. cbv beta iota.
    do 2 eexists. split; [reflexivity |]. simpl. split; [exact Hf3 |].
    intros q H1 H2. rewrite Hframe by now apply diverge_prefix.
    now rewrite Hfs.
  - intros Hf Hfree. rewrite Hf. simpl negb. cbv iota.
    rewrite run_bind. destruct (mkdirp_missing O (fs w0) Hf Hfree) as (root' & Hm & Hd & Hp).
    unfold mkdirSync_recursive, fsUpdate, fsCall.
    rewrite (locate_same_cwd w0 w2 _ Hcwd), Hfs. fold O. rewrite Hm.
    do 2 eexists. split; [reflexivity |]. simpl. split; [exact Hd |].
    split; [exact Hp |].
    intros q H1 H2. eapply mkdirp_frame; [exact Hm |]. now apply diverge_prefix.
Qed.

End OutputDirectory.

(** ** The uploader *)

Lemma keepsFiles_ret {A} (a : A) : keepsFiles (mret a).
Proof. intros w. apply sameFiles_refl. Qed.

Lemma keepsFiles_console_log (line : string) : keepsFiles (console_log line).
Proof. intros w. now repeat split. Qed.

Lemma keepsFiles_fsQuery {A} (op : World -> answer A) : keepsFiles (fsQuery op).
Proof. intros w. unfold fsQuery. destruct (op w); apply sameFiles_refl. Qed.

Lemma keepsFiles_request (c : NetworkCall) : keepsFiles (request c).
Proof.
  intros w. unfold request.
  now destruct (azure_fault w (network w) c); repeat split.
Qed.

Lemma keepsFiles_bind {A B} (m : M World A) (f : A -> M World B) :
  keepsFiles m -> (forall a, keepsFiles (f a)) -> keepsFiles (m ≫= f).
Proof.
  intros Hm Hf w. rewrite run_bind. specialize (Hm w).
  destruct (m w) as [[a|e|] w']; simpl in *; [|assumption..].
  eapply sameFiles_trans; [exact Hm | apply Hf].
Qed.

Lemma keepsFiles_forEach {A} (xs : list A) (body : A -> M World unit) :
  (forall x, keepsFiles (body x)) -> keepsFiles (forEach xs body).
Proof.
  intros Hb. induction xs as [|x xs IH]; simpl.
  - apply keepsFiles_ret.
  - apply keepsFiles_bind; [apply Hb | intros _; exact IH].
Qed.

Lemma keepsFiles_tryCatch {A} (body : M World A) (handler : Error -> M World A) :
  keepsFiles body -> (forall e, keepsFiles (handler e)) ->
  keepsFiles (tryCatch body handler).
Proof.
  intros Hb Hh w. unfold tryCatch. specialize (Hb w).
  destruct (body w) as [[a|e|] w']; simpl in *; [assumption | | assumption].
  eapply sameFiles_trans; [exact Hb | apply Hh].
Qed.

Lemma keepsFiles_upload (budget : nat) (u : AzureBlobStorageUploader) :
  forall directoryPath remotePath,
    keepsFiles (uploadDirectoryToBlobStorage budget u directoryPath remotePath).
Proof.
  induction budget as [|budget IH]; intros d p.
  - intros w. apply sameFiles_refl.
  - cbn [uploadDirectoryToBlobStorage].
    apply keepsFiles_bind; [apply keepsFiles_console_log | intros _].
    apply keepsFiles_bind; [apply keepsFiles_fsQuery | intros files].
    apply keepsFiles_forEach. intros file. cbv zeta.
    destruct (Fs.dirent_isDirectory file); [apply IH |].
    apply keepsFiles_bind; [apply keepsFiles_fsQuery | intros data].
    apply keepsFiles_bind; [apply keepsFiles_request | intros _].
    apply keepsFiles_console_log.
Qed.

Lemma keepsFiles_uploadPlaywrightReport (budget : nat) (u : AzureBlobStorageUploader) :
  keepsFiles (uploadPlaywrightReport budget u).
Proof.
  unfold uploadPlaywrightReport. apply keepsFiles_tryCatch.
  - unfold uploadPlaywrightReport_try.
    repeat first [ apply keepsFiles_console_log | apply keepsFiles_request
                 | apply keepsFiles_upload
                 | apply keepsFiles_bind; [|intros _] ].
  - intros e. apply keepsFiles_console_log.
Qed.

(** Entries of a well-formed directory. *)
Lemma entry_of_distinct (es : list (string * Fs.node)) (k : string) (c : Fs.node) :
  Fs.distinct (map fst es) = true -> In (k, c) es -> Fs.entry k es = Some c.
Proof.
  induction es as [|[k0 c0] es IH]; simpl; [contradiction |].
  rewrite andb_true_iff, negb_true_iff. intros [Hk Hd] [[= -> ->]|Hin].
  - now rewrite String.eqb_refl.
  - destruct (String.eqb_spec k0 k) as [->|Hne]; [|now apply IH].
    exfalso. apply not_true_iff_false in Hk. apply Hk.
    apply existsb_exists. exists k. split; [|apply String.eqb_refl].
    apply in_map_iff. now exists (k, c).
Qed.

Lemma treeHeight_entry (es : list (string * Fs.node)) (k : string) (c : Fs.node) :
  In (k, c) es -> (treeHeight c < treeHeight (Fs.Dir es))%nat.
Proof.
  intros Hin. simpl. apply Nat.lt_succ_r.
  assert (H : In (treeHeight c) (map (fun e => treeHeight (snd e)) es))
    by (apply in_map_iff; now exists (k, c)).
  pose proof (list_max_le (map (fun e => treeHeight (snd e)) es)
                (list_max (map (fun e => treeHeight (snd e)) es))) as [Hle _].
  specialize (Hle (Nat.le_refl _)). rewrite List.Forall_forall in Hle. now apply Hle.
Qed.

Lemma wf_entries (es : list (string * Fs.node)) (k : string) (c : Fs.node) :
  Fs.wf (Fs.Dir es) = true -> In (k, c) es ->
  Fs.validName k = true /\ Fs.entry k es = Some c /\ Fs.wf c = true.
Proof.
  intros Hw Hin. apply wf_Dir in Hw as (Hv & Hd & Hc).
  pose proof (entry_of_distinct es k c Hd Hin) as He.
  repeat split; [|assumption | now apply (Hc k)].
  rewrite forallb_forall in Hv. apply Hv. apply in_map_iff. now exists (k, c).
Qed.

Lemma treeHeight_find (segs : list string) (root n : Fs.node) :
  Fs.find segs root = Some n -> (treeHeight n <= treeHeight root)%nat.
Proof.
  revert root. induction segs as [|s segs IH]; intros root H.
  - simpl in H. injection H as ->. lia.
  - apply find_Some_cons in H as (es & c & -> & He & Hf).
    specialize (IH c Hf).
    assert (Hin : In (s, c) es).
    { clear -He. induction es as [|[k m] es IHes]; simpl in *; [discriminate |].
      destruct (String.eqb_spec k s) as [->|Hne]; [left; congruence | right; auto]. }
    pose proof (treeHeight_entry es s c Hin). lia.
Qed.

(** With a budget above the height of the tree, the walk comes to an end. *)
Lemma upload_finishes (u : AzureBlobStorageUploader) (budget : nat) :
  forall (D : list string) (P : string) (w : World),
    names D -> Fs.wf (fs w) = true ->
    (match Fs.find D (fs w) with Some n => treeHeight n | None => O end < budget)%nat ->
    fst (uploadDirectoryToBlobStorage budget u (renderAbs D) P w) <> Unfinished.
Proof.
  induction budget as [|budget IH]; intros D P w HD Hw Hh; [lia |].
  cbn [uploadDirectoryToBlobStorage]. rewrite run_bind.
  unfold console_log at 1, modify at 1. cbv beta iota.
  set (w1 := set_console _ w).
  rewrite run_bind. unfold readdirSync_withFileTypes, fsQuery, fsCall, Fs.readdir.
  rewrite (locate_renderAbs w1 D HD). change (fs w1) with (fs w).
  destruct (Fs.find D (fs w)) as [[d|es]|] eqn:Hf; [simpl; congruence | | simpl; congruence].
  fold direntOf.
  pose proof (wf_find D _ _ Hw Hf) as Hwes.
  match goal with |- context [forEach _ ?b _] => set (body := b) end.
  assert (Hloop : forall l : list (string * Fs.node),
             (forall e, In e l -> In e es) ->
             forall w' : World, sameFiles w w' ->
               fst (forEach (map direntOf l) body w') <> Unfinished).
  { induction l as [|[k c] l IHl]; intros Hl w' (Hfs' & Hc' & Hz'); [simpl; congruence |].
    simpl map. rewrite run_forEach_cons.
    destruct (wf_entries es k c Hwes (Hl _ (or_introl eq_refl))) as (Hk & He & Hwc).
    apply validName_spec in Hk as [Hkp Hks].
    assert (Hbody : fst (body (direntOf (k, c)) w') <> Unfinished).
    { subst body. cbv beta zeta. unfold direntOf.
      cbn [Fs.name Fs.dirent_isDirectory fst snd].
      rewrite (join_renderAbs D k HD Hkp Hks).
      destruct c as [data|es']; cbn [Fs.isDirectory].
      - rewrite run_bind. unfold readFileSync, fsQuery, fsCall, Fs.read.
        destruct (Fs.find _ (fs w')) as [[?|?]|]; try (simpl; congruence).
        rewrite run_bind. unfold request.
        destruct (azure_fault _ _ _); simpl; congruence.
      - apply IH.
        + apply names_app; [assumption |]. constructor; [now split | constructor].
        + congruence.
        + rewrite Hfs', find_app, Hf. simpl mbind. cbn [Fs.find]. rewrite He.
          pose proof (treeHeight_entry es k _ (Hl _ (or_introl eq_refl))) as Hlt.
          lia. }
    assert (Hkeep : sameFiles w' (snd (body (direntOf (k, c)) w'))).
    { subst body. cbv beta zeta.
      destruct (Fs.dirent_isDirectory (direntOf (k, c))); [apply keepsFiles_upload |].
      apply keepsFiles_bind; [apply keepsFiles_fsQuery | intros data].
      apply keepsFiles_bind; [apply keepsFiles_request | intros _].
      apply keepsFiles_console_log. }
    destruct (body (direntOf (k, c)) w') as [[[]|e|] w'']; simpl in Hbody, Hkeep;
      [| simpl; congruence | congruence].
    apply IHl; [intros e He'; apply Hl; now right |].
    eapply sameFiles_trans; [exact (conj Hfs' (conj Hc' Hz')) | exact Hkeep]. }
  specialize (Hloop es (fun e H => H) w1 (sameFiles_refl w)).
  destruct (forEach _ _ w1) as [[[]|e|] w2]; simpl in *; congruence.
Qed.

(** C8. Whatever the service does and whatever is on disk,
    [uploadPlaywrightReport] never throws and leaves every file as it was; an
    error raised inside it is caught and its message written to the console.
    In a well-formed tree, with a recursion budget above the height of the
    tree, it returns. *)
Theorem uploadPlaywrightReport_never_throws (budget : nat)
  (u : AzureBlobStorageUploader) (w : World) :
  (forall e, fst (uploadPlaywrightReport budget u w) <> Throw e)
  /\ fs (snd (uploadPlaywrightReport budget u w)) = fs w
  /\ (forall e w1,
        uploadPlaywrightReport_try budget u w = (Throw e, w1) ->
        uploadPlaywrightReport budget u w
        = (Ok tt,
           set_console
             (console w1 ++ ["Error uploading report to Azure Blob Storage: "
                             +:+ message e]) w1))
  /\ (Path.resolve "/" [up_localReportDir u] = up_localReportDir u ->
      Fs.wf (fs w) = true ->
      (treeHeight (fs w) < budget)%nat ->
      fst (uploadPlaywrightReport budget u w) = Ok tt).
Proof.
  split; [|split; [|split]].
  - intros e. unfold uploadPlaywrightReport, tryCatch.
    destruct (uploadPlaywrightReport_try budget u w) as [[[]|e'|] w1]; simpl; congruence.
  - apply keepsFiles_uploadPlaywrightReport.
  - intros e w1 H. unfold uploadPlaywrightReport, tryCatch. now rewrite H.
  - intros Hd Hw Hb.
    assert (Hfin : fst (uploadPlaywrightReport_try budget u w) <> Unfinished).
    { unfold uploadPlaywrightReport_try.
      rewrite run_bind. unfold console_log at 1, modify at 1. cbv beta iota.
      rewrite run_bind. unfold console_log at 1, modify at 1. cbv beta iota.
      set (w1 := set_console _ (set_console _ w)).
      rewrite run_bind. unfold request at 1.
      destruct (azure_fault w1 (network w1) _); [simpl; congruence |].
      set (w2 := set_network _ w1).
      rewrite run_bind. unfold console_log at 1, modify at 1. cbv beta iota.
      set (w3 := set_console _ w2). cbv zeta. rewrite run_bind.
      destruct (fixed_by_resolve "/" (up_localReportDir u) eq_refl Hd) as (D & HD & HDe).
      rewrite HDe.
      pose proof (upload_finishes u budget D (remoteRoot u) w3 HD Hw) as Hup.
      assert (Hlt : (match Fs.find D (fs w3) with
                     | Some n => treeHeight n
                     | None => O
                     end < budget)%nat).
      { change (fs w3) with (fs w).
        destruct (Fs.find D (fs w)) as [n|] eqn:Hf; [|lia].
        pose proof (treeHeight_find D (fs w) n Hf). lia. }
      specialize (Hup Hlt).
      destruct (uploadDirectoryToBlobStorage budget u (renderAbs D) (remoteRoot u) w3)
        as [[[]|e|] w4]; simpl in *; congruence. }
    unfold uploadPlaywrightReport, tryCatch.
    destruct (uploadPlaywrightReport_try budget u w) as [[[]|e'|] w1]; simpl in *;
      congruence.
Qed.

(** ** The mirror *)

Lemma backslashFree_replace (s : string) :
  backslashFree s = true -> replaceBackslashes s = s.
Proof. unfold backslashFree. now rewrite String.eqb_eq. Qed.


(** *** The files below a directory *)

Lemma filesOf_cons (k : string) (c : Fs.node) (es : list (string * Fs.node)) :
  filesOf (Fs.Dir ((k, c) :: es))
  = match c with
    | Fs.File data => [([k], data)]
    | Fs.Dir _ => map (fun f => (k :: fst f, snd f)) (filesOf c)
    end ++ filesOf (Fs.Dir es).
Proof. reflexivity. Qed.

Lemma filesOf_single (k : string) (c : Fs.node) :
  filesOf (Fs.Dir [(k, c)])
  = match c with
    | Fs.File data => [([k], data)]
    | Fs.Dir _ => map (fun f => (k :: fst f, snd f)) (filesOf c)
    end.
Proof. rewrite filesOf_cons. apply app_nil_r. Qed.

(** A file of [filesOf] is below an entry of the directory. *)
Lemma filesOf_inv (es : list (string * Fs.node)) (f : list string * string) :
  In f (filesOf (Fs.Dir es)) ->
  exists k c, In (k, c) es
    /\ match c with
       | Fs.File data => f = ([k], data)
       | Fs.Dir _ => exists g, In g (filesOf c) /\ f = (k :: fst g, snd g)
       end.
Proof.
  cbn [filesOf]. intros Hin. apply in_flat_map in Hin as ([k c] & Hkc & Hin).
  cbn [fst snd] in Hin. exists k, c. split; [exact Hkc |].
  destruct c as [data|es'].
  - now destruct Hin as [<-|[]].
  - apply in_map_iff in Hin as (g & <- & Hg). now exists g.
Qed.

Lemma filesOf_not_nil (n : Fs.node) (f : list string * string) :
  In f (filesOf n) -> fst f <> [].
Proof.
  destruct n as [data|es]; [contradiction |]. intros Hin.
  apply filesOf_inv in Hin as (k & [data|es'] & _ & H).
  - now subst f.
  - destruct H as (g & _ & ->). discriminate.
Qed.

(** The names that lead to a file of a well-formed tree are file names. *)
Lemma filesOf_names (h : nat) :
  forall (n : Fs.node) (f : list string * string),
    (treeHeight n <= h)%nat -> Fs.wf n = true -> In f (filesOf n) ->
    names (fst f).
Proof.
  induction h as [|h IH]; intros [data|es] f Hh Hw Hin; try contradiction.
  - simpl in Hh. lia.
  - apply filesOf_inv in Hin as (k & c & Hkc & H).
    destruct (wf_entries es k c Hw Hkc) as (Hk & _ & Hwc).
    apply validName_spec in Hk as [Hkp Hks].
    destruct c as [data|es'].
    + subst f. constructor; [now split | constructor].
    + destruct H as (g & Hg & ->). cbn [fst].
      pose proof (treeHeight_entry es k _ Hkc) as Hlt.
      constructor; [now split |].
      apply (IH (Fs.Dir es') g); [lia | assumption..].
Qed.




(** *** Blob paths *)



(** Without backslashes, the blob path is the remote path joined with the
    relative path. *)
Lemma blobPathOf_join (ks : list string) :
  forall P : string,
    ks <> [] -> names ks -> Forall (fun k => backslashFree k = true) ks ->
    backslashFree P = true ->
    blobPathOf P ks = Path.join [P; String.concat "/" ks].
Proof.
  induction ks as [|k ks IH]; intros P Hne Hn Hb HP; [congruence |].
  inversion Hn as [|? ? [Hkp Hks] Hn']; subst.
  inversion Hb as [|? ? Hbk Hb']; subst.
  cbn [blobPathOf].
  pose proof (backslashFree_join P k HP Hbk Hkp Hks) as HPk.
  rewrite (backslashFree_replace _ HPk).
  destruct ks as [|x ks]; [reflexivity |].
  rewrite (IH (Path.join [P; k]) ltac:(discriminate) Hn' Hb' HPk).
  exact (join_join P k (x :: ks) Hkp Hks ltac:(discriminate) Hn').
Qed.



(** *** The requests the walk sends *)

Lemma accepted_app fault (start l1 l2 : list NetworkCall) :
  accepted fault start (l1 ++ l2)
  = accepted fault start l1 && accepted fault (start ++ l1) l2.
Proof.
  revert start. induction l1 as [|c l1 IH]; intros start.
  - now rewrite app_nil_r.
  - simpl. destruct (fault start c); [reflexivity |].
    now rewrite IH, <- app_assoc.
Qed.

Lemma accepted_without_faults fault (start calls : list NetworkCall) :
  (forall h c, fault h c = None) -> accepted fault start calls = true.
Proof.
  intros Hz. revert start. induction calls as [|c calls IH]; intros start;
    [reflexivity |].
  simpl. now rewrite Hz.
Qed.

Lemma sentUntilFailure_app fault (start calls1 calls2 sent1 sent2 : list NetworkCall)
  (out : result unit) :
  sentUntilFailure fault start calls1 (Ok tt) sent1 ->
  sentUntilFailure fault (start ++ sent1) calls2 out sent2 ->
  sentUntilFailure fault start (calls1 ++ calls2) out (sent1 ++ sent2).
Proof.
  intros [-> H1] H2.
  destruct out as [[]|e|]; simpl in *; [| | assumption].
  - destruct H2 as [-> H2]. split; [reflexivity |].
    now rewrite accepted_app, H1, H2.
  - destruct H2 as (before & c & after & -> & -> & Ha & Hf).
    exists (calls1 ++ before), c, after.
    rewrite <- !app_assoc. split; [reflexivity |]. split; [reflexivity |].
    split; [now rewrite accepted_app, H1, Ha | now rewrite app_assoc].
Qed.

Lemma sentUntilFailure_throw fault (start calls1 calls2 sent : list NetworkCall)
  (e : Error) :
  sentUntilFailure fault start calls1 (Throw e) sent ->
  sentUntilFailure fault start (calls1 ++ calls2) (Throw e) sent.
Proof.
  intros (before & c & after & -> & -> & Ha & Hf).
  exists before, c, (after ++ calls2). rewrite <- app_assoc. now repeat split.
Qed.

(** The uploads of a subdirectory, seen from the directory. *)
Lemma uploads_of_subdirectory (container P k : string) (c : Fs.node) :
  map (uploadOf container (replaceBackslashes (Path.join [P; k]))) (filesOf c)
  = map (uploadOf container P) (map (fun f => (k :: fst f, snd f)) (filesOf c)).
Proof.
  rewrite map_map. apply map_ext_in. intros f Hf.
  unfold uploadOf. cbn [fst snd blobPathOf].
  pose proof (filesOf_not_nil c f Hf) as Hne.
  now destruct (fst f).
Qed.

(** Whatever the service does, the walk of a well-formed directory sends the
    uploads of its files in listing order and stops at the first that
    fails. *)
Lemma upload_trace_faulty (u : AzureBlobStorageUploader) (budget : nat) :
  forall (D : list string) (P : string) (w : World) (es : list (string * Fs.node)),
    names D ->
    Fs.find D (fs w) = Some (Fs.Dir es) ->
    Fs.wf (Fs.Dir es) = true ->
    (treeHeight (Fs.Dir es) <= budget)%nat ->
    exists out w' sent,
      uploadDirectoryToBlobStorage budget u (renderAbs D) P w = (out, w')
      /\ sameFiles w w'
      /\ network w' = network w ++ sent
      /\ sentUntilFailure (azure_fault w) (network w)
           (map (uploadOf (up_containerName u) P) (filesOf (Fs.Dir es))) out sent.
Proof.
  induction budget as [|budget IH]; intros D P w es HD Hf Hw Hh;
    [simpl in Hh; lia |].
  cbn [uploadDirectoryToBlobStorage]. rewrite run_bind.
  unfold console_log at 1, modify at 1. cbv beta iota.
  set (w1 := set_console _ w).
  rewrite run_bind. unfold readdirSync_withFileTypes, fsQuery, fsCall, Fs.readdir.
  rewrite (locate_renderAbs w1 D HD). change (fs w1) with (fs w). rewrite Hf.
  fold direntOf.
  match goal with |- context [forEach _ ?b _] => set (body := b) end.
  assert (Hloop : forall l : list (string * Fs.node),
             (forall e, In e l -> In e es) ->
             forall w' : World, sameFiles w w' ->
             exists out w'' sent,
               forEach (map direntOf l) body w' = (out, w'')
               /\ sameFiles w w''
               /\ network w'' = network w' ++ sent
               /\ sentUntilFailure (azure_fault w) (network w')
                    (map (uploadOf (up_containerName u) P) (filesOf (Fs.Dir l)))
                    out sent).
  { induction l as [|[k c] l IHl]; intros Hl w' Hs.
    - exists (Ok tt), w', []. split; [reflexivity |]. split; [exact Hs |].
      split; [now rewrite app_nil_r | now split].
    - pose proof Hs as (Hfs' & Hc' & Hz').
      change (map direntOf ((k, c) :: l)) with (direntOf (k, c) :: map direntOf l).
      rewrite run_forEach_cons.
      pose proof (Hl _ (or_introl eq_refl)) as Hin.
      destruct (wf_entries es k c Hw Hin) as (Hk & He & Hwc).
      pose proof Hk as Hk'. apply validName_spec in Hk' as [Hkp Hks].
      assert (HDk : names (D ++ [k])).
      { apply names_app; [assumption |]. constructor; [now split | constructor]. }
      assert (Hfk : Fs.find (D ++ [k]) (fs w') = Some c).
      { rewrite Hfs', find_app, Hf. simpl mbind. cbn [Fs.find]. now rewrite He. }
      assert (Hbody : exists out w'' sent,
                 body (direntOf (k, c)) w' = (out, w'')
                 /\ sameFiles w' w''
                 /\ network w'' = network w' ++ sent
                 /\ sentUntilFailure (azure_fault w) (network w')
                      (map (uploadOf (up_containerName u) P)
                           (filesOf (Fs.Dir [(k, c)]))) out sent).
      { subst body. cbv beta zeta. unfold direntOf.
        cbn [Fs.name Fs.dirent_isDirectory fst snd].
        rewrite (join_renderAbs D k HD Hkp Hks).
        destruct c as [data|es']; cbn [Fs.isDirectory].
        - rewrite run_bind. unfold readFileSync, fsQuery, fsCall, Fs.read.
          rewrite (locate_renderAbs w' _ HDk), Hfk.
          rewrite run_bind. unfold request. rewrite Hz'.
          destruct (azure_fault w (network w') _) as [e|] eqn:Hfault.
          + eexists (Throw e), _, _. split; [reflexivity |].
            split; [now repeat split |]. split; [reflexivity |].
            exists [], (uploadOf (up_containerName u) P ([k], data)), [].
            rewrite app_nil_r. now repeat split.
          + eexists (Ok tt), _, _. split; [reflexivity |].
            split; [now repeat split |]. split; [reflexivity |].
            split; [reflexivity |].
            change (accepted (azure_fault w) (network w')
                      [UploadData (up_containerName u)
                         (replaceBackslashes (Path.join [P; k])) data
                         (getContentType k)] = true).
            cbn [accepted]. now rewrite Hfault.
        - pose proof (treeHeight_entry es k _ Hin) as Hlt.
          destruct (IH (D ++ [k]) (replaceBackslashes (Path.join [P; k])) w' es'
                      HDk Hfk Hwc)
            as (out & w'' & sent & Hrun & Hs' & Hnet & Hsent); [lia |].
          exists out, w'', sent. split; [exact Hrun |]. split; [exact Hs' |].
          split; [exact Hnet |].
          rewrite filesOf_single, <- uploads_of_subdirectory.
          now rewrite <- Hz'. }
      destruct Hbody as (out1 & w'' & sent1 & Hrun & Hs' & Hnet & Hsent).
      rewrite Hrun.
      rewrite (filesOf_cons k c l), map_app.
      rewrite filesOf_single in Hsent.
      destruct out1 as [[]|e|]; [| |contradiction].
      + destruct (IHl (fun e H => Hl e (or_intror H)) w'' (sameFiles_trans _ _ _ Hs Hs'))
          as (out2 & w3 & sent2 & Hrun3 & Hs3 & Hnet3 & Hsent3).
        exists out2, w3, (sent1 ++ sent2). split; [exact Hrun3 |].
        split; [exact Hs3 |]. split; [now rewrite Hnet3, Hnet, app_assoc |].
        apply sentUntilFailure_app; [exact Hsent |]. now rewrite <- Hnet.
      + exists (Throw e), w'', sent1. split; [reflexivity |].
        split; [exact (sameFiles_trans _ _ _ Hs Hs') |]. split; [exact Hnet |].
        now apply sentUntilFailure_throw. }
  destruct (Hloop es (fun e H => H) w1 (sameFiles_refl w))
    as (out & w2 & sent & Hrun & Hs & Hnet & Hsent).
  exists out, w2, sent. rewrite Hrun.
  split; [now destruct out as [[]|e|] |]. split; [exact Hs |].
  split; [exact Hnet | exact Hsent].
Qed.


(** *** Content types do not depend on the case of the name *)

Lemma lowerChar_slash (c : ascii) : Ascii.eqb (lowerChar c) "/" = Ascii.eqb c "/".
Proof. destruct c as [[] [] [] [] [] [] [] []]; reflexivity. Qed.

Lemma lowerChar_dot (c : ascii) : Ascii.eqb (lowerChar c) "." = Ascii.eqb c ".".
Proof. destruct c as [[] [] [] [] [] [] [] []]; reflexivity. Qed.

Lemma lowerChar_idem (c : ascii) : lowerChar (lowerChar c) = lowerChar c.
Proof. destruct c as [[] [] [] [] [] [] [] []]; reflexivity. Qed.

Lemma toLowerCase_idem (s : string) : toLowerCase (toLowerCase s) = toLowerCase s.
Proof.
  induction s as [|c s IH]; simpl; [reflexivity |].
  now rewrite lowerChar_idem, IH.
Qed.

Lemma split_toLowerCase (s : string) :
  Path.split (toLowerCase s) = map toLowerCase (Path.split s).
Proof.
  induction s as [|c s IH]; simpl; [reflexivity |].
  rewrite lowerChar_slash. destruct (Ascii.eqb c "/"); simpl; [now rewrite IH |].
  rewrite IH. now destruct (Path.split s).
Qed.



Lemma fromLastDot_toLowerCase (s : string) :
  Path.fromLastDot (toLowerCase s) = toLowerCase <$> Path.fromLastDot s.
Proof.
  induction s as [|c s IH]; simpl; [reflexivity |].
  rewrite IH, lowerChar_dot.
  destruct (Path.fromLastDot s); simpl; [reflexivity |].
  now destruct (Ascii.eqb c ".").
Qed.






(** ** Relocation of attachments *)

Lemma relocate_skip (a : Attachment) (s : Reporter * World) :
  truthy (att_path a) = false -> relocate a s = (Ok a, s).
Proof. intros H. unfold relocate. now rewrite H. Qed.

(** One relocation, step by step: the directory of the copies is made when
    it is missing, the source is read and the copy written; any of the three
    may fail, and then nothing more is done. *)
Lemma relocate_cases (a : Attachment) (r : Reporter) (w : World) :
  truthy (att_path a) = true ->
  exists (out : result Attachment) (w' : World) (f1 : Fs.node),
    relocate a (r, w) = (out, (r, w'))
    /\ sameProcess w w'
    /\ uuid_drawn w' = S (uuid_drawn w)
    /\ (f1 = fs w \/ Fs.mkdirp (locate w (dataDirectoryOf r w)) (fs w) = Success f1)
    /\ ((exists e, out = Throw e) /\ (fs w' = fs w \/ fs w' = f1)
        \/ (exists data,
              out = Ok (relocated r w a)
              /\ Fs.read (locate w (orString (att_path a) "")) f1 = Success data
              /\ Fs.write data (locate w (newFilePathOf r w a)) f1 = Success (fs w'))).
Proof.
  intros Ht. unfold relocate. rewrite Ht.
  rewrite run_bind, run_inWorld. unfold uuidv4 at 1 2. cbn [fst snd].
  set (w1 := set_uuid_drawn (S (uuid_drawn w)) w).
  rewrite run_bind. unfold this at 1, gets at 1. cbn [fst].
  rewrite run_bind, run_inWorld. unfold gets at 1 2. cbn [fst snd].
  change (cwd w1) with (cwd w).
  fold (newFileNameOf w a). fold (newFilePathOf r w a). fold (dataDirectoryOf r w).
  rewrite run_bind, run_inWorld. unfold existsSync at 1 2, gets at 1 2. cbn [fst snd].
  change (locate w1 (dataDirectoryOf r w)) with (locate w (dataDirectoryOf r w)).
  change (fs w1) with (fs w).
  rewrite run_bind.
  assert (Hcopy : forall w2 : World,
    cwd w2 = cwd w -> uuid_source w2 = uuid_source w -> azure_fault w2 = azure_fault w ->
    network w2 = network w -> uuid_drawn w2 = S (uuid_drawn w) ->
    exists out w',
      (inWorld (copyFileSync (orString (att_path a) "") (newFilePathOf r w a));;
       mret (relocated r w a)) (r, w2) = (out, (r, w'))
      /\ sameProcess w w' /\ uuid_drawn w' = S (uuid_drawn w)
      /\ ((exists e, out = Throw e) /\ fs w' = fs w2
          \/ (exists data,
               out = Ok (relocated r w a)
               /\ Fs.read (locate w (orString (att_path a) "")) (fs w2) = Success data
               /\ Fs.write data (locate w (newFilePathOf r w a)) (fs w2) = Success (fs w')))).
  { intros w2 Hc Hu Hz Hn Hd. rewrite run_bind, run_inWorld.
    unfold copyFileSync, fsUpdate, fsCall. rewrite !(locate_same_cwd w w2 _ Hc).
    destruct (Fs.read (locate w (orString (att_path a) "")) (fs w2)) as [data|e] eqn:Er.
    - destruct (Fs.write data (locate w (newFilePathOf r w a)) (fs w2)) as [f2|e] eqn:Ew.
      + exists (Ok (relocated r w a)), (set_fs f2 w2). cbn [fst snd].
        repeat split; try assumption. right. exists data. repeat split; assumption.
      + eexists (Throw _), w2. cbn [fst snd]. repeat split; try assumption. left. eauto.
    - eexists (Throw _), w2. cbn [fst snd]. repeat split; try assumption. left. eauto. }
  destruct (Fs.find (locate w (dataDirectoryOf r w)) (fs w)) as [n|] eqn:Ef; cbn [negb].
  - rewrite run_ret.
    destruct (Hcopy w1 eq_refl eq_refl eq_refl eq_refl eq_refl)
      as (out & w' & H1 & H2 & H3 & H4).
    exists out, w', (fs w). split; [exact H1 |]. repeat split; try apply H2; try assumption;
      [now left |].
    destruct H4 as [[He Hf]|H4]; [left; split; [exact He | now left] | now right].
  - rewrite run_inWorld. unfold mkdirSync_recursive, fsUpdate, fsCall.
    change (locate w1 (dataDirectoryOf r w)) with (locate w (dataDirectoryOf r w)).
    change (fs w1) with (fs w).
    destruct (Fs.mkdirp (locate w (dataDirectoryOf r w)) (fs w)) as [f1|e] eqn:Em; cbn [fst snd].
    + destruct (Hcopy (set_fs f1 w1) eq_refl eq_refl eq_refl eq_refl eq_refl)
        as (out & w' & H1 & H2 & H3 & H4).
      exists out, w', f1. split; [exact H1 |]. repeat split; try apply H2; try assumption;
        [now right |].
      destruct H4 as [[He Hf]|H4]; [left; split; [exact He | now right] | now right].
    + eexists (Throw _), w1, (fs w). split; [reflexivity |].
      repeat split; [now left |]. left. split; [eauto | now left].
Qed.

(** *** Names made of an identifier and an extension *)

Lemma isUuidChar_not_slash (c : ascii) : isUuidChar c = true -> Ascii.eqb c "/" = false.
Proof. destruct c as [[] [] [] [] [] [] [] []]; simpl; intros H; try reflexivity; discriminate. Qed.

Lemma allChars_slashFree (s : string) : allChars isUuidChar s = true -> slashFree s.
Proof.
  induction s as [|c s IH]; [reflexivity |]. simpl.
  rewrite andb_true_iff. intros [Hc Hs]. apply slashFree_cons.
  split; [now apply isUuidChar_not_slash | now apply IH].
Qed.

Lemma isUuid_spec (u : string) :
  isUuid u = true -> String.length u = 36%nat /\ slashFree u.
Proof.
  unfold isUuid. rewrite andb_true_iff, Nat.eqb_eq.
  intros [Hl Hc]. split; [assumption | now apply allChars_slashFree].
Qed.

Lemma length_append (a b : string) :
  String.length (a +:+ b) = (String.length a + String.length b)%nat.
Proof.
  induction a as [|c a IH]; [reflexivity |].
  rewrite append_cons. simpl. now rewrite IH.
Qed.

Lemma append_same_length (a b c d : string) :
  String.length a = String.length b -> a +:+ c = b +:+ d -> a = b.
Proof.
  revert b. induction a as [|x a IH]; intros [|y b] Hl E; try discriminate.
  - reflexivity.
  - rewrite !append_cons in E. injection E as -> E. simpl in Hl.
    f_equal. apply IH; [lia | assumption].
Qed.

Lemma slashFree_suffix (c : ascii) (s : string) : slashFree (String c s) -> slashFree s.
Proof. intros H. now apply slashFree_cons in H. Qed.

Lemma fromLastDot_slashFree (s e : string) :
  slashFree s -> Path.fromLastDot s = Some e -> slashFree e.
Proof.
  revert e. induction s as [|c s IH]; intros e Hs; simpl; [discriminate |].
  destruct (Path.fromLastDot s) as [e'|] eqn:E.
  - intros [= <-]. apply IH; [now apply slashFree_suffix in Hs | reflexivity].
  - destruct (Ascii.eqb c "."); [now intros [= <-] | discriminate].
Qed.

Lemma lastSegment_slashFree (l : list string) :
  Forall slashFree l -> slashFree (Path.lastSegment l).
Proof.
  induction l as [|x l IH]; intros H; simpl; [reflexivity |].
  inversion H; subst. destruct (String.eqb (Path.lastSegment l) ""); auto.
Qed.

Lemma extname_slashFree (p : string) : slashFree (Path.extname p).
Proof.
  unfold Path.extname, Path.basenameOf.
  pose proof (lastSegment_slashFree _ (split_segments_slashFree p)) as H.
  destruct (Path.lastSegment (Path.split p)) as [|c tail]; [reflexivity |].
  destruct (String.eqb (String c tail) ".."); [reflexivity |].
  destruct (Path.fromLastDot tail) as [e|] eqn:E; [|reflexivity].
  eapply fromLastDot_slashFree; [|exact E]. now apply slashFree_suffix in H.
Qed.

(** An identifier followed by an extension is a file name. *)
Lemma uuid_name (u p : string) :
  isUuid u = true ->
  proper (u +:+ Path.extname p) /\ slashFree (u +:+ Path.extname p).
Proof.
  intros Hu. apply isUuid_spec in Hu as [Hl Hs]. split.
  - assert (Hlen : (36 <= String.length (u +:+ Path.extname p))%nat)
      by (rewrite length_append; lia).
    repeat split; intros E; rewrite E in Hlen; simpl in Hlen; lia.
  - apply slashFree_app; [assumption | apply extname_slashFree].
Qed.

Lemma uuid_names_differ (u v p q : string) :
  isUuid u = true -> isUuid v = true -> u <> v ->
  u +:+ Path.extname p <> v +:+ q.
Proof.
  intros Hu Hv Hne E. apply isUuid_spec in Hu as [Hu _]. apply isUuid_spec in Hv as [Hv _].
  apply Hne. eapply append_same_length; [|exact E]. congruence.
Qed.

Section Relocation.

Variable r : Reporter.
Variable C : list string.
Hypothesis C_names : names C.
Hypothesis root_is_cwd : projectRoot r = renderAbs C.

Lemma locate_dataDirectory (w : World) :
  cwd w = renderAbs C -> locate w (dataDirectoryOf r w) = dataLoc r C.
Proof.
  intros Hc. unfold dataDirectoryOf, dataLoc. rewrite Hc, root_is_cwd.
  destruct (resolveSegments_names (renderAbs C) [renderAbs C; reportDir r; "data"] eq_refl)
    as (N & HN & Hn).
  rewrite (resolve_renderAbs _ _ _ HN), HN. unfold locate.
  now rewrite resolveSegments_renderAbs.
Qed.

Lemma locate_newFilePath (w : World) (a : Attachment) :
  cwd w = renderAbs C -> isUuid (uuid_source w (uuid_drawn w)) = true ->
  locate w (newFilePathOf r w a) = dataLoc r C ++ [newFileNameOf w a].
Proof.
  intros Hc Hu. unfold locate, newFilePathOf, dataLoc. rewrite Hc.
  destruct (uuid_name _ (orString (att_path a) "") Hu) as [Hp Hs].
  now apply locate_join_data.
Qed.

Lemma read_File (segs : list string) (n : Fs.node) (data : string) :
  Fs.read segs n = Success data <-> Fs.find segs n = Some (Fs.File data).
Proof.
  unfold Fs.read. destruct (Fs.find segs n) as [[d|es]|]; split; intros H;
    try discriminate; congruence.
Qed.

(** One relocation and the files: a regular file that is not at the
    destination stays as it is; when the relocation returns, the destination
    and the source hold the same content. *)
Lemma relocate_step (a : Attachment) (w : World) :
  truthy (att_path a) = true ->
  cwd w = renderAbs C ->
  isUuid (uuid_source w (uuid_drawn w)) = true ->
  locate w (orString (att_path a) "") <> dataLoc r C ++ [newFileNameOf w a] ->
  exists (out : result Attachment) (w' : World),
    relocate a (r, w) = (out, (r, w'))
    /\ sameProcess w w'
    /\ uuid_drawn w' = S (uuid_drawn w)
    /\ (forall q d, q <> dataLoc r C ++ [newFileNameOf w a] ->
                    Fs.find q (fs w) = Some (Fs.File d) ->
                    Fs.find q (fs w') = Some (Fs.File d))
    /\ (forall a', out = Ok a' ->
          a' = relocated r w a
          /\ exists data,
               Fs.find (dataLoc r C ++ [newFileNameOf w a]) (fs w') = Some (Fs.File data)
               /\ Fs.find (locate w (orString (att_path a) "")) (fs w')
                  = Some (Fs.File data)).
Proof.
  intros Ht Hc Hu Hout.
  destruct (relocate_cases a r w Ht) as (out & w' & f1 & Hrun & Hs & Hd & Hf1 & Hcase).
  rewrite (locate_dataDirectory w Hc), (locate_newFilePath w a Hc Hu) in *.
  exists out, w'. split; [exact Hrun |]. split; [exact Hs |]. split; [exact Hd |].
  split.
  - intros q d Hq Hfq.
    assert (Hq1 : Fs.find q f1 = Some (Fs.File d)).
    { destruct Hf1 as [->|Hm]; [assumption |]. eapply mkdirp_keeps_files; eassumption. }
    destruct Hcase as [[_ [->| ->]]|(data & _ & _ & Hw)]; try assumption.
    eapply write_other; eassumption.
  - intros a' Ha'.
    destruct Hcase as [[[e ->] _]|(data & -> & Hr & Hw)]; [discriminate |].
    split; [congruence |].
    exists data. split; [eapply write_same; eassumption |].
    apply read_File in Hr. eapply write_other; [exact Hw | exact Hout | exact Hr].
Qed.

Lemma nextUuids_S (w : World) (k : nat) :
  nextUuids w (S k)
  = uuid_source w (uuid_drawn w)
    :: map (uuid_source w) (seq (S (uuid_drawn w)) k).
Proof. reflexivity. Qed.

Lemma nextUuids_shorter (w : World) (k : nat) :
  nextUuids w (S k) = nextUuids w k ++ [uuid_source w (uuid_drawn w + k)].
Proof. unfold nextUuids. now rewrite seq_S, map_app. Qed.

Lemma nextUuids_lookup (w : World) (k i : nat) :
  (i < k)%nat -> nextUuids w k !! i = Some (uuid_source w (uuid_drawn w + i)).
Proof.
  intros H. unfold nextUuids. rewrite list_lookup_fmap.
  now rewrite lookup_seq_lt.
Qed.

Lemma run_mapM_cons {S A B} (f : A -> M S B) (x : A) (xs : list A) (s : S) :
  mapM f (x :: xs) s
  = match f x s with
    | (Ok y, s1) =>
        match mapM f xs s1 with
        | (Ok ys, s2) => (Ok (y :: ys), s2)
        | (Throw e, s2) => (Throw e, s2)
        | (Unfinished, s2) => (Unfinished, s2)
        end
    | (Throw e, s1) => (Throw e, s1)
    | (Unfinished, s1) => (Unfinished, s1)
    end.
Proof.
  cbn [mapM]. rewrite run_bind. destruct (f x s) as [[y|e|] s1]; reflexivity.
Qed.

(** The relocation of a list of attachments and the files. *)
Lemma relocation_files (atts : list Attachment) :
  forall w : World,
    cwd w = renderAbs C ->
    Forall (fun u => isUuid u = true) (nextUuids w (length atts)) ->
    NoDup (nextUuids w (length atts)) ->
    (forall a, In a atts -> truthy (att_path a) = true ->
               freshFor r C w (length atts) (locate w (orString (att_path a) ""))) ->
    exists (out : result (list Attachment)) (w' : World),
      mapM relocate atts (r, w) = (out, (r, w'))
      /\ cwd w' = cwd w
      /\ (forall q d, freshFor r C w (length atts) q ->
                      Fs.find q (fs w) = Some (Fs.File d) ->
                      Fs.find q (fs w') = Some (Fs.File d))
      /\ (forall outs, out = Ok outs ->
            forall i a, atts !! i = Some a -> truthy (att_path a) = true ->
              exists a' np data,
                outs !! i = Some a' /\ att_path a' = Some np
                /\ Fs.find (locate w np) (fs w') = Some (Fs.File data)
                /\ Fs.find (locate w (orString (att_path a) "")) (fs w')
                   = Some (Fs.File data)).
Proof.
  induction atts as [|a atts IH]; intros w Hc Hu Hnd Hsrc.
  - exists (Ok []), w. split; [reflexivity |]. split; [reflexivity |].
    split; [now intros q d _ H |].
    intros outs _ i a Hi. discriminate.
  - rewrite run_mapM_cons. cbn [length] in Hu, Hnd.
    destruct (truthy (att_path a)) eqn:Ht.
    + (* the attachment has a path *)
      rewrite nextUuids_S in Hu, Hnd.
      apply Forall_cons in Hu as [Hu0 Hu]. apply NoDup_cons in Hnd as [Hn0 Hnd].
      assert (Ha : locate w (orString (att_path a) "") <> dataLoc r C ++ [newFileNameOf w a]).
      { unfold newFileNameOf.
        replace (uuid_drawn w) with (uuid_drawn w + 0)%nat at 1 by lia.
        apply (Hsrc a); [now left | assumption | cbn [length]; lia]. }
      destruct (relocate_step a w Ht Hc Hu0 Ha)
        as (out0 & w1 & Hrun & (Hc1 & Hs1 & _) & Hd1 & Hkeep1 & Hok1).
      rewrite Hrun.
      assert (Hnext : forall k, nextUuids w1 k = map (uuid_source w) (seq (S (uuid_drawn w)) k))
        by (intros k; unfold nextUuids; now rewrite Hs1, Hd1).
      assert (Hfresh1 : forall q, freshFor r C w (S (length atts)) q ->
                                  freshFor r C w1 (length atts) q).
      { intros q Hq i ext Hi. rewrite Hs1, Hd1.
        replace (S (uuid_drawn w) + i)%nat with (uuid_drawn w + S i)%nat by lia.
        apply Hq. lia. }
      assert (Hstep : forall q d, freshFor r C w (S (length atts)) q ->
                 Fs.find q (fs w) = Some (Fs.File d) ->
                 Fs.find q (fs w1) = Some (Fs.File d)).
      { intros q d Hq. apply Hkeep1. unfold newFileNameOf.
        replace (uuid_drawn w) with (uuid_drawn w + 0)%nat at 1 by lia.
        apply Hq. lia. }
      destruct out0 as [a'|e|].
      * destruct (IH w1) as (out & w2 & Hrun2 & Hc2 & Hkeep2 & Hok2).
        { congruence. }
        { now rewrite Hnext. }
        { now rewrite Hnext. }
        { intros b Hb Htb. rewrite (locate_same_cwd w w1 _ Hc1).
          apply Hfresh1. apply Hsrc; [now right | assumption]. }
        rewrite Hrun2.
        assert (Hall : forall q d, freshFor r C w (S (length atts)) q ->
                   Fs.find q (fs w) = Some (Fs.File d) ->
                   Fs.find q (fs w2) = Some (Fs.File d)).
        { intros q d Hq Hf. apply Hkeep2; [now apply Hfresh1 | now apply Hstep]. }
        destruct out as [outs|e|].
        -- exists (Ok (a' :: outs)), w2. split; [reflexivity |].
           split; [congruence |]. split; [exact Hall |].
           intros outs' [= <-] i b Hi Htb. destruct i as [|i].
           ++ injection Hi as <-.
              destruct (Hok1 a' eq_refl) as (-> & data & Hdest & Hsrc0).
              exists (relocated r w a), (newFilePathOf r w a), data.
              split; [reflexivity |]. split; [reflexivity |].
              rewrite (locate_newFilePath w a Hc Hu0). split.
              ** apply Hkeep2; [|exact Hdest].
                 intros i ext Hi E. apply app_inj_1 in E as [_ E]; [|reflexivity].
                 injection E as E. unfold newFileNameOf in E. rewrite Hs1, Hd1 in E.
                 revert E. apply uuid_names_differ; [assumption | |].
                 --- rewrite Forall_forall in Hu. apply Hu.
                     apply list_elem_of_fmap. eexists. split; [reflexivity |].
                     apply elem_of_seq. lia.
                 --- intros E. apply Hn0. rewrite E.
                     apply list_elem_of_fmap. eexists. split; [reflexivity |].
                     apply elem_of_seq. lia.
              ** apply Hkeep2; [|exact Hsrc0].
                 apply Hfresh1. apply Hsrc; [now left | assumption].
           ++ destruct (Hok2 outs eq_refl i b Hi Htb) as (b' & np & data & H1 & H2 & H3 & H4).
              exists b', np, data. rewrite <- !(locate_same_cwd w w1 _ Hc1).
              now repeat split.
        -- exists (Throw e), w2. split; [reflexivity |]. split; [congruence |].
           split; [exact Hall | discriminate].
        -- exists Unfinished, w2. split; [reflexivity |]. split; [congruence |].
           split; [exact Hall | discriminate].
      * exists (Throw e), w1. split; [reflexivity |]. split; [exact Hc1 |].
        split; [exact Hstep | discriminate].
      * exists Unfinished, w1. split; [reflexivity |]. split; [exact Hc1 |].
        split; [exact Hstep | discriminate].
    + (* the attachment passes through *)
      rewrite (relocate_skip a (r, w) Ht).
      rewrite nextUuids_shorter in Hu, Hnd.
      apply Forall_app in Hu as [Hu _]. apply NoDup_app in Hnd as (Hnd & _ & _).
      destruct (IH w Hc Hu Hnd) as (out & w2 & Hrun2 & Hc2 & Hkeep2 & Hok2).
      { intros b Hb Htb i ext Hi. apply (Hsrc b); [now right | assumption |].
        cbn [length]. lia. }
      rewrite Hrun2.
      assert (Hall : forall q d, freshFor r C w (S (length atts)) q ->
                 Fs.find q (fs w) = Some (Fs.File d) ->
                 Fs.find q (fs w2) = Some (Fs.File d)).
      { intros q d Hq. apply Hkeep2. intros i ext Hi. apply Hq. lia. }
      destruct out as [outs|e|].
      * exists (Ok (a :: outs)), w2. split; [reflexivity |]. split; [exact Hc2 |].
        split; [exact Hall |].
        intros outs' [= <-] i b Hi Htb. destruct i as [|i].
        -- injection Hi as <-. congruence.
        -- exact (Hok2 outs eq_refl i b Hi Htb).
      * exists (Throw e), w2. split; [reflexivity |]. split; [exact Hc2 |].
        split; [exact Hall | discriminate].
      * exists Unfinished, w2. split; [reflexivity |]. split; [exact Hc2 |].
        split; [exact Hall | discriminate].
Qed.

End Relocation.

Lemma drawnBefore_le (i : nat) (atts : list Attachment) : (drawnBefore i atts <= i)%nat.
Proof.
  revert atts. induction i as [|i IH]; intros [|a atts]; simpl; try lia.
  specialize (IH atts). destruct (truthy (att_path a)); lia.
Qed.

Lemma drawnBefore_lt (i j : nat) (atts : list Attachment) (a : Attachment) :
  (i < j)%nat -> atts !! i = Some a -> truthy (att_path a) = true ->
  (drawnBefore i atts < drawnBefore j atts)%nat.
Proof.
  revert j atts. induction i as [|i IH]; intros j atts Hij Hi Ht.
  - destruct atts as [|a0 atts]; [discriminate |]. injection Hi as ->.
    destruct j as [|j]; [lia |]. simpl. rewrite Ht. lia.
  - destruct atts as [|a0 atts]; [discriminate |].
    destruct j as [|j]; [lia |]. simpl.
    assert (drawnBefore i atts < drawnBefore j atts)%nat by (apply IH; [lia | assumption..]).
    lia.
Qed.

Lemma relocation_paths (r : Reporter) (atts : list Attachment) :
  forall (w : World) (outs : list Attachment) (s' : Reporter * World),
    mapM relocate atts (r, w) = (Ok outs, s') ->
    forall i a, atts !! i = Some a -> truthy (att_path a) = true ->
      exists a',
        outs !! i = Some a'
        /\ att_path a'
           = Some (Path.join [reportDir r; "data";
                              uuid_source w (uuid_drawn w + drawnBefore i atts)
                              +:+ Path.extname (orString (att_path a) "")]).
Proof.
  induction atts as [|a0 atts IH]; intros w outs s' Hrun i a Hi Ht; [discriminate |].
  rewrite run_mapM_cons in Hrun.
  destruct (truthy (att_path a0)) eqn:Ht0.
  - destruct (relocate_cases a0 r w Ht0) as (out & w1 & f1 & Hr & (Hc & Hs & _) & Hd & _ & Hcase).
    rewrite Hr in Hrun.
    destruct Hcase as [[[e ->] _]|(data & -> & _)]; [discriminate |].
    destruct (mapM relocate atts (r, w1)) as [[outs'|e|] s1] eqn:Hrest; try discriminate.
    injection Hrun as <- <-. destruct i as [|i].
    + injection Hi as <-. eexists. split; [reflexivity |]. simpl.
      unfold newFilePathOf, newFileNameOf. now rewrite Nat.add_0_r.
    + destruct (IH w1 outs' s1 Hrest i a Hi Ht) as (a' & H1 & H2).
      exists a'. split; [exact H1 |]. rewrite H2, Hs, Hd. cbn [drawnBefore]. rewrite Ht0.
      replace (S (uuid_drawn w) + drawnBefore i atts)%nat
        with (uuid_drawn w + (1 + drawnBefore i atts))%nat by lia.
      reflexivity.
  - rewrite (relocate_skip a0 (r, w) Ht0) in Hrun.
    destruct (mapM relocate atts (r, w)) as [[outs'|e|] s1] eqn:Hrest; try discriminate.
    injection Hrun as <- <-. destruct i as [|i].
    + injection Hi as <-. congruence.
    + destruct (IH w outs' s1 Hrest i a Hi Ht) as (a' & H1 & H2).
      exists a'. split; [exact H1 |]. rewrite H2. simpl. now rewrite Ht0.
Qed.

(** C6. When the identifiers [uuidv4()] gives during one relocation are of
    the uuid form and differ from one another, any two attachments that have
    a path get destinations with different file names, whatever their own
    names. *)
Theorem destination_filenames_distinct (r : Reporter) (w : World)
  (attachments outs : list Attachment) (s' : Reporter * World) :
  Forall (fun u => isUuid u = true) (nextUuids w (length attachments)) ->
  NoDup (nextUuids w (length attachments)) ->
  mapM relocate attachments (r, w) = (Ok outs, s') ->
  forall i j a b,
    i <> j ->
    attachments !! i = Some a -> attachments !! j = Some b ->
    truthy (att_path a) = true -> truthy (att_path b) = true ->
    exists p q,
      (outs !! i) ≫= att_path = Some p
      /\ (outs !! j) ≫= att_path = Some q
      /\ Path.basenameOf p <> Path.basenameOf q.
Proof.
  intros Hu Hnd Hrun i j a b Hij Hi Hj Ha Hb.
  destruct (relocation_paths r attachments w outs s' Hrun i a Hi Ha) as (a' & Ha1 & Ha2).
  destruct (relocation_paths r attachments w outs s' Hrun j b Hj Hb) as (b' & Hb1 & Hb2).
  do 2 eexists. rewrite Ha1, Hb1. simpl. split; [exact Ha2 |]. split; [exact Hb2 |].
  set (ki := drawnBefore i attachments). set (kj := drawnBefore j attachments).
  assert (Hki : (ki < length attachments)%nat).
  { pose proof (drawnBefore_le i attachments). apply lookup_lt_Some in Hi. unfold ki. lia. }
  assert (Hkj : (kj < length attachments)%nat).
  { pose proof (drawnBefore_le j attachments). apply lookup_lt_Some in Hj. unfold kj. lia. }
  assert (Hk : ki <> kj).
  { unfold ki, kj. destruct (Nat.lt_total i j) as [H|[H|H]]; [| contradiction |].
    - pose proof (drawnBefore_lt i j attachments a H Hi Ha). lia.
    - pose proof (drawnBefore_lt j i attachments b H Hj Hb). lia. }
  pose proof (nextUuids_lookup w _ ki Hki) as Li.
  pose proof (nextUuids_lookup w _ kj Hkj) as Lj.
  assert (Hui : isUuid (uuid_source w (uuid_drawn w + ki)) = true).
  { rewrite Forall_forall in Hu. apply Hu. eapply list_elem_of_lookup_2. exact Li. }
  assert (Huj : isUuid (uuid_source w (uuid_drawn w + kj)) = true).
  { rewrite Forall_forall in Hu. apply Hu. eapply list_elem_of_lookup_2. exact Lj. }
  assert (Hne : uuid_source w (uuid_drawn w + ki) <> uuid_source w (uuid_drawn w + kj)).
  { intros E. apply Hk. rewrite <- E in Lj. eapply NoDup_lookup; eassumption. }
  destruct (uuid_name _ (orString (att_path a) "") Hui) as [Hpi Hsi].
  destruct (uuid_name _ (orString (att_path b) "") Huj) as [Hpj Hsj].
  rewrite (basenameOf_join_data _ _ Hpi Hsi), (basenameOf_join_data _ _ Hpj Hsj).
  now apply uuid_names_differ.
Qed.

(** [onTestEnd] and the relocation it runs. *)
Lemma onTestEnd_run (test : TestCase) (res : TestResult)
  (r : Reporter) (w w' : World) (out : result (list Attachment)) :
  let r1 := countStatus (statusName (tr_status res)) r in
  mapM relocate (tr_attachments res) (r1, w) = (out, (r1, w')) ->
  onTestEnd test res (r, w)
  = match out with
    | Ok outs =>
        (Ok tt,
         (set_testResults (testResults r1 ++ [entryOf test res r1 (cwd w) outs]) r1, w'))
    | Throw e => (Throw e, (r1, w'))
    | Unfinished => (Unfinished, (r1, w'))
    end.
Proof.
  intros r1 Hrun. unfold onTestEnd.
  rewrite run_bind. unfold modifyThis at 1, modify at 1. cbv beta iota. cbn [fst snd].
  fold r1. rewrite run_bind. unfold this at 1, gets at 1. cbv beta iota. cbn [fst].
  rewrite run_bind, run_inWorld. unfold gets at 1 2. cbn [fst snd].
  rewrite run_bind, Hrun. now destruct out.
Qed.

Lemma onTestEnd_relocation (test : TestCase) (res : TestResult)
  (r : Reporter) (w w' : World) (out : result (list Attachment)) :
  let r1 := countStatus (statusName (tr_status res)) r in
  mapM relocate (tr_attachments res) (r1, w) = (out, (r1, w')) ->
  snd (snd (onTestEnd test res (r, w))) = w'
  /\ (forall outs, out = Ok outs ->
        fst (onTestEnd test res (r, w)) = Ok tt
        /\ exists entry,
             testResults (fst (snd (onTestEnd test res (r, w))))
             = testResults r ++ [entry]
             /\ e_attachments entry = outs)
  /\ (fst (onTestEnd test res (r, w)) = Ok tt -> exists outs, out = Ok outs).
Proof.
  intros r1 Hrun. rewrite (onTestEnd_run test res r w w' out Hrun). fold r1.
  destruct (countStatus_other_fields (tr_status res) r) as (E1 & _). fold r1 in E1.
  destruct out as [outs|e|]; cbn [fst snd].
  - split; [reflexivity |]. split; [|eauto].
    intros outs' [= <-]. split; [reflexivity |].
    eexists. cbn [set_testResults testResults]. rewrite E1. split; reflexivity.
  - split; [reflexivity |]. split; [discriminate | discriminate].
  - split; [reflexivity |]. split; [discriminate | discriminate].
Qed.

(** C9. In a process whose working directory is an absolute normalized path
    and is the reporter's project root, when the identifiers drawn are fresh
    (of the uuid form, different from one another, and none of them names an
    attachment source in the directory of the copies): every attachment
    source that was a regular file before [onTestEnd] is the same file after
    it, whether [onTestEnd] returned or threw; and when it returned, each
    attachment that had a path is recorded with the new path
    [path.join(reportDir, 'data', <uuid><ext>)], which names a file in the
    directory of the copies, at another place than the source: there is a
    regular file there with the content of the source, and the source is
    still where it was. *)
Theorem relocation_keeps_sources (test : TestCase) (res : TestResult)
  (r : Reporter) (w : World) :
  Path.resolve "/" [cwd w] = cwd w ->
  projectRoot r = cwd w ->
  Forall (fun u => isUuid u = true) (nextUuids w (length (tr_attachments res))) ->
  NoDup (nextUuids w (length (tr_attachments res))) ->
  (forall a u ext,
     In a (tr_attachments res) -> truthy (att_path a) = true ->
     In u (nextUuids w (length (tr_attachments res))) ->
     locate w (orString (att_path a) "")
     <> locate w (dataDirectoryOf r w) ++ [u +:+ ext]) ->
  let after := onTestEnd test res (r, w) in
  (forall a data,
     In a (tr_attachments res) -> truthy (att_path a) = true ->
     contentAt w (orString (att_path a) "") = Some data ->
     contentAt (snd (snd after)) (orString (att_path a) "") = Some data)
  /\ (fst after = Ok tt ->
      exists entry,
        testResults (fst (snd after)) = testResults r ++ [entry]
        /\ forall i a,
             tr_attachments res !! i = Some a -> truthy (att_path a) = true ->
             exists a' np data,
               e_attachments entry !! i = Some a'
               /\ att_path a' = Some np
               /\ contentAt (snd (snd after)) np = Some data
               /\ contentAt (snd (snd after)) (orString (att_path a) "") = Some data
               /\ (let newFileName :=
                     uuid_source w (uuid_drawn w + drawnBefore i (tr_attachments res))
                     +:+ Path.extname (orString (att_path a) "") in
                   np = Path.join [reportDir r; "data"; newFileName]
                   /\ locate w np = locate w (dataDirectoryOf r w) ++ [newFileName])
               /\ locate w np <> locate w (orString (att_path a) "")).
Proof.
  intros Hcwd Hroot Hu Hnd Hsrc after.
  destruct (fixed_by_resolve "/" (cwd w) eq_refl Hcwd) as (C & HC & HCe).
  set (r1 := countStatus (statusName (tr_status res)) r).
  destruct (countStatus_other_fields (tr_status res) r) as (_ & _ & Er & Ed).
  fold r1 in Er, Ed.
  assert (Hroot1 : projectRoot r1 = renderAbs C) by congruence.
  assert (Hdir : dataDirectoryOf r1 w = dataDirectoryOf r w)
    by (unfold dataDirectoryOf; now rewrite Er, Ed).
  assert (Hsrc1 : forall a, In a (tr_attachments res) -> truthy (att_path a) = true ->
            freshFor r1 C w (length (tr_attachments res))
                     (locate w (orString (att_path a) ""))).
  { intros a Ha Ht i ext Hi.
    rewrite <- (locate_dataDirectory r1 C Hroot1 w HCe), Hdir.
    apply Hsrc; [assumption.. |].
    apply list_elem_of_In. eapply list_elem_of_lookup_2.
    now apply nextUuids_lookup. }
  destruct (relocation_files r1 C HC Hroot1 (tr_attachments res) w HCe Hu Hnd Hsrc1)
    as (out & w' & Hrun & Hc' & Hkeep & Hok).
  destruct (onTestEnd_relocation test res r w w' out Hrun) as (Hw' & Hret & Hback).
  fold after in Hw', Hret, Hback.
  assert (Hloc : forall p, locate (snd (snd after)) p = locate w p)
    by (intros p; apply locate_same_cwd; congruence).
  split.
  - intros a data Ha Ht Hbefore. unfold contentAt in *. rewrite Hloc, Hw'.
    destruct (Fs.find (locate w (orString (att_path a) "")) (fs w)) as [[d|es]|] eqn:Ef;
      try discriminate.
    injection Hbefore as ->.
    rewrite (Hkeep _ data); [reflexivity | | exact Ef].
    now apply Hsrc1.
  - intros Hfin. destruct (Hback Hfin) as (outs & ->).
    destruct (Hret outs eq_refl) as (_ & entry & Hentry & Hatt).
    exists entry. split; [exact Hentry |].
    intros i a Hi Ht.
    destruct (Hok outs eq_refl i a Hi Ht) as (a' & np & data & H1 & H2 & H3 & H4).
    destruct (relocation_paths r1 (tr_attachments res) w outs _ Hrun i a Hi Ht)
      as (a'' & H1' & H2').
    assert (a'' = a') by congruence. subst a''.
    rewrite H2 in H2'. injection H2' as Hnp. rewrite Ed in Hnp.
    set (k := drawnBefore i (tr_attachments res)) in *.
    assert (Hk : (k < length (tr_attachments res))%nat).
    { pose proof (drawnBefore_le i (tr_attachments res)).
      apply lookup_lt_Some in Hi. unfold k. lia. }
    pose proof (nextUuids_lookup w _ k Hk) as Lk.
    assert (Huk : isUuid (uuid_source w (uuid_drawn w + k)) = true).
    { rewrite Forall_forall in Hu. apply Hu. eapply list_elem_of_lookup_2. exact Lk. }
    destruct (uuid_name _ (orString (att_path a) "") Huk) as [Hp Hs].
    assert (Hat : locate w np
                  = locate w (dataDirectoryOf r w)
                    ++ [uuid_source w (uuid_drawn w + k)
                        +:+ Path.extname (orString (att_path a) "")]).
    { rewrite Hnp, <- Hdir, (locate_dataDirectory r1 C Hroot1 w HCe).
      unfold locate, dataLoc. rewrite HCe, Ed. now apply locate_join_data. }
    exists a', np, data. rewrite Hatt. unfold contentAt. rewrite !Hloc, Hw', H3, H4.
    split; [exact H1 |]. split; [exact H2 |]. split; [reflexivity |].
    split; [reflexivity |]. split; [split; [exact Hnp | exact Hat] |].
    rewrite Hat. intros E. symmetry in E. revert E.
    apply Hsrc; [|exact Ht |].
    + apply list_elem_of_In. eapply list_elem_of_lookup_2. exact Hi.
    + apply list_elem_of_In. eapply list_elem_of_lookup_2. exact Lk.
Qed.

(** C3, as the code has it.  For an attachment with a path, a relocation that
    returns records the new path, [path.join(reportDir, 'data', <uuid><ext>)],
    and a URL: ['./'] followed by the new path relative to the project root.
    When the project root is the working directory, an absolute normalized
    path, resolving the URL from the project root gives the new path's
    location. *)
Theorem relocation_records_path_and_url (a a' : Attachment) (r : Reporter)
  (w : World) (s' : Reporter * World) :
  truthy (att_path a) = true ->
  relocate a (r, w) = (Ok a', s') ->
  att_path a' = Some (newFilePathOf r w a)
  /\ att_url a'
     = Some ("./" +:+ Path.relative (cwd w) (projectRoot r) (newFilePathOf r w a))
  /\ att_name a' = att_name a
  /\ att_contentType a' = att_contentType a
  /\ (Path.resolve "/" [cwd w] = cwd w -> projectRoot r = cwd w ->
      forall url, att_url a' = Some url ->
        Path.resolve (cwd w) [projectRoot r; url]
        = Path.resolve (cwd w) [newFilePathOf r w a]).
Proof.
  intros Ht Hrun.
  destruct (relocate_cases a r w Ht) as (out & w' & f1 & Hr & _ & _ & _ & Hcase).
  rewrite Hr in Hrun. injection Hrun as -> _.
  destruct Hcase as [[[e He] _]|(data & He & _)]; [discriminate |].
  injection He as ->. repeat split.
  intros Hcwd Hroot url [= <-].
  destruct (fixed_by_resolve "/" (cwd w) eq_refl Hcwd) as (C & HC & HCe).
  rewrite Hroot, HCe. now apply resolve_relative.
Qed.

(** ** Counters *)

Lemma constructor_counts (options : ChalishaReporterOptions) (w w' : World) (r : Reporter) :
  newChalishaReporter options w = (Ok r, w') -> counted r = 0.
Proof.
  unfold newChalishaReporter. intros H.
  repeat (apply bind_Ok_inv in H as (? & ? & _ & H)).
  unfold mret, M_ret in H. injection H as <- _. reflexivity.
Qed.

Lemma counted_storeProjects (ps : list Project) (r : Reporter) :
  counted (fold_left (fun r p => storeProject p r) ps r) = counted r.
Proof.
  revert r. induction ps as [|p ps IH]; intros r; simpl; [reflexivity |].
  now rewrite IH.
Qed.

(** C1. From the construction of the reporter on, whatever [onBegin]
    declared and whether handling an event returned or threw, the five
    counters add up to the number of test-end events delivered. *)
Theorem counters_sum_to_events (options : ChalishaReporterOptions) (w w' : World)
  (r : Reporter) (config : FullConfig) (allTests : list TestCase)
  (events : list (TestCase * TestResult)) :
  newChalishaReporter options w = (Ok r, w') ->
  counted (fst (deliver events (snd (onBegin config allTests (r, w')))))
  = Z.of_nat (length events).
Proof.
  intros H. rewrite counted_deliver, onBegin_run. cbn [fst snd].
  rewrite counted_storeProjects.
  change (counted (set_totalTests (Z.of_nat (length allTests)) r)) with (counted r).
  rewrite (constructor_counts options w w' r H). lia.
Qed.

(** ** Examples *)

Example counters_sum_to_events_example :
  exists r w',
    newChalishaReporter Sample.defaults Sample.world = (Ok r, w')
    /\ counted (fst (deliver [(Sample.test, Sample.testResult);
                             (Sample.test, Sample.testResult)]
                       (snd (onBegin Sample.config [Sample.test] (r, w'))))) = 2.
Proof.
  eexists _, _. split; [vm_compute; reflexivity |].
  apply (counters_sum_to_events Sample.defaults Sample.world _ _ Sample.config
           [Sample.test]
           [(Sample.test, Sample.testResult); (Sample.test, Sample.testResult)]).
  reflexivity.
Defined.

Example captureNestedSteps_six_levels :
  map (fun k => map sd_name (detailsAt k (captureNestedSteps "/proj" "/proj"
                                            (Some Sample.sixLevels) 0)))
      [0; 1; 2; 3; 4; 5]%nat
  = [["l0"]; ["l1"]; ["l2"]; ["l3"]; []; []].
Proof. reflexivity. Qed.

Example relocation_records_path_and_url_example :
  exists a' s',
    relocate Sample.screenshot (Sample.reporter, Sample.runningWorld) = (Ok a', s')
    /\ att_path a'
       = Some "reports/chalisha-reporter/data/7c9e6679-7425-40de-944b-e07fc1f90ae7.png"
    /\ att_url a'
       = Some "./reports/chalisha-reporter/data/7c9e6679-7425-40de-944b-e07fc1f90ae7.png"
    /\ Path.resolve "/proj"
         ["/proj";
          "./reports/chalisha-reporter/data/7c9e6679-7425-40de-944b-e07fc1f90ae7.png"]
       = "/proj/reports/chalisha-reporter/data/7c9e6679-7425-40de-944b-e07fc1f90ae7.png".
Proof.
  eexists _, _. split; [vm_compute; reflexivity |].
  match goal with |- att_path ?a' = _ /\ _ =>
    destruct (relocation_records_path_and_url Sample.screenshot a'
                Sample.reporter Sample.runningWorld
                (Sample.reporter,
                 snd (snd (relocate Sample.screenshot
                             (Sample.reporter, Sample.runningWorld))))
                eq_refl)
      as (H1 & H2 & _ & _ & H3)
  end.
  - vm_compute. reflexivity.
  - split; [exact H1 |]. split; [exact H2 |].
    exact (H3 eq_refl eq_refl _ eq_refl).
Defined.


Example constructor_output_directory_example :
  (exists r w',
     newChalishaReporter Sample.defaults Sample.world = (Ok r, w')
     /\ Fs.find ["proj"; "reports"; "chalisha-reporter"] (fs w') = Some (Fs.Dir []))
  /\ (exists r w',
        newChalishaReporter Sample.defaults Sample.bareWorld = (Ok r, w')
        /\ Fs.find ["proj"; "reports"; "chalisha-reporter"] (fs w') = Some (Fs.Dir [])).
Proof.
  split.
  - destruct (proj1 (constructor_output_directory Sample.world eq_refl
                       Sample.defaults eq_refl)
                [("report.json", Fs.File "stale");
                 ("data", Fs.Dir [("old.png", Fs.File "stale")])] eq_refl)
      as (r & w' & Hrun & Hf & _).
    exists r, w'. split; assumption.
  - destruct (proj2 (constructor_output_directory Sample.bareWorld eq_refl
                       Sample.defaults eq_refl) eq_refl)
      as (r & w' & Hrun & Hf & _).
    + intros q d [k Hk].
      destruct q as [|x1 [|x2 [|x3 [|x4 q]]]]; try discriminate;
        injection Hk; intros; subst; vm_compute; discriminate.
    + exists r, w'. split; assumption.
Defined.

Lemma example_uuids_NoDup : NoDup (nextUuids Sample.runningWorld 2).
Proof. apply (bool_decide_unpack _). vm_compute. reflexivity. Qed.

Lemma example_uuids_valid :
  Forall (fun u => isUuid u = true) (nextUuids Sample.runningWorld 2).
Proof. repeat constructor. Qed.

Example destination_filenames_distinct_example :
  exists outs s',
    mapM relocate [Sample.screenshot; Sample.screenshot]
         (Sample.reporter, Sample.runningWorld) = (Ok outs, s')
    /\ exists p q,
         (outs !! 0%nat) ≫= att_path = Some p
         /\ (outs !! 1%nat) ≫= att_path = Some q
         /\ Path.basenameOf p <> Path.basenameOf q.
Proof.
  eexists _, _. split; [vm_compute; reflexivity |].
  apply (destination_filenames_distinct Sample.reporter Sample.runningWorld
           [Sample.screenshot; Sample.screenshot] _
           (snd (mapM relocate [Sample.screenshot; Sample.screenshot]
                   (Sample.reporter, Sample.runningWorld)))
           example_uuids_valid example_uuids_NoDup)
    with (a := Sample.screenshot) (b := Sample.screenshot);
    [vm_compute; reflexivity | discriminate | reflexivity..].
Defined.

Example onExit_without_connection_string_example :
  onExit 1 (Sample.reporter, Sample.runningWorld)
  = (Ok tt, (Sample.reporter, Sample.runningWorld)).
Proof.
  apply onExit_without_connection_string. left. reflexivity.
Defined.

Example uploadPlaywrightReport_never_throws_example :
  uploadPlaywrightReport 3 Sample.uploader Sample.offline
  = (Ok tt,
     set_console
       ["Azure Storage Connection String: UseDevelopmentStorage=true";
        "Container Name: reports";
        "Error uploading report to Azure Blob Storage: getaddrinfo ENOTFOUND"]
       (set_network [CreateIfNotExists "reports" "container"] Sample.offline))
  /\ fst (uploadPlaywrightReport 6 Sample.uploader Sample.world) = Ok tt.
Proof.
  split.
  - destruct (uploadPlaywrightReport_never_throws 3 Sample.uploader Sample.offline)
      as (_ & _ & Hlog & _).
    rewrite (Hlog {| message := "getaddrinfo ENOTFOUND" |}
               (set_network [CreateIfNotExists "reports" "container"]
                  (set_console
                     ["Azure Storage Connection String: UseDevelopmentStorage=true";
                      "Container Name: reports"] Sample.offline)));
      reflexivity.
  - destruct (uploadPlaywrightReport_never_throws 6 Sample.uploader Sample.world)
      as (_ & _ & _ & Hfin).
    apply Hfin; [reflexivity | reflexivity | simpl; lia].
Defined.

Example relocation_keeps_sources_example :
  let after := onTestEnd Sample.test Sample.testResult
                 (Sample.reporter, Sample.runningWorld) in
  let copy := "reports/chalisha-reporter/data/7c9e6679-7425-40de-944b-e07fc1f90ae7.png" in
  contentAt (snd (snd after)) "/tmp/shot.png" = Some "PNG-1"
  /\ contentAt Sample.runningWorld copy = None
  /\ exists entry a',
       testResults (fst (snd after)) = testResults Sample.reporter ++ [entry]
       /\ e_attachments entry !! 0%nat = Some a'
       /\ att_path a' = Some copy
       /\ contentAt (snd (snd after)) copy = Some "PNG-1"
       /\ locate Sample.runningWorld copy <> locate Sample.runningWorld "/tmp/shot.png".
Proof.
  intros after copy.
  destruct (relocation_keeps_sources Sample.test Sample.testResult
              Sample.reporter Sample.runningWorld eq_refl eq_refl
              example_uuids_valid example_uuids_NoDup) as [Hkeep Hcopy].
  - intros a u ext [<-|[<-|[]]] _ _; vm_compute; discriminate.
  - pose proof (Hkeep Sample.screenshot "PNG-1" (or_introl eq_refl) eq_refl eq_refl)
      as Hsource.
    split; [exact Hsource |]. split; [reflexivity |].
    destruct Hcopy as (entry & Hentry & Hall); [vm_compute; reflexivity |].
    destruct (Hall 0%nat Sample.screenshot eq_refl eq_refl)
      as (a' & np & data & H1 & H2 & H3 & H4 & (Hnp & _) & Hne).
    change (orString (att_path Sample.screenshot) "") with "/tmp/shot.png" in Hne.
    assert (Hcopy' : np = copy) by (rewrite Hnp; reflexivity).
    rewrite Hcopy' in H2, H3, Hne.
    exists entry, a'. split; [exact Hentry |]. split; [exact H1 |].
    split; [exact H2 |]. split; [|exact Hne].
    assert (data = "PNG-1") as -> by congruence. exact H3.
Defined.

Example onBegin_defaults_example :
  let s := snd (onBegin Sample.config [Sample.test]
                  (Sample.reporter, Sample.runningWorld)) in
  let chromium := {| bc_name := "chromium"; bc_headless := true;
                     bc_viewport := {| width := 1280; height := 720 |};
                     bc_isMobile := false; bc_hasTouch := false |} in
  getProperty "chromium" (browserInfo (fst s)) = js_context chromium
  /\ (exists s2 entry,
        onTestEnd Sample.test Sample.testResult s = (Ok tt, s2)
        /\ testResults (fst s2) = [entry]
        /\ e_browser entry = js_context chromium)
  /\ orEmptyObject (getProperty "firefox" (browserInfo (fst s))) = js_emptyObject
  /\ orEmptyObject (getProperty "constructor" (browserInfo (fst s)))
     = js_function "constructor".
Proof.
  intros s chromium.
  destruct (onBegin_defaults Sample.config [Sample.test]
              (Sample.reporter, Sample.runningWorld))
    as (_ & Hstored & _ & _ & _ & Hlookup & Hrun & _).
  pose proof (Hstored "chromium" _ eq_refl) as Hchromium.
  split; [exact Hchromium |]. split; [|split].
  - destruct (Hlookup Sample.test Sample.testResult s
                (snd (onTestEnd Sample.test Sample.testResult s)))
      as (entry & Hentry & Hbrowser).
    + vm_compute. reflexivity.
    + eexists _, entry. split; [vm_compute; reflexivity |]. split; [exact Hentry |].
      rewrite Hbrowser. exact (f_equal orEmptyObject Hchromium).
  - apply (Hrun eq_refl "firefox"); reflexivity.
  - apply (Hrun eq_refl "constructor"); [reflexivity |]. now left.
Defined.

(** ** Where the specification departs from the code *)

(** The URL recorded for a relocated attachment is relative to the project
    root: resolved from the report output directory it leads elsewhere than
    to the copy. *)
Lemma url_not_relative_to_report_directory :
  fst (relocate Sample.screenshot (Sample.reporter, Sample.runningWorld))
  = Ok {| att_name := "screenshot"; att_contentType := "image/png";
          att_path :=
            Some "reports/chalisha-reporter/data/7c9e6679-7425-40de-944b-e07fc1f90ae7.png";
          att_body := None;
          att_url :=
            Some "./reports/chalisha-reporter/data/7c9e6679-7425-40de-944b-e07fc1f90ae7.png" |}
  /\ outputDirOf Sample.defaults Sample.world = "/proj/reports/chalisha-reporter"
  /\ Path.resolve "/proj"
       ["/proj/reports/chalisha-reporter";
        "./reports/chalisha-reporter/data/7c9e6679-7425-40de-944b-e07fc1f90ae7.png"]
     <> Path.resolve "/proj"
          ["reports/chalisha-reporter/data/7c9e6679-7425-40de-944b-e07fc1f90ae7.png"].
Proof. vm_compute. repeat split. discriminate. Qed.


(** On a POSIX file system a name may hold a backslash.  The walk turns it
    into ['/']: the file [a\b.json] and the file [b.json] of the directory
    [a] are uploaded at the same blob path, the second upload replacing the
    first. *)
Lemma mirror_backslash_names_collide :
  Fs.wf (fs Sample.backslashWorld) = true
  /\ network (snd (uploadDirectoryToBlobStorage 2 Sample.uploader "/mirror" "P"
                     Sample.backslashWorld))
     = [UploadData "reports" "P/a/b.json" "1" "application/json";
        UploadData "reports" "P/a/b.json" "2" "application/json"].
Proof. vm_compute. split; reflexivity. Qed.

(** * Further properties of the reporter and the uploader *)

(** ** Reading JSON files *)

Lemma run_tryCatch {S A} (body : M S A) (handler : Error -> M S A) (s : S) :
  tryCatch body handler s
  = match body s with
    | (Ok a, s') => (Ok a, s')
    | (Throw e, s') => handler e s'
    | (Unfinished, s') => (Unfinished, s')
    end.
Proof. reflexivity. Qed.

(** X1. [getHostAppPackageJson] never throws and changes nothing but the console.
    An error of locating, reading or parsing the host's package.json becomes
    one console line with its message, and the result is [null]; when the
    file is there, the result is what [JSON.parse] makes of its text. *)
Theorem getHostAppPackageJson_never_throws (w : World) :
  exists pkg w',
    getHostAppPackageJson w = (Ok pkg, w')
    /\ fs w' = fs w /\ cwd w' = cwd w /\ network w' = network w
    /\ uuid_drawn w' = uuid_drawn w
    /\ (console w' = console w
        \/ exists e,
             pkg = None
             /\ console w'
                = console w
                  ++ ["Error finding or reading the main application's package.json: "
                      +:+ message e])
    /\ (forall text,
          contentAt w (Path.join [cwd w; "package.json"]) = Some text ->
          match JSON_parse w text with
          | Success v => pkg = v /\ console w' = console w
          | Failure e =>
              pkg = None
              /\ console w'
                 = console w
                   ++ ["Error finding or reading the main application's package.json: "
                       +:+ message e]
          end).
Proof.
  unfold getHostAppPackageJson. rewrite run_tryCatch, run_bind.
  unfold gets at 1. cbv beta iota. rewrite run_bind.
  assert (Hread : forall q, exists out,
             (readFileSync q ≫= (fun text => fsQuery (fun w => JSON_parse w text))) w
             = (out, w) /\ out <> Unfinished).
  { intros q. rewrite run_bind. unfold readFileSync, fsQuery at 1, fsCall, Fs.read.
    destruct (Fs.find (locate w q) (fs w)) as [[text|es]|].
    - unfold fsQuery.
      destruct (JSON_parse w text); eexists; (split; [reflexivity | discriminate]).
    - eexists; (split; [reflexivity | discriminate]).
    - eexists; (split; [reflexivity | discriminate]). }
  assert (Hsearch :
    exists pkg w',
      (let (r, s') :=
         let (r, s') :=
           match module_search w (fs w) (Path.join [cwd w; "package.json"]) with
           | Success found => (Ok found, w)
           | Failure e => (Throw e, w)
           end in
         match r with
         | Ok a => (readFileSync a
                    ≫= (fun text => fsQuery (fun w => JSON_parse w text))) s'
         | Throw e => (Throw e, s')
         | Unfinished => (Unfinished, s')
         end in
       match r with
       | Ok a => (Ok a, s')
       | Throw e =>
           (console_error
              ("Error finding or reading the main application's package.json: "
               +:+ message e) ≫= (fun _ => mret None)) s'
       | Unfinished => (Unfinished, s')
       end) = (Ok pkg, w')
      /\ fs w' = fs w /\ cwd w' = cwd w /\ network w' = network w
      /\ uuid_drawn w' = uuid_drawn w
      /\ (console w' = console w
          \/ exists e,
               pkg = None
               /\ console w'
                  = console w
                    ++ ["Error finding or reading the main application's package.json: "
                        +:+ message e])).
  { destruct (module_search w (fs w) (Path.join [cwd w; "package.json"])) as [q|e].
    - destruct (Hread q) as (out & -> & Hne).
      destruct out as [v|e|]; [| |contradiction].
      + exists v, w. do 5 (split; [reflexivity |]). now left.
      + eexists None, _. do 5 (split; [reflexivity |]). right. now exists e.
    - eexists None, _. do 5 (split; [reflexivity |]). right. now exists e. }
  unfold require_resolve, contentAt in *.
  destruct (Fs.find (locate w (Path.join [cwd w; "package.json"])) (fs w))
    as [[text|es]|] eqn:Hf.
  - rewrite run_bind. unfold readFileSync, fsQuery at 1, fsCall, Fs.read. rewrite Hf.
    unfold fsQuery.
    destruct (JSON_parse w text) as [v|e] eqn:Hp.
    + exists v, w. do 5 (split; [reflexivity |]). split; [now left |].
      intros t [= <-]. now rewrite Hp.
    + eexists None, _. do 5 (split; [reflexivity |]). simpl. split.
      * right. now exists e.
      * intros t [= <-]. now rewrite Hp.
  - destruct Hsearch as (pkg & w' & -> & H).
    exists pkg, w'. split; [reflexivity |].
    destruct H as (H1 & H2 & H3 & H4 & H5). repeat (split; [assumption |]).
    intros t Ht. discriminate Ht.
  - destruct Hsearch as (pkg & w' & -> & H).
    exists pkg, w'. split; [reflexivity |].
    destruct H as (H1 & H2 & H3 & H4 & H5). repeat (split; [assumption |]).
    intros t Ht. discriminate Ht.
Qed.

(** X2. [readJsonFile] of the uploader never throws, whatever the parser does,
    and changes nothing but the console: it gives the parsed value when the
    file is a regular file whose text parses, and [null] with one console
    line carrying the error's message otherwise. *)
Theorem readJsonFile_never_throws {J : Type} (parse : string -> answer J)
  (file : string) (w : World) :
  exists value w',
    readJsonFile parse file w = (Ok value, w')
    /\ fs w' = fs w /\ network w' = network w
    /\ match contentAt w file with
       | Some text =>
           match parse text with
           | Success v => value = Some v /\ w' = w
           | Failure e =>
               value = None
               /\ console w'
                  = console w ++ ["Error reading or parsing the file: " +:+ message e]
           end
       | None =>
           value = None
           /\ exists e,
                console w'
                = console w ++ ["Error reading or parsing the file: " +:+ message e]
       end.
Proof.
  unfold readJsonFile. rewrite run_tryCatch, run_bind.
  unfold readFileSync, fsQuery at 1, fsCall, Fs.read, contentAt.
  destruct (Fs.find (locate w file) (fs w)) as [[text|es]|] eqn:Hf.
  - rewrite run_bind. unfold fsQuery.
    destruct (parse text) as [v|e].
    + exists (Some v), w. now repeat split.
    + eexists None, _. split; [reflexivity |]. simpl. now repeat split.
  - eexists None, _. do 3 (split; [reflexivity |]). split; [reflexivity |].
    now eexists.
  - eexists None, _. do 3 (split; [reflexivity |]). split; [reflexivity |].
    now eexists.
Qed.

(** ** More about paths and files *)

Lemma resolveLoop_acc (l : list string) (acc : string) :
  Path.resolveLoop l acc
  = (fst (Path.resolveLoop l "") +:+ acc, snd (Path.resolveLoop l "")).
Proof.
  revert acc. induction l as [|x l IH]; intros acc; [reflexivity |].
  cbn [Path.resolveLoop].
  destruct (String.eqb x ""); [apply IH |].
  destruct (Path.isAbsolute x).
  - cbn [fst snd]. now rewrite !append_assoc.
  - rewrite IH. rewrite (IH (x +:+ "/" +:+ "")). cbn [fst snd].
    now rewrite !append_assoc.
Qed.

Lemma resolveLoop_shape (l : list string) :
  fst (Path.resolveLoop l "") = ""
  \/ exists X, fst (Path.resolveLoop l "") = X +:+ "/" +:+ "".
Proof.
  induction l as [|x l IH]; [now left |].
  cbn [Path.resolveLoop].
  destruct (String.eqb x ""); [exact IH |].
  destruct (Path.isAbsolute x); [right; now exists x |].
  right. rewrite resolveLoop_acc. cbn [fst].
  exists (fst (Path.resolveLoop l "") +:+ x). now rewrite !append_assoc.
Qed.

(** One more name at the end of what is resolved. *)
Lemma resolveSegments_snoc (cwd : string) (args : list string) (n : string) :
  proper n -> slashFree n ->
  Path.resolveSegments cwd (args ++ [n])
  = (fst (Path.resolveSegments cwd args), snd (Path.resolveSegments cwd args) ++ [n]).
Proof.
  intros Hp Hs. unfold Path.resolveSegments.
  rewrite rev_app_distr. simpl rev. simpl app. cbn [Path.resolveLoop].
  destruct Hp as (Hn0 & Hn1 & Hn2). pose proof Hn0 as Hn0'.
  apply String.eqb_neq in Hn0'. rewrite Hn0'.
  rewrite (isAbsolute_slashFree n Hs).
  rewrite resolveLoop_acc.
  destruct (Path.resolveLoop (rev args ++ [cwd]) "") as [p b] eqn:E.
  cbn [fst snd]. f_equal.
  assert (Hpn : proper n) by now repeat split.
  pose proof (resolveLoop_shape (rev args ++ [cwd])) as [H|[X H]];
    rewrite E in H; cbn [fst] in H; subst p.
  - rewrite append_nil_l, split_slash, Hs. simpl app.
    change (Path.split "") with [""].
    change [n; ""] with ([n] ++ [""]).
    rewrite normalizeSegments_nil_end, normalizeSegments_push by assumption.
    reflexivity.
  - rewrite append_assoc. rewrite !(split_slash X).
    change ("" +:+ n +:+ "/" +:+ "") with (n +:+ "/" +:+ "").
    rewrite split_slash, Hs. change (Path.split "") with [""].
    rewrite app_assoc, !normalizeSegments_nil_end.
    rewrite normalizeSegments_app, normalizeSegments_push by assumption.
    now rewrite rev_involutive.
Qed.

Lemma locate_resolve_snoc (w : World) (args : list string) (n : string) :
  Path.resolve "/" [cwd w] = cwd w ->
  Fs.validName n = true ->
  locate w (Path.resolve (cwd w) (args ++ [n]))
  = locate w (Path.resolve (cwd w) args) ++ [n].
Proof.
  intros Hc Hn. apply validName_spec in Hn as [Hp Hs].
  pose proof (cwd_absolute w Hc) as Ha.
  destruct (resolveSegments_names (cwd w) args Ha) as (N & HN & Hnames).
  pose proof (resolveSegments_snoc (cwd w) args n Hp Hs) as E.
  rewrite HN in E. cbn [fst snd] in E.
  rewrite (resolve_renderAbs _ _ _ HN), (resolve_renderAbs _ _ _ E).
  rewrite !locate_renderAbs; [reflexivity | assumption |].
  apply names_app; [assumption |]. constructor; [now split | constructor].
Qed.

Lemma write_at (data n : string) (O : list string) :
  forall (root : Fs.node) (es : list (string * Fs.node)),
    Fs.find O root = Some (Fs.Dir es) ->
    (forall es', Fs.entry n es <> Some (Fs.Dir es')) ->
    exists root',
      Fs.write data (O ++ [n]) root = Success root'
      /\ Fs.find O root' = Some (Fs.Dir (Fs.setEntry n (Fs.File data) es)).
Proof.
  induction O as [|s O IH]; intros root es Hf Hn.
  - injection Hf as ->. simpl app. cbn [Fs.write].
    exists (Fs.Dir (Fs.setEntry n (Fs.File data) es)). split; [|reflexivity].
    destruct (Fs.entry n es) as [[d|es']|] eqn:E; try reflexivity.
    now destruct (Hn es').
  - apply find_Some_cons in Hf as (es0 & c & -> & He & Hf).
    destruct (IH c es Hf Hn) as (c' & Hw & Hf').
    exists (Fs.Dir (Fs.setEntry s c' es0)). split.
    + simpl app. cbn [Fs.write].
      destruct (O ++ [n]) as [|x rest] eqn:E; [now destruct O |].
      now rewrite He, Hw.
    + now rewrite find_cons_Dir, entry_setEntry_eq.
Qed.

(** Writing a file changes nothing but what is found on the way to it. *)
Lemma write_frame (data : string) (segs : list string) :
  forall (q : list string) (root root' : Fs.node),
    Fs.write data segs root = Success root' ->
    ~ q `prefix_of` segs ->
    Fs.find q root' = Fs.find q root.
Proof.
  induction segs as [|s rest IH]; intros q root root' Hw Hq.
  - destruct root; discriminate.
  - destruct root as [d0|es]; [discriminate |]. cbn [Fs.write] in Hw.
    destruct q as [|x q]; [destruct Hq; apply prefix_nil |].
    rewrite !find_cons_Dir.
    destruct rest as [|s' rest].
    + assert (root' = Fs.Dir (Fs.setEntry s (Fs.File data) es)) as ->.
      { destruct (Fs.entry s es) as [[?|?]|]; congruence. }
      rewrite find_cons_Dir.
      destruct (String.eqb_spec s x) as [->|Hxs].
      * rewrite entry_setEntry_eq.
        destruct q as [|y q]; [destruct Hq; reflexivity |].
        destruct (Fs.entry x es) as [[?|?]|]; try discriminate; reflexivity.
      * now rewrite entry_setEntry_ne.
    + destruct (Fs.entry s es) as [c|] eqn:E; [|discriminate].
      destruct (Fs.write data (s' :: rest) c) as [c'|e] eqn:Ec; [|discriminate].
      injection Hw as <-. rewrite find_cons_Dir.
      destruct (String.eqb_spec s x) as [->|Hxs].
      * rewrite entry_setEntry_eq, E. simpl.
        eapply IH; [eassumption |]. intros Hp. apply Hq. now apply prefix_cons.
      * now rewrite entry_setEntry_ne.
Qed.

Lemma write_without_directory (data n : string) (O : list string) :
  forall root : Fs.node,
    (forall es, Fs.find O root <> Some (Fs.Dir es)) ->
    exists e, Fs.write data (O ++ [n]) root = Failure e.
Proof.
  induction O as [|s O IH]; intros root Hf.
  - destruct root as [d|es]; [now eexists | now destruct (Hf es)].
  - destruct root as [d|es]; [now eexists |].
    simpl app. cbn [Fs.write].
    destruct (O ++ [n]) as [|x rest] eqn:E; [now destruct O |].
    destruct (Fs.entry s es) as [c|] eqn:He; [|now eexists].
    destruct (IH c) as [e He'].
    { intros es' H. apply (Hf es'). now rewrite find_cons_Dir, He. }
    rewrite He'. now eexists.
Qed.

Lemma mkdirp_blocked (q : list string) :
  forall (segs : list string) (root : Fs.node) (d : string),
    q `prefix_of` segs -> Fs.find q root = Some (Fs.File d) ->
    exists e, Fs.mkdirp segs root = Failure e.
Proof.
  induction q as [|s q IH]; intros segs root d Hp Hf.
  - injection Hf as ->. destruct segs; now eexists.
  - destruct Hp as [rest ->]. simpl app.
    apply find_Some_cons in Hf as (es & c & -> & He & Hf).
    cbn [Fs.mkdirp]. rewrite He. simpl default.
    destruct (IH (q ++ rest) c d) as [e E]; [now exists rest | assumption |].
    rewrite E. now eexists.
Qed.

(** [mkdir -p] makes directories, never a regular file. *)
Lemma mkdirp_no_new_files (segs : list string) :
  forall (q : list string) (root root' : Fs.node) (d : string),
    Fs.mkdirp segs root = Success root' ->
    Fs.find q root' = Some (Fs.File d) -> Fs.find q root = Some (Fs.File d).
Proof.
  induction segs as [|s rest IH]; intros q root root' d Hm Hq.
  - destruct root; [discriminate |]. now injection Hm as <-.
  - destruct root as [d0|es]; [discriminate |]. cbn [Fs.mkdirp] in Hm.
    destruct (Fs.mkdirp rest (default (Fs.Dir []) (Fs.entry s es))) as [c'|e] eqn:E;
      [|discriminate].
    injection Hm as <-.
    destruct q as [|x q]; [discriminate |].
    rewrite find_cons_Dir in Hq. rewrite find_cons_Dir.
    destruct (String.eqb_spec s x) as [->|Hxs].
    + rewrite entry_setEntry_eq in Hq. simpl in Hq.
      pose proof (IH q _ _ d E Hq) as H.
      destruct (Fs.entry x es) as [c|]; [exact H |].
      simpl in H. destruct q; discriminate.
    + now rewrite entry_setEntry_ne in Hq.
Qed.

(** ** [onEnd] *)

Lemma run_this (r : Reporter) (w : World) : this (r, w) = (Ok r, (r, w)).
Proof. reflexivity. Qed.

Lemma run_inWorld_console_log (line : string) (r : Reporter) (w : World) :
  inWorld (console_log line) (r, w)
  = (Ok tt, (r, set_console (console w ++ [line]) w)).
Proof. reflexivity. Qed.

Lemma run_inWorld_gets {A} (f : World -> A) (r : Reporter) (w : World) :
  inWorld (gets f) (r, w) = (Ok (f w), (r, w)).
Proof. reflexivity. Qed.

Lemma run_inWorld_writeFileSync (p data : string) (r : Reporter) (w : World) :
  inWorld (writeFileSync p data) (r, w)
  = match Fs.write data (locate w p) (fs w) with
    | Success n => (Ok tt, (r, set_fs n w))
    | Failure e => (Throw (thrownBy w "writeFileSync" [p] e), (r, w))
    end.
Proof.
  rewrite run_inWorld. unfold writeFileSync, fsUpdate, fsCall.
  now destruct (Fs.write data (locate w p) (fs w)).
Qed.

Lemma onEnd_run (js : JsRuntime) (result : FullResult) (r : Reporter) (w : World) :
  exists w4,
    sameButConsole w w4
    /\ onEnd js result (r, w)
       = match Fs.write (resultTextOf js r w result)
                        (locate w (resultFilePathOf r w)) (fs w) with
         | Failure e =>
             (Throw (thrownBy w "writeFileSync" [resultFilePathOf r w] e), (r, w4))
         | Success f1 =>
             match Fs.write (reportTextOf js r w result)
                            (locate w (reportFilePathOf r w)) f1 with
             | Failure e =>
                 (Throw (thrownBy (set_fs f1 w) "writeFileSync"
                                  [reportFilePathOf r w] e),
                  (r, set_fs f1 w4))
             | Success f2 =>
                 (Ok tt,
                  (r, set_console
                        (console w4
                         ++ ["chalisha-reporter report saved at: "
                             +:+ Path.resolve (cwd w) [projectRoot r; reportDir r]])
                        (set_fs f2 w4)))
             end
         end.
Proof.
  eexists (set_console _ (set_console _ (set_console _ (set_console _ w)))).
  split; [now repeat split |].
  unfold onEnd, resultTextOf, reportTextOf, resultFilePathOf, reportFilePathOf.
  rewrite run_bind, run_this.
  do 4 rewrite run_bind, run_inWorld_console_log.
  do 2 rewrite run_bind, run_inWorld_gets.
  cbv zeta. rewrite run_bind, run_inWorld_writeFileSync.
  unfold locate. cbn [cwd fs set_console clock].
  destruct (Fs.write _ _ (fs w)) as [f1|e]; [|reflexivity].
  rewrite run_bind, run_inWorld_writeFileSync.
  unfold locate. cbn [cwd fs set_console set_fs clock].
  destruct (Fs.write _ _ f1) as [f2|e]; reflexivity.
Qed.

Lemma locate_report_files (r : Reporter) (w : World) :
  Path.resolve "/" [cwd w] = cwd w ->
  let O := locate w (Path.resolve (cwd w) [projectRoot r; reportDir r]) in
  (Fs.validName (resultFileName r) = true ->
   locate w (resultFilePathOf r w) = O ++ [resultFileName r])
  /\ (Fs.validName (reportFileName r) = true ->
      locate w (reportFilePathOf r w) = O ++ [reportFileName r]).
Proof.
  intros Hc O. split; intros Hn.
  - exact (locate_resolve_snoc w [projectRoot r; reportDir r] _ Hc Hn).
  - exact (locate_resolve_snoc w [projectRoot r; reportDir r] _ Hc Hn).
Qed.

(** X10. In a process whose working directory is an absolute normalized path,
    when the output directory is there and the two file names are names that
    no directory in it has: [onEnd] returns, the report file holds the
    serialized report and, when the two names differ, the result file holds
    the serialized result; whatever is not on the way to one of the two files
    is as it was; the reporter is unchanged and nothing is sent. *)
Theorem onEnd_writes_reports (js : JsRuntime) (result : FullResult)
  (r : Reporter) (w : World) (es : list (string * Fs.node)) :
  Path.resolve "/" [cwd w] = cwd w ->
  Fs.validName (resultFileName r) = true ->
  Fs.validName (reportFileName r) = true ->
  Fs.find (locate w (Path.resolve (cwd w) [projectRoot r; reportDir r])) (fs w)
  = Some (Fs.Dir es) ->
  (forall es', Fs.entry (resultFileName r) es <> Some (Fs.Dir es')) ->
  (forall es', Fs.entry (reportFileName r) es <> Some (Fs.Dir es')) ->
  exists w',
    onEnd js result (r, w) = (Ok tt, (r, w'))
    /\ contentAt w' (reportFilePathOf r w) = Some (reportTextOf js r w result)
    /\ (resultFileName r <> reportFileName r ->
        contentAt w' (resultFilePathOf r w) = Some (resultTextOf js r w result))
    /\ (forall q,
          ~ q `prefix_of` locate w (resultFilePathOf r w) ->
          ~ q `prefix_of` locate w (reportFilePathOf r w) ->
          Fs.find q (fs w') = Fs.find q (fs w))
    /\ network w' = network w /\ cwd w' = cwd w.
Proof.
  intros Hc Hres Hrep Hf Hnres Hnrep.
  destruct (locate_report_files r w Hc) as [L1 L2].
  specialize (L1 Hres). specialize (L2 Hrep).
  set (O := locate w (Path.resolve (cwd w) [projectRoot r; reportDir r])) in *.
  destruct (onEnd_run js result r w) as (w4 & (Hfs & Hcwd & Hnet & _) & ->).
  rewrite L1, L2.
  destruct (write_at (resultTextOf js r w result) (resultFileName r) O (fs w) es Hf Hnres)
    as (f1 & W1 & F1).
  rewrite W1.
  destruct (write_at (reportTextOf js r w result) (reportFileName r) O f1 _ F1)
    as (f2 & W2 & F2).
  { intros es'. destruct (String.eqb_spec (resultFileName r) (reportFileName r)) as [E|E].
    - rewrite <- E, entry_setEntry_eq. discriminate.
    - rewrite entry_setEntry_ne by assumption. apply Hnrep. }
  rewrite W2. eexists. split; [reflexivity |].
  assert (Hloc : forall p, locate (set_console
                   (console w4 ++ ["chalisha-reporter report saved at: "
                      +:+ Path.resolve (cwd w) [projectRoot r; reportDir r]])
                   (set_fs f2 w4)) p = locate w p)
    by (intros p; apply locate_same_cwd; exact Hcwd).
  unfold contentAt. rewrite !Hloc, L1, L2. cbn [fs set_console set_fs].
  split; [now rewrite (write_same _ _ _ _ W2) |]. split.
  - intros Hne.
    rewrite (write_other _ _ (O ++ [resultFileName r]) _ _
               (resultTextOf js r w result) W2); [reflexivity | |].
    + intros E. apply app_inv_head in E. congruence.
    + exact (write_same _ _ _ _ W1).
  - split; [|split; [exact Hnet | exact Hcwd]].
    intros q H1 H2.
    rewrite (write_frame _ _ q _ _ W2 H2), (write_frame _ _ q _ _ W1 H1).
    reflexivity.
Qed.

(** X11. When the output directory is not there (nothing, or a regular file, at
    its path), [onEnd] throws at its first write: no file is written, and
    the reporter is unchanged. *)
Theorem onEnd_without_output_directory (js : JsRuntime) (result : FullResult)
  (r : Reporter) (w : World) :
  Path.resolve "/" [cwd w] = cwd w ->
  Fs.validName (resultFileName r) = true ->
  (forall es,
     Fs.find (locate w (Path.resolve (cwd w) [projectRoot r; reportDir r])) (fs w)
     <> Some (Fs.Dir es)) ->
  exists e w',
    onEnd js result (r, w) = (Throw e, (r, w'))
    /\ fs w' = fs w /\ network w' = network w.
Proof.
  intros Hc Hres Hf.
  destruct (locate_report_files r w Hc) as [L1 _]. specialize (L1 Hres).
  destruct (onEnd_run js result r w) as (w4 & (Hfs & Hcwd & Hnet & _) & ->).
  rewrite L1.
  destruct (write_without_directory (resultTextOf js r w result) (resultFileName r)
              _ (fs w) Hf) as [e ->].
  now eexists _, w4.
Qed.

(** ** The constructor *)

Lemma sameEnvironment_refl (w : World) : sameEnvironment w w.
Proof. now repeat split. Qed.

Lemma sameEnvironment_trans (w1 w2 w3 : World) :
  sameEnvironment w1 w2 -> sameEnvironment w2 w3 -> sameEnvironment w1 w3.
Proof.
  intros (A1 & A2 & A3 & A4 & A5 & A6 & A7) (B1 & B2 & B3 & B4 & B5 & B6 & B7).
  repeat split; congruence.
Qed.

Lemma localOnly_ret {A} (a : A) : localOnly (mret a).
Proof. intros w. apply sameEnvironment_refl. Qed.

Lemma localOnly_gets {A} (f : World -> A) : localOnly (gets f).
Proof. intros w. apply sameEnvironment_refl. Qed.

Lemma localOnly_console_log (line : string) : localOnly (console_log line).
Proof. intros w. now repeat split. Qed.

Lemma localOnly_fsQuery {A} (op : World -> answer A) : localOnly (fsQuery op).
Proof. intros w. unfold fsQuery. destruct (op w); apply sameEnvironment_refl. Qed.

Lemma localOnly_fsUpdate (op : World -> answer Fs.node) : localOnly (fsUpdate op).
Proof.
  intros w. unfold fsUpdate. destruct (op w); [now repeat split |].
  apply sameEnvironment_refl.
Qed.

Lemma localOnly_bind {A B} (m : M World A) (f : A -> M World B) :
  localOnly m -> (forall a, localOnly (f a)) -> localOnly (m ≫= f).
Proof.
  intros Hm Hf w. rewrite run_bind. specialize (Hm w).
  destruct (m w) as [[a|e|] w1]; simpl in *; try assumption.
  eapply sameEnvironment_trans; [exact Hm | apply Hf].
Qed.

Lemma localOnly_forEach {A} (xs : list A) (body : A -> M World unit) :
  (forall x, localOnly (body x)) -> localOnly (forEach xs body).
Proof.
  intros Hb. induction xs as [|x xs IH]; [apply localOnly_ret |].
  simpl. apply localOnly_bind; [apply Hb | intros _; apply IH].
Qed.

Lemma localOnly_tryCatch {A} (body : M World A) (handler : Error -> M World A) :
  localOnly body -> (forall e, localOnly (handler e)) ->
  localOnly (tryCatch body handler).
Proof.
  intros Hb Hh w. rewrite run_tryCatch. specialize (Hb w).
  destruct (body w) as [[a|e|] w1]; simpl in *; try assumption.
  eapply sameEnvironment_trans; [exact Hb | apply Hh].
Qed.

Lemma localOnly_require_resolve (p : string) : localOnly (require_resolve p).
Proof.
  intros w. unfold require_resolve.
  destruct (Fs.find _ _) as [[?|?]|]; try destruct (module_search _ _ _);
    apply sameEnvironment_refl.
Qed.

Lemma localOnly_getHostAppPackageJson : localOnly getHostAppPackageJson.
Proof.
  apply localOnly_tryCatch.
  - apply localOnly_bind; [apply localOnly_gets | intros c].
    apply localOnly_bind; [apply localOnly_require_resolve | intros p].
    apply localOnly_bind; [apply localOnly_fsQuery | intros t].
    apply localOnly_fsQuery.
  - intros e. apply localOnly_bind; [apply localOnly_console_log | intros _].
    apply localOnly_ret.
Qed.

Lemma localOnly_cleanDirectory (directoryPath : string) :
  localOnly (cleanDirectory directoryPath).
Proof.
  apply localOnly_bind; [apply localOnly_fsQuery | intros files].
  apply localOnly_bind; [|intros _; apply localOnly_console_log].
  apply localOnly_forEach. intros file. cbv zeta.
  apply localOnly_bind; [apply localOnly_fsQuery | intros [|]];
    apply localOnly_fsUpdate.
Qed.

Lemma constructor_state (opts : ChalishaReporterOptions) (w w' : World)
  (r : Reporter) :
  newChalishaReporter opts w = (Ok r, w') ->
  runId r = uuid_source w (uuid_drawn w) /\ counted r = 0 /\ cwd w' = cwd w.
Proof.
  unfold newChalishaReporter. intros H.
  apply bind_Ok_inv in H as (root & w1 & H1 & H). injection H1 as <- <-.
  cbv zeta in H.
  apply bind_Ok_inv in H as (id & w1 & H1 & H). injection H1 as <- <-.
  apply bind_Ok_inv in H as (t & w1 & H1 & H). injection H1 as <- <-.
  apply bind_Ok_inv in H as (pkg & w2 & H2 & H).
  pose proof (localOnly_getHostAppPackageJson (set_uuid_drawn (S (uuid_drawn w)) w)) as E2.
  rewrite H2 in E2. cbn [snd] in E2.
  destruct E2 as (C2 & _ & D2 & _ & N2 & _).
  cbn [cwd uuid_drawn network set_uuid_drawn] in C2, D2, N2.
  apply bind_Ok_inv in H as (c & w3 & H3 & H). injection H3 as <- <-.
  apply bind_Ok_inv in H as (there & w3 & H3 & H). injection H3 as <- <-.
  apply bind_Ok_inv in H as ([] & w4 & H4 & H).
  assert (E4 : sameEnvironment w2 w4).
  { change w4 with (snd (Ok tt, w4)). rewrite <- H4.
    destruct (negb _); [apply localOnly_fsUpdate | apply localOnly_cleanDirectory]. }
  destruct E4 as (C4 & _ & D4 & _ & N4 & _).
  unfold mret, M_ret in H. injection H as <- <-. cbn.
  repeat split; congruence.
Qed.

(** X3. What the constructor leaves behind when it returns: the options with
    their defaults (an empty string counts as absent), the working directory
    as project root, the first identifier drawn as run identifier (and no
    other drawn), the time of construction, no entry, no browser, all
    counters and the declared total at zero; nothing was sent. *)
Theorem constructor_fields (opts : ChalishaReporterOptions) (w w' : World)
  (r : Reporter) :
  newChalishaReporter opts w = (Ok r, w') ->
  reportDir r = orString (opt_reportDir opts) "reports/chalisha-reporter/"
  /\ reportFileName r = orString (opt_reportFileName opts) "report.json"
  /\ resultFileName r = orString (opt_resultFileName opts) "result.json"
  /\ runId r = uuid_source w (uuid_drawn w)
  /\ uuid_drawn w' = S (uuid_drawn w)
  /\ startTime r = clock w
  /\ projectRoot r = cwd w
  /\ testResults r = [] /\ browserInfo r = emptyObject /\ totalTests r = 0
  /\ counted r = 0
  /\ options r = opts
  /\ cwd w' = cwd w /\ network w' = network w.
Proof.
  unfold newChalishaReporter. intros H.
  apply bind_Ok_inv in H as (root & w1 & H1 & H). injection H1 as <- <-.
  cbv zeta in H.
  apply bind_Ok_inv in H as (id & w1 & H1 & H). injection H1 as <- <-.
  apply bind_Ok_inv in H as (t & w1 & H1 & H). injection H1 as <- <-.
  apply bind_Ok_inv in H as (pkg & w2 & H2 & H).
  pose proof (localOnly_getHostAppPackageJson (set_uuid_drawn (S (uuid_drawn w)) w)) as E2.
  rewrite H2 in E2. cbn [snd] in E2.
  destruct E2 as (C2 & _ & D2 & _ & N2 & _).
  cbn [cwd uuid_drawn network set_uuid_drawn] in C2, D2, N2.
  apply bind_Ok_inv in H as (c & w3 & H3 & H). injection H3 as <- <-.
  apply bind_Ok_inv in H as (there & w3 & H3 & H). injection H3 as <- <-.
  apply bind_Ok_inv in H as ([] & w4 & H4 & H).
  assert (E4 : sameEnvironment w2 w4).
  { change w4 with (snd (Ok tt, w4)). rewrite <- H4.
    destruct (negb _); [apply localOnly_fsUpdate | apply localOnly_cleanDirectory]. }
  destruct E4 as (C4 & _ & D4 & _ & N4 & _).
  unfold mret, M_ret in H. injection H as <- <-. cbn.
  repeat split; congruence.
Qed.

(** ** [onTestEnd], event after event *)

Lemma sameProcess_refl (w : World) : sameProcess w w.
Proof. now repeat split. Qed.

Lemma sameProcess_trans (w1 w2 w3 : World) :
  sameProcess w1 w2 -> sameProcess w2 w3 -> sameProcess w1 w3.
Proof.
  intros (A1 & A2 & A3 & A4) (B1 & B2 & B3 & B4). repeat split; congruence.
Qed.

Lemma relocate_run (a : Attachment) (r : Reporter) (w : World) :
  exists out w',
    relocate a (r, w) = (out, (r, w')) /\ sameProcess w w' /\ out <> Unfinished.
Proof.
  destruct (truthy (att_path a)) eqn:Ht.
  - destruct (relocate_cases a r w Ht) as (out & w' & f1 & Hr & Hs & _ & _ & Hc).
    exists out, w'. split; [exact Hr |]. split; [exact Hs |].
    destruct Hc as [[[e ->] _]|(d & -> & _)]; discriminate.
  - exists (Ok a), w. rewrite (relocate_skip a (r, w) Ht).
    split; [reflexivity |]. split; [apply sameProcess_refl | discriminate].
Qed.

Lemma relocation_run (atts : list Attachment) (r : Reporter) :
  forall w : World,
    exists out w',
      mapM relocate atts (r, w) = (out, (r, w'))
      /\ sameProcess w w' /\ out <> Unfinished.
Proof.
  induction atts as [|a atts IH]; intros w.
  - exists (Ok []), w. split; [reflexivity |].
    split; [apply sameProcess_refl | discriminate].
  - rewrite run_mapM_cons.
    destruct (relocate_run a r w) as (out & w1 & -> & Hs & Hu).
    destruct out as [a'|e|]; [| |contradiction].
    + destruct (IH w1) as (outs & w2 & -> & Hs2 & Hu2).
      pose proof (sameProcess_trans _ _ _ Hs Hs2) as Hs3.
      destruct outs as [l|e|]; [| |contradiction]; eexists _, w2;
        (split; [reflexivity |]); (split; [exact Hs3 | discriminate]).
    + exists (Throw e), w1. split; [reflexivity |]. split; [exact Hs | discriminate].
Qed.

Lemma sameSettings_refl (r : Reporter) : sameSettings r r.
Proof. now repeat split. Qed.

Lemma sameSettings_trans (r1 r2 r3 : Reporter) :
  sameSettings r1 r2 -> sameSettings r2 r3 -> sameSettings r1 r3.
Proof.
  intros (A1 & A2 & A3 & A4 & A5 & A6 & A7 & A8)
         (B1 & B2 & B3 & B4 & B5 & B6 & B7 & B8).
  repeat split; congruence.
Qed.

Lemma sameSettings_countStatus (st : TestStatus) (r : Reporter) :
  sameSettings r (countStatus (statusName st) r)
  /\ totalTests (countStatus (statusName st) r) = totalTests r
  /\ browserInfo (countStatus (statusName st) r) = browserInfo r
  /\ testResults (countStatus (statusName st) r) = testResults r.
Proof. destruct st; now repeat split. Qed.

(** What one [onTestEnd] does to the reporter and the process. *)
Lemma onTestEnd_state (test : TestCase) (res : TestResult) (r : Reporter) (w : World) :
  exists out r' w',
    onTestEnd test res (r, w) = (out, (r', w'))
    /\ out <> Unfinished
    /\ sameSettings r r' /\ totalTests r' = totalTests r
    /\ browserInfo r' = browserInfo r
    /\ counted r' = counted r + 1
    /\ sameProcess w w'
    /\ match out with
       | Ok _ =>
           exists entry,
             testResults r' = testResults r ++ [entry]
             /\ ti_testId (e_test entry) = tc_id test
             /\ e_status entry = tr_status res
       | _ => testResults r' = testResults r
       end.
Proof.
  set (r1 := countStatus (statusName (tr_status res)) r).
  destruct (relocation_run (tr_attachments res) r1 w) as (out & w' & Hm & Hs & Hu).
  rewrite (onTestEnd_run test res r w w' out Hm). fold r1.
  destruct (sameSettings_countStatus (tr_status res) r) as (S1 & T1 & B1 & R1).
  fold r1 in S1, T1, B1, R1.
  pose proof (counted_countStatus (tr_status res) r) as C1. fold r1 in C1.
  destruct out as [outs|e|]; [| |contradiction].
  - eexists (Ok tt), _, w'. split; [reflexivity |]. split; [discriminate |].
    split; [exact S1 |]. split; [exact T1 |]. split; [exact B1 |].
    split; [exact C1 |]. split; [exact Hs |].
    eexists. split; [cbn [testResults set_testResults]; now rewrite R1 |].
    now split.
  - exists (Throw e), r1, w'. split; [reflexivity |]. split; [discriminate |].
    tauto.
Qed.

Lemma deliver_cons (test : TestCase) (res : TestResult)
  (events : list (TestCase * TestResult)) (s : Reporter * World) :
  deliver ((test, res) :: events) s = deliver events (snd (onTestEnd test res s)).
Proof. reflexivity. Qed.

(** What a run of events does to the reporter and the process. *)
Lemma deliver_state (events : list (TestCase * TestResult)) :
  forall (r : Reporter) (w : World),
    exists r' w' entries,
      deliver events (r, w) = (r', w')
      /\ sameSettings r r' /\ totalTests r' = totalTests r
      /\ browserInfo r' = browserInfo r
      /\ sameProcess w w'
      /\ testResults r' = testResults r ++ entries
      /\ map (fun e => ti_testId (e_test e)) entries
         `sublist_of` map (fun ev => tc_id (fst ev)) events
      /\ map e_status entries `sublist_of` map (fun ev => tr_status (snd ev)) events.
Proof.
  induction events as [|[test res] events IH]; intros r w.
  - exists r, w, []. split; [reflexivity |]. rewrite app_nil_r.
    repeat split; try reflexivity; constructor.
  - rewrite deliver_cons.
    destruct (onTestEnd_state test res r w)
      as (out & r1 & w1 & -> & Hu & S1 & T1 & B1 & _ & P1 & Hout).
    cbn [snd].
    destruct (IH r1 w1) as (r2 & w2 & entries & -> & S2 & T2 & B2 & P2 & R2 & I2 & St2).
    pose proof (sameSettings_trans _ _ _ S1 S2) as S3.
    pose proof (sameProcess_trans _ _ _ P1 P2) as P3.
    destruct out as [[]|e|]; [| |contradiction].
    + destruct Hout as (entry & R1 & I1 & St1).
      exists r2, w2, (entry :: entries). split; [reflexivity |].
      split; [exact S3 |]. split; [congruence |]. split; [congruence |].
      split; [exact P3 |]. split; [rewrite R2, R1; now rewrite <- app_assoc |].
      cbn [map fst snd]. rewrite I1, St1. split; now constructor.
    + exists r2, w2, entries. split; [reflexivity |].
      split; [exact S3 |]. split; [congruence |]. split; [congruence |].
      split; [exact P3 |]. split; [congruence |].
      cbn [map fst snd]. split; now constructor.
Qed.

(** ** From construction to the result file *)

Lemma storeProjects_fields (ps : list Project) :
  forall r : Reporter,
    sameSettings r (fold_left (fun r p => storeProject p r) ps r)
    /\ totalTests (fold_left (fun r p => storeProject p r) ps r) = totalTests r
    /\ testResults (fold_left (fun r p => storeProject p r) ps r) = testResults r.
Proof.
  induction ps as [|p ps IH]; intros r; [now repeat split |].
  simpl. destruct (IH (storeProject p r)) as (S1 & T1 & R1).
  split; [|split; [exact T1 | exact R1]].
  eapply sameSettings_trans; [|exact S1]. now repeat split.
Qed.

(** X12. A whole run.  In a process whose working directory is an absolute
    normalized path, after the constructor, [onBegin] and any test-end
    events, an [onEnd] that returns has written a result file (its name
    being a name other than the report's) that serializes: the run
    identifier drawn at construction, the final status given to [onEnd], the
    number of tests [onBegin] declared, and five counts that add up to the
    number of events, whether their handling returned or threw. *)
Theorem result_file_totals (js : JsRuntime) (options : ChalishaReporterOptions)
  (w w1 : World) (r : Reporter) (config : FullConfig) (allTests : list TestCase)
  (events : list (TestCase * TestResult)) (result : FullResult)
  (s' : Reporter * World) :
  Path.resolve "/" [cwd w] = cwd w ->
  newChalishaReporter options w = (Ok r, w1) ->
  Fs.validName (resultFileName r) = true ->
  Fs.validName (reportFileName r) = true ->
  resultFileName r <> reportFileName r ->
  onEnd js result (deliver events (snd (onBegin config allTests (r, w1))))
  = (Ok tt, s') ->
  exists rc,
    contentAt (snd s') (resultFilePathOf r w) = Some (JSON_stringify_result js rc)
    /\ rc_passedTests rc + rc_failedTests rc + rc_skippedTests rc
       + rc_timedOutTests rc + rc_interruptedTests rc
       = Z.of_nat (length events)
    /\ rc_totalTests rc = Z.of_nat (length allTests)
    /\ rc_runId rc = uuid_source w (uuid_drawn w)
    /\ rc_status rc = fr_status result.
Proof.
  intros Hc Hnew Hres Hrep Hne Hend.
  destruct (constructor_state options w w1 r Hnew) as (Hid & Hcount & Hc1).
  rewrite onBegin_run in Hend. cbn [fst snd] in Hend.
  set (r0 := fold_left (fun r p => storeProject p r) (projects config)
               (set_totalTests (Z.of_nat (length allTests)) r)) in *.
  destruct (storeProjects_fields (projects config)
              (set_totalTests (Z.of_nat (length allTests)) r)) as (S0 & T0 & _).
  fold r0 in S0, T0. cbn [totalTests set_totalTests] in T0.
  assert (S0' : sameSettings r r0)
    by (eapply sameSettings_trans; [|exact S0]; now repeat split).
  assert (C0 : counted r0 = 0).
  { unfold r0. rewrite counted_storeProjects. exact Hcount. }
  pose proof (counted_deliver events (r0, w1)) as Cd. cbn [fst] in Cd.
  destruct (deliver_state events r0 w1)
    as (r2 & w2 & entries & Hd & S2 & T2 & _ & (Hc2 & _) & _).
  rewrite Hd in Hend, Cd. cbn [fst] in Cd.
  pose proof (sameSettings_trans _ _ _ S0' S2)
    as (E1 & E2 & E3 & E4 & E5 & E6 & _).
  assert (Hcw : cwd w2 = cwd w) by congruence.
  assert (Hc' : Path.resolve "/" [cwd w2] = cwd w2) by now rewrite Hcw.
  assert (Hres2 : Fs.validName (resultFileName r2) = true) by now rewrite E6.
  assert (Hrep2 : Fs.validName (reportFileName r2) = true) by now rewrite E5.
  destruct (locate_report_files r2 w2 Hc') as [L1 L2].
  specialize (L1 Hres2). specialize (L2 Hrep2).
  destruct (onEnd_run js result r2 w2) as (w4 & (Hfs & Hcwd & _) & Hrun).
  rewrite Hrun in Hend. clear Hrun.
  destruct (Fs.write _ _ (fs w2)) as [f1|e] eqn:W1; [|discriminate].
  destruct (Fs.write _ _ f1) as [f2|e] eqn:W2; [|discriminate].
  injection Hend as <-.
  exists (resultContentOf js r2 (clock w2) result).
  split; [|split; [|split; [|split]]].
  - unfold contentAt. cbn [snd fs set_console set_fs].
    assert (resultFilePathOf r w = resultFilePathOf r2 w2) as ->
      by (unfold resultFilePathOf; now rewrite E1, E4, E6, Hcw).
    rewrite (locate_same_cwd w2) by exact Hcwd.
    rewrite (write_other _ _ (locate w2 (resultFilePathOf r2 w2)) _ _
               (resultTextOf js r2 w2 result) W2); [reflexivity | |].
    + rewrite L1, L2. intros E. apply app_inv_head in E. congruence.
    + exact (write_same _ _ _ _ W1).
  - cbn [resultContentOf rc_passedTests rc_failedTests rc_skippedTests
         rc_timedOutTests rc_interruptedTests].
    unfold counted in Cd, C0. lia.
  - cbn [resultContentOf rc_totalTests]. congruence.
  - cbn [resultContentOf rc_runId]. congruence.
  - reflexivity.
Qed.

(** ** [onTestEnd]: attachments without a path, sources that are missing *)

Lemma relocation_without_paths (atts : list Attachment) (s : Reporter * World) :
  Forall (fun a => truthy (att_path a) = false) atts ->
  mapM relocate atts s = (Ok atts, s).
Proof.
  induction 1 as [|a atts Ha _ IH]; [reflexivity |].
  now rewrite run_mapM_cons, (relocate_skip a s Ha), IH.
Qed.

Lemma onTestEnd_quiet (test : TestCase) (res : TestResult) (r : Reporter) (w : World) :
  Forall (fun a => truthy (att_path a) = false) (tr_attachments res) ->
  let r1 := countStatus (statusName (tr_status res)) r in
  onTestEnd test res (r, w)
  = (Ok tt,
     (set_testResults
        (testResults r ++ [entryOf test res r1 (cwd w) (tr_attachments res)]) r1,
      w)).
Proof.
  intros H r1.
  pose proof (relocation_without_paths _ (r1, w) H) as Hm.
  rewrite (onTestEnd_run test res r w w _ Hm). fold r1.
  destruct (sameSettings_countStatus (tr_status res) r) as (_ & _ & _ & R1).
  fold r1 in R1. now rewrite R1.
Qed.

(** X6. When no attachment of a result has a path (none at all, or bodies only),
    [onTestEnd] returns, leaves the process as it is (no file touched, no
    identifier drawn), and appends one entry that carries the attachments as
    they came. *)
Theorem onTestEnd_without_paths (test : TestCase) (res : TestResult)
  (r : Reporter) (w : World) :
  Forall (fun a => truthy (att_path a) = false) (tr_attachments res) ->
  exists r' entry,
    onTestEnd test res (r, w) = (Ok tt, (r', w))
    /\ testResults r' = testResults r ++ [entry]
    /\ e_attachments entry = tr_attachments res
    /\ e_status entry = tr_status res
    /\ ti_testId (e_test entry) = tc_id test
    /\ counted r' = counted r + 1.
Proof.
  intros H. rewrite (onTestEnd_quiet test res r w H).
  do 2 eexists. split; [reflexivity |].
  cbn [testResults set_testResults].
  split; [reflexivity |]. do 3 (split; [reflexivity |]).
  apply counted_countStatus.
Qed.

(** X7. When the first attachment has a path at which there is no regular file,
    [onTestEnd] throws: the test has been counted, but no entry is recorded
    for it; one identifier has been drawn, and no regular file has been
    made. *)
Theorem onTestEnd_missing_source (test : TestCase) (res : TestResult)
  (r : Reporter) (w : World) (a : Attachment) (rest : list Attachment) :
  tr_attachments res = a :: rest ->
  truthy (att_path a) = true ->
  contentAt w (orString (att_path a) "") = None ->
  exists e r' w',
    onTestEnd test res (r, w) = (Throw e, (r', w'))
    /\ counted r' = counted r + 1
    /\ testResults r' = testResults r
    /\ uuid_drawn w' = S (uuid_drawn w)
    /\ (forall q d, Fs.find q (fs w') = Some (Fs.File d) ->
                    Fs.find q (fs w) = Some (Fs.File d)).
Proof.
  intros Hatts Ht Hsrc.
  set (r1 := countStatus (statusName (tr_status res)) r).
  destruct (relocate_cases a r1 w Ht) as (out & w' & f1 & Hr & _ & Hd & Hf1 & Hc).
  assert (Hnew : forall q d, Fs.find q f1 = Some (Fs.File d) ->
                             Fs.find q (fs w) = Some (Fs.File d)).
  { intros q d. destruct Hf1 as [->|Hm]; [tauto |].
    now apply (mkdirp_no_new_files _ q _ _ d Hm). }
  destruct Hc as [[[e ->] Hfs]|(data & _ & Hread & _)].
  - assert (Hm : mapM relocate (tr_attachments res) (r1, w) = (Throw e, (r1, w')))
      by (now rewrite Hatts, run_mapM_cons, Hr).
    rewrite (onTestEnd_run test res r w w' _ Hm). fold r1.
    exists e, r1, w'. split; [reflexivity |].
    split; [apply counted_countStatus |].
    split; [apply (sameSettings_countStatus (tr_status res) r) |].
    split; [exact Hd |].
    intros q d. destruct Hfs as [->| ->]; [tauto | apply Hnew].
  - apply read_File in Hread. apply Hnew in Hread.
    unfold contentAt in Hsrc. now rewrite Hread in Hsrc.
Qed.

(** ** The entries of the report *)

Lemma returnedEvents_cons (test : TestCase) (res : TestResult)
  (events : list (TestCase * TestResult)) (s : Reporter * World) :
  returnedEvents ((test, res) :: events) s
  = (if succeeds (onTestEnd test res s) then [(test, res)] else [])
    ++ returnedEvents events (snd (onTestEnd test res s)).
Proof. reflexivity. Qed.

Lemma relocation_length (atts : list Attachment) :
  forall (s s' : Reporter * World) (outs : list Attachment),
    mapM relocate atts s = (Ok outs, s') -> length outs = length atts.
Proof.
  induction atts as [|a atts IH]; intros s s' outs H.
  - injection H as <- _. reflexivity.
  - rewrite run_mapM_cons in H.
    destruct (relocate a s) as [[a'|e|] s1]; try discriminate.
    destruct (mapM relocate atts s1) as [[outs'|e|] s2] eqn:E; try discriminate.
    injection H as <- _. cbn [length]. f_equal. exact (IH _ _ _ E).
Qed.

(** One event: an entry when its handling returns, none when it throws. *)
Lemma onTestEnd_entry (test : TestCase) (res : TestResult) (r : Reporter) (w : World) :
  exists out r' w',
    onTestEnd test res (r, w) = (out, (r', w'))
    /\ match out with
       | Ok _ =>
           exists entry,
             testResults r' = testResults r ++ [entry] /\ entryFor entry (test, res)
       | Throw _ => testResults r' = testResults r
       | Unfinished => False
       end.
Proof.
  set (r1 := countStatus (statusName (tr_status res)) r).
  destruct (relocation_run (tr_attachments res) r1 w) as (out & w' & Hm & _ & Hu).
  rewrite (onTestEnd_run test res r w w' out Hm). fold r1.
  destruct (sameSettings_countStatus (tr_status res) r) as (_ & _ & _ & R1).
  fold r1 in R1.
  destruct out as [outs|e|]; [| |contradiction].
  - eexists (Ok tt), _, w'. split; [reflexivity |].
    eexists. split; [cbn [testResults set_testResults]; now rewrite R1 |].
    unfold entryFor. cbn [entryOf e_test ti_testId ti_title e_status e_duration
                          e_retry e_attachments fst snd].
    do 5 (split; [reflexivity |]). exact (relocation_length _ _ _ _ Hm).
  - exists (Throw e), r1, w'. split; [reflexivity | exact R1].
Qed.

(** X8. The entries the report gains in a run of test-end events are, in the
    order of the events, one for each event whose handling returned, none
    for an event whose handling threw: each entry has the test id, title,
    status, duration and retry of its event, and as many attachments.  When
    no attachment has a path, every event's handling returns and the process
    is left as it was. *)
Theorem entries_follow_events (events : list (TestCase * TestResult))
  (r : Reporter) (w : World) :
  exists entries,
    testResults (fst (deliver events (r, w))) = testResults r ++ entries
    /\ Forall2 entryFor entries (returnedEvents events (r, w))
    /\ (Forall (fun ev => Forall (fun a => truthy (att_path a) = false)
                                 (tr_attachments (snd ev))) events ->
        returnedEvents events (r, w) = events
        /\ snd (deliver events (r, w)) = w).
Proof.
  revert r w. induction events as [|[test res] events IH]; intros r w.
  - exists []. split; [now rewrite app_nil_r |]. split; [constructor |].
    intros _. now split.
  - rewrite deliver_cons, returnedEvents_cons.
    destruct (onTestEnd_entry test res r w) as (out & r1 & w1 & Hrun & Hout).
    rewrite Hrun. cbn [snd].
    destruct (IH r1 w1) as (entries & Hr & Hall & Hquiet).
    assert (Hq : Forall (fun ev => Forall (fun a => truthy (att_path a) = false)
                                          (tr_attachments (snd ev)))
                        ((test, res) :: events) ->
                 out = Ok tt /\ w1 = w).
    { intros H. apply Forall_cons in H as [Hev _]. cbn [snd] in Hev.
      pose proof (onTestEnd_quiet test res r w Hev) as Hrun'. cbv zeta in Hrun'.
      rewrite Hrun' in Hrun. now injection Hrun as <- _ <-. }
    destruct out as [[]|e|]; [| |contradiction].
    + destruct Hout as (entry & R1 & Hentry).
      exists (entry :: entries).
      split; [rewrite Hr, R1; now rewrite <- app_assoc |].
      cbn [succeeds app]. split; [now constructor |].
      intros H. destruct (Hq H) as [_ ->].
      apply Forall_cons in H as [_ H]. destruct (Hquiet H) as [-> ->].
      now split.
    + exists entries. split; [congruence |]. cbn [succeeds app].
      split; [exact Hall |]. intros H. now destruct (Hq H).
Qed.

(** ** The constructor and a regular file in the way *)

(** X4. In a process whose working directory is an absolute normalized path,
    when the output path, or a path on the way to it, is a regular file, the
    constructor throws, and no file or directory has been made, removed or
    changed. *)
Theorem constructor_blocked_by_file (options : ChalishaReporterOptions)
  (w : World) (q : list string) (d : string) :
  Path.resolve "/" [cwd w] = cwd w ->
  q `prefix_of` locate w (outputDirOf options w) ->
  Fs.find q (fs w) = Some (Fs.File d) ->
  exists e w',
    newChalishaReporter options w = (Throw e, w')
    /\ fs w' = fs w /\ network w' = network w.
Proof.
  intros Hc Hq Hfile.
  set (reportDir := orString (opt_reportDir options) "reports/chalisha-reporter/").
  destruct (locate_resolve w Hc w [cwd w; reportDir] eq_refl) as (N & HN & Hn & HO).
  change (Path.resolve (cwd w) [cwd w; reportDir]) with (outputDirOf options w) in HN, HO.
  rewrite HO in Hq.
  set (w1 := set_uuid_drawn (S (uuid_drawn w)) w).
  destruct (getHostAppPackageJson_run w1) as (pkg & w2 & Hpkg & (Hfs & Hcwd & _) & _).
  pose proof (localOnly_getHostAppPackageJson w1) as Henv.
  rewrite Hpkg in Henv. destruct Henv as (_ & _ & _ & _ & Hnet & _).
  change (fs w1) with (fs w) in Hfs. change (cwd w1) with (cwd w) in Hcwd.
  change (network w1) with (network w) in Hnet. cbn [snd] in Hnet.
  unfold newChalishaReporter.
  rewrite run_bind. unfold gets at 1. cbv beta iota.
  rewrite run_bind. unfold uuidv4 at 1. cbv beta iota. fold w1.
  rewrite run_bind. unfold gets at 1. cbv beta iota.
  rewrite run_bind, Hpkg.
  rewrite run_bind. unfold gets at 1. cbv beta iota.
  rewrite Hcwd. fold reportDir.
  change (Path.resolve (cwd w) [cwd w; reportDir]) with (outputDirOf options w).
  rewrite run_bind. unfold existsSync at 1, gets at 1. cbv beta iota.
  rewrite (locate_same_cwd w w2 _ Hcwd), Hfs, HO.
  destruct Hq as [rest ->].
  rewrite run_bind.
  destruct rest as [|x rest].
  - rewrite (app_nil_r q) in HO |- *. rewrite Hfile. cbn [negb].
    unfold cleanDirectory. rewrite run_bind.
    unfold readdirSync, fsQuery, fsCall, Fs.readdir.
    rewrite (locate_same_cwd w w2 _ Hcwd), HO, Hfs, Hfile.
    now eexists _, w2.
  - assert (Hnone : Fs.find (q ++ x :: rest) (fs w) = None)
      by (now rewrite find_app, Hfile).
    rewrite Hnone. cbn [negb].
    destruct (mkdirp_blocked q (q ++ x :: rest) (fs w) d) as [e He];
      [now exists (x :: rest) | assumption |].
    unfold mkdirSync_recursive, fsUpdate, fsCall.
    rewrite (locate_same_cwd w w2 _ Hcwd), HO, Hfs, He.
    now eexists _, w2.
Qed.

(** ** Content types of file names *)

Lemma basenameOf_slashFree (s : string) : slashFree s -> Path.basenameOf s = s.
Proof.
  intros H. unfold Path.basenameOf. rewrite H. simpl. reflexivity.
Qed.

Lemma fromLastDot_after (a e : string) :
  Path.fromLastDot e = None ->
  Path.fromLastDot (a +:+ "." +:+ e) = Some ("." +:+ e).
Proof.
  intros He. induction a as [|c a IH].
  - change ("" +:+ "." +:+ e) with (String "." e). cbn [Path.fromLastDot].
    now rewrite He.
  - rewrite append_cons. cbn [Path.fromLastDot]. now rewrite IH.
Qed.

Lemma extname_of_name (stem e : string) :
  stem <> "" -> slashFree stem -> slashFree e ->
  Path.fromLastDot e = None -> e <> "" ->
  Path.extname (stem +:+ "." +:+ e) = "." +:+ e.
Proof.
  intros Hne Hs He Hd He0.
  assert (Hsf : slashFree (stem +:+ "." +:+ e)).
  { apply slashFree_app; [assumption |].
    change ("." +:+ e) with (String "." e). apply slashFree_cons. now split. }
  unfold Path.extname. rewrite (basenameOf_slashFree _ Hsf).
  destruct stem as [|c stem]; [contradiction |].
  rewrite append_cons.
  destruct (String.eqb_spec (String c (stem +:+ "." +:+ e)) "..") as [E|_].
  - exfalso. injection E as _ E.
    destruct stem as [|c' stem].
    + change ("" +:+ "." +:+ e) with (String "." e) in E. injection E as E.
      contradiction.
    + rewrite append_cons in E. injection E as _ E.
      apply append_eq_nil in E as [_ E]. discriminate.
  - now rewrite (fromLastDot_after stem e Hd).
Qed.

Lemma lowered_extension (e x : string) :
  toLowerCase e = x -> slashFree x -> Path.fromLastDot x = None -> x <> "" ->
  slashFree e /\ Path.fromLastDot e = None /\ e <> "".
Proof.
  intros <- Hs Hd Hx. split; [|split].
  - unfold slashFree in *. rewrite split_toLowerCase in Hs.
    destruct (Path.split e) as [|y [|z l]] eqn:E; try discriminate.
    apply split_single in E. now subst y.
  - rewrite fromLastDot_toLowerCase in Hd.
    now destruct (Path.fromLastDot e).
  - intros ->. now apply Hx.
Qed.

Lemma toLowerCase_app (a b : string) :
  toLowerCase (a +:+ b) = toLowerCase a +:+ toLowerCase b.
Proof.
  induction a as [|c a IH]; [reflexivity |].
  rewrite append_cons. simpl. now rewrite IH.
Qed.

Lemma getContentType_lowered (stem e x : string) :
  stem <> "" -> slashFree stem ->
  toLowerCase e = x -> slashFree x -> Path.fromLastDot x = None -> x <> "" ->
  getContentType (stem +:+ "." +:+ e) = getContentType ("f" +:+ "." +:+ x).
Proof.
  intros Hne Hs Hx H1 H2 H3.
  destruct (lowered_extension e x Hx H1 H2 H3) as (He1 & He2 & He3).
  unfold getContentType.
  rewrite (extname_of_name stem e Hne Hs He1 He2 He3).
  rewrite (extname_of_name "f" x ltac:(discriminate) eq_refl H1 H2 H3).
  rewrite !toLowerCase_app, Hx. subst x. now rewrite toLowerCase_idem.
Qed.

(** X19. The content type of a file name with an extension: for every name made
    of a non-empty stem without ['/'], a dot and an extension, the type is
    that of the extension taken without regard to case. *)
Theorem getContentType_by_extension (stem e : string) :
  stem <> "" -> slashFree stem ->
  (toLowerCase e = "html" -> getContentType (stem +:+ "." +:+ e) = "text/html")
  /\ (toLowerCase e = "json" ->
      getContentType (stem +:+ "." +:+ e) = "application/json")
  /\ (toLowerCase e = "txt" -> getContentType (stem +:+ "." +:+ e) = "text/plain")
  /\ (toLowerCase e = "png" -> getContentType (stem +:+ "." +:+ e) = "image/png")
  /\ (toLowerCase e = "jpg" -> getContentType (stem +:+ "." +:+ e) = "image/jpeg")
  /\ (toLowerCase e = "jpeg" -> getContentType (stem +:+ "." +:+ e) = "image/jpeg").
Proof.
  intros Hne Hs.
  repeat split; intros He;
    rewrite (getContentType_lowered stem e _ Hne Hs He eq_refl eq_refl);
    (reflexivity || discriminate).
Qed.

(** X20. A name without a dot has the default content type, and so has a name
    whose only dot is its first character: [.json] or [.html], as the name
    of a file, is not taken for an extension. *)
Theorem getContentType_without_extension (n : string) :
  slashFree n -> Path.fromLastDot n = None ->
  getContentType n = "application/octet-stream"
  /\ getContentType ("." +:+ n) = "application/octet-stream".
Proof.
  intros Hs Hd.
  assert (E1 : Path.extname n = "").
  { unfold Path.extname. rewrite (basenameOf_slashFree _ Hs).
    destruct n as [|c tail]; [reflexivity |].
    cbn [Path.fromLastDot] in Hd.
    destruct (Path.fromLastDot tail); [discriminate |].
    now destruct (String.eqb (String c tail) ".."). }
  assert (E2 : Path.extname ("." +:+ n) = "").
  { assert (Hs' : slashFree ("." +:+ n)).
    { change ("." +:+ n) with (String "." n). apply slashFree_cons. now split. }
    unfold Path.extname. rewrite (basenameOf_slashFree _ Hs').
    change ("." +:+ n) with (String "." n). cbv iota. rewrite Hd.
    now destruct (String.eqb (String "." n) ".."). }
  unfold getContentType. now rewrite E1, E2.
Qed.

(** ** The mirror when the service fails *)

(** X15. Whatever the service does, mirroring a directory (given by an absolute
    normalized path) of a well-formed tree to any remote path sends the
    uploads of its files in listing order, one after the other, each at the
    file's blob path, and stops at the first one the service fails: what
    went out is a prefix of the uploads of all files, all of them exactly
    when the walk returned; no file is touched. *)
Theorem mirror_stops_at_first_failure (budget : nat) (u : AzureBlobStorageUploader)
  (directoryPath P : string) (w : World) (es : list (string * Fs.node)) :
  Path.resolve "/" [directoryPath] = directoryPath ->
  Fs.find (locate w directoryPath) (fs w) = Some (Fs.Dir es) ->
  Fs.wf (Fs.Dir es) = true ->
  (treeHeight (Fs.Dir es) <= budget)%nat ->
  let uploads := map (uploadOf (up_containerName u) P) (filesOf (Fs.Dir es)) in
  exists out w' sent,
    uploadDirectoryToBlobStorage budget u directoryPath P w = (out, w')
    /\ fs w' = fs w
    /\ network w' = network w ++ sent
    /\ sent `prefix_of` uploads
    /\ match out with
       | Ok _ => sent = uploads /\ accepted (azure_fault w) (network w) uploads = true
       | Throw e =>
           exists before c after,
             uploads = before ++ c :: after /\ sent = before ++ [c]
             /\ accepted (azure_fault w) (network w) before = true
             /\ azure_fault w (network w ++ before) c = Some e
       | Unfinished => False
       end.
Proof.
  intros Hd Hf Hw Hh uploads.
  destruct (fixed_by_resolve "/" directoryPath eq_refl Hd) as (D & HD & ->).
  rewrite (locate_renderAbs w D HD) in Hf.
  destruct (upload_trace_faulty u budget D P w es HD Hf Hw Hh)
    as (out & w' & sent & Hrun & (Hfs & _) & Hnet & Hsent).
  exists out, w', sent. split; [exact Hrun |]. split; [exact Hfs |].
  split; [exact Hnet |]. split; [|exact Hsent].
  fold uploads in Hsent. destruct out as [[]|e|]; simpl in Hsent.
  - destruct Hsent as [-> _]. reflexivity.
  - destruct Hsent as (before & c & after & -> & -> & _).
    exists after. now rewrite <- app_assoc.
  - contradiction.
Qed.

(** ** [uploadPlaywrightReport] and [onExit] *)

Lemma resolve_fixed (N : list string) (root : string) :
  names N -> Path.resolve root [renderAbs N] = renderAbs N.
Proof.
  intros H. apply resolve_renderAbs. now apply resolveSegments_renderAbs.
Qed.

Lemma extends_refl (w : World) : extends w w.
Proof. split; exists []; now rewrite app_nil_r. Qed.

Lemma extends_trans (w1 w2 w3 : World) :
  extends w1 w2 -> extends w2 w3 -> extends w1 w3.
Proof.
  intros [[s1 N1] [l1 C1]] [[s2 N2] [l2 C2]]. split.
  - exists (s1 ++ s2). now rewrite N2, N1, app_assoc.
  - exists (l1 ++ l2). now rewrite C2, C1, app_assoc.
Qed.

Lemma onlyAdds_ret {A} (a : A) : onlyAdds (mret a).
Proof. intros w. apply extends_refl. Qed.

Lemma onlyAdds_console_log (line : string) : onlyAdds (console_log line).
Proof.
  intros w. split; [exists []; now rewrite app_nil_r | now exists [line]].
Qed.

Lemma onlyAdds_fsQuery {A} (op : World -> answer A) : onlyAdds (fsQuery op).
Proof. intros w. unfold fsQuery. destruct (op w); apply extends_refl. Qed.

Lemma onlyAdds_request (c : NetworkCall) : onlyAdds (request c).
Proof.
  intros w. unfold request.
  destruct (azure_fault w (network w) c);
    (split; [now exists [c] | exists []; now rewrite app_nil_r]).
Qed.

Lemma onlyAdds_bind {A B} (m : M World A) (f : A -> M World B) :
  onlyAdds m -> (forall a, onlyAdds (f a)) -> onlyAdds (m ≫= f).
Proof.
  intros Hm Hf w. rewrite run_bind. specialize (Hm w).
  destruct (m w) as [[a|e|] w1]; simpl in *; try assumption.
  eapply extends_trans; [exact Hm | apply Hf].
Qed.

Lemma onlyAdds_forEach {A} (xs : list A) (body : A -> M World unit) :
  (forall x, onlyAdds (body x)) -> onlyAdds (forEach xs body).
Proof.
  intros Hb. induction xs as [|x xs IH]; [apply onlyAdds_ret |].
  simpl. apply onlyAdds_bind; [apply Hb | intros _; apply IH].
Qed.

Lemma onlyAdds_upload (budget : nat) (u : AzureBlobStorageUploader) :
  forall directoryPath remotePath,
    onlyAdds (uploadDirectoryToBlobStorage budget u directoryPath remotePath).
Proof.
  induction budget as [|budget IH]; intros d p; [intros w; apply extends_refl |].
  cbn [uploadDirectoryToBlobStorage].
  apply onlyAdds_bind; [apply onlyAdds_console_log | intros _].
  apply onlyAdds_bind; [apply onlyAdds_fsQuery | intros files].
  apply onlyAdds_forEach. intros file. cbv zeta.
  destruct (Fs.dirent_isDirectory file); [apply IH |].
  apply onlyAdds_bind; [apply onlyAdds_fsQuery | intros data].
  apply onlyAdds_bind; [apply onlyAdds_request | intros _].
  apply onlyAdds_console_log.
Qed.

(** What [uploadPlaywrightReport] sends and says, for a report directory
    that is there. *)
Lemma uploadPlaywrightReport_trace (budget : nat) (u : AzureBlobStorageUploader)
  (w : World) (es : list (string * Fs.node)) :
  Path.resolve "/" [up_localReportDir u] = up_localReportDir u ->
  Fs.find (locate w (up_localReportDir u)) (fs w) = Some (Fs.Dir es) ->
  Fs.wf (Fs.Dir es) = true ->
  (treeHeight (Fs.Dir es) <= budget)%nat ->
  exists out w' sent,
    uploadPlaywrightReport budget u w = (Ok tt, w')
    /\ sameFiles w w'
    /\ network w' = network w ++ sent
    /\ sentUntilFailure (azure_fault w) (network w) (requestsOf u (Fs.Dir es)) out sent
    /\ (exists rest,
          console w'
          = console w
            ++ ["Azure Storage Connection String: " +:+ up_connectionString u;
                "Container Name: " +:+ up_containerName u] ++ rest)
    /\ last (console w')
       = Some (match out with
               | Throw e =>
                   "Error uploading report to Azure Blob Storage: " +:+ message e
               | _ =>
                   "All files and folders from " +:+ dquote
                   +:+ up_localReportDir u +:+ dquote
                   +:+ " have been uploaded to " +:+ dquote +:+ remoteRoot u
                   +:+ dquote +:+ " in Azure Blob Storage."
               end).
Proof.
  intros Hd Hf Hw Hh.
  destruct (fixed_by_resolve "/" (up_localReportDir u) eq_refl Hd) as (D & HD & HDe).
  rewrite HDe in Hf. rewrite (locate_renderAbs w D HD) in Hf.
  unfold uploadPlaywrightReport. rewrite run_tryCatch.
  unfold uploadPlaywrightReport_try.
  rewrite run_bind. unfold console_log at 1, modify at 1. cbv beta iota.
  rewrite run_bind. unfold console_log at 1, modify at 1. cbv beta iota.
  set (w1 := set_console _ (set_console _ w)).
  assert (Hcon1 : console w1
                  = console w
                    ++ ["Azure Storage Connection String: " +:+ up_connectionString u;
                        "Container Name: " +:+ up_containerName u])
    by (unfold w1; cbn [console set_console]; now rewrite <- app_assoc).
  rewrite run_bind. unfold request at 1.
  change (network w1) with (network w). change (azure_fault w1) with (azure_fault w).
  set (create := CreateIfNotExists (up_containerName u) "container").
  destruct (azure_fault w (network w) create) as [e|] eqn:Hfault.
  - unfold uploadPlaywrightReport_catch, console_error, console_log, modify.
    eexists (Throw e), _, [create]. split; [reflexivity |].
    split; [now repeat split |]. split; [reflexivity |].
    split; [|split].
    + exists [], create, (map (uploadOf (up_containerName u) (remoteRoot u))
                            (filesOf (Fs.Dir es))).
      rewrite app_nil_r. now repeat split.
    + cbn [console set_console set_network]. rewrite Hcon1.
      eexists. now rewrite <- app_assoc.
    + cbn [console set_console]. apply last_snoc.
  - set (w2 := set_network _ w1).
    rewrite run_bind. unfold console_log at 1, modify at 1. cbv beta iota.
    set (w3 := set_console _ w2). cbv zeta. rewrite run_bind.
    rewrite HDe.
    destruct (upload_trace_faulty u budget D (remoteRoot u) w3 es HD Hf Hw Hh)
      as (out & w4 & sent & Hrun & (Hfs & Hcwd & Hz) & Hnet & Hsent).
    rewrite Hrun.
    change (network w3) with (network w ++ [create]) in Hnet, Hsent.
    change (azure_fault w3) with (azure_fault w) in Hsent, Hz.
    assert (Hgrow : exists lines, console w4 = console w3 ++ lines).
    { pose proof (onlyAdds_upload budget u (renderAbs D) (remoteRoot u) w3) as G.
      rewrite Hrun in G. exact (proj2 G). }
    destruct Hgrow as [lines Hlines].
    assert (Hcon3 : exists rest,
               console w4
               = console w
                 ++ ["Azure Storage Connection String: " +:+ up_connectionString u;
                     "Container Name: " +:+ up_containerName u] ++ rest).
    { rewrite Hlines. unfold w3, w2. cbn [console set_console set_network].
      rewrite Hcon1. eexists. rewrite <- !app_assoc. reflexivity. }
    destruct Hcon3 as [rest Hrest].
    assert (Hall : sentUntilFailure (azure_fault w) (network w)
                     (requestsOf u (Fs.Dir es)) out (create :: sent)).
    { change (requestsOf u (Fs.Dir es))
        with ([create] ++ map (uploadOf (up_containerName u) (remoteRoot u))
                              (filesOf (Fs.Dir es))).
      change (create :: sent) with ([create] ++ sent).
      apply sentUntilFailure_app; [|exact Hsent].
      split; [reflexivity |]. simpl. now rewrite Hfault. }
    destruct out as [[]|e|]; [| |contradiction].
    + unfold console_log, modify.
      eexists (Ok tt), _, (create :: sent). split; [reflexivity |].
      split; [now repeat split |].
      split; [cbn [network set_console]; rewrite Hnet; now rewrite <- app_assoc |].
      split; [exact Hall |]. split.
      * cbn [console set_console]. rewrite Hrest. eexists.
        rewrite <- !app_assoc. reflexivity.
      * cbn [console set_console]. apply last_snoc.
    + unfold uploadPlaywrightReport_catch, console_error, console_log, modify.
      eexists (Throw e), _, (create :: sent). split; [reflexivity |].
      split; [now repeat split |].
      split; [cbn [network set_console]; rewrite Hnet; now rewrite <- app_assoc |].
      split; [exact Hall |]. split.
      * cbn [console set_console]. rewrite Hrest. eexists.
        rewrite <- !app_assoc. reflexivity.
      * cbn [console set_console]. apply last_snoc.
Qed.

(** X16. When the report directory is there, [uploadPlaywrightReport] returns
    whatever the service does.  It asks for the container first and then
    uploads the files in listing order, stopping at the first request that
    fails; its last console line tells the outcome: the message of the
    error that stopped it, or that all files have been uploaded.  The
    connection string is written to the console as it is. *)
Theorem uploadPlaywrightReport_outcome (budget : nat) (u : AzureBlobStorageUploader)
  (w : World) (es : list (string * Fs.node)) :
  Path.resolve "/" [up_localReportDir u] = up_localReportDir u ->
  Fs.find (locate w (up_localReportDir u)) (fs w) = Some (Fs.Dir es) ->
  Fs.wf (Fs.Dir es) = true ->
  (treeHeight (Fs.Dir es) <= budget)%nat ->
  exists (out : result unit) w' sent,
    uploadPlaywrightReport budget u w = (Ok tt, w')
    /\ fs w' = fs w
    /\ network w' = network w ++ sent
    /\ match out with
       | Ok _ =>
           sent = requestsOf u (Fs.Dir es)
           /\ accepted (azure_fault w) (network w) (requestsOf u (Fs.Dir es)) = true
       | Throw e =>
           exists before c after,
             requestsOf u (Fs.Dir es) = before ++ c :: after
             /\ sent = before ++ [c]
             /\ accepted (azure_fault w) (network w) before = true
             /\ azure_fault w (network w ++ before) c = Some e
       | Unfinished => False
       end
    /\ In ("Azure Storage Connection String: " +:+ up_connectionString u) (console w')
    /\ last (console w')
       = Some (match out with
               | Throw e =>
                   "Error uploading report to Azure Blob Storage: " +:+ message e
               | _ =>
                   "All files and folders from " +:+ dquote
                   +:+ up_localReportDir u +:+ dquote
                   +:+ " have been uploaded to " +:+ dquote +:+ remoteRoot u
                   +:+ dquote +:+ " in Azure Blob Storage."
               end).
Proof.
  intros Hd Hf Hw Hh.
  destruct (uploadPlaywrightReport_trace budget u w es Hd Hf Hw Hh)
    as (out & w' & sent & Hrun & (Hfs & _) & Hnet & Hsent & [rest Hcon] & Hlast).
  exists out, w', sent. split; [exact Hrun |]. split; [exact Hfs |].
  split; [exact Hnet |]. split; [exact Hsent |]. split; [|exact Hlast].
  rewrite Hcon. apply in_or_app. right. now left.
Qed.

Lemma backslashFree_remoteRoot (u : AzureBlobStorageUploader) :
  backslashFree (up_appName u) = true -> backslashFree (up_runId u) = true ->
  backslashFree (remoteRoot u) = true.
Proof.
  intros Ha Hr. apply backslashFree_allChars.
  apply backslashFree_allChars in Ha, Hr.
  unfold remoteRoot. rewrite !allChars_app, Ha, Hr. reflexivity.
Qed.

Lemma newAzureBlobStorageUploader_run
  (runId appName containerName connectionString reportDir : string) (w : World) :
  connectionString <> "" ->
  newAzureBlobStorageUploader runId appName containerName connectionString reportDir w
  = match connection_fault w connectionString with
    | Some e => (Throw e, w)
    | None =>
        (Ok {| up_containerName := containerName;
               up_localReportDir := Path.resolve (cwd w) [cwd w; reportDir];
               up_connectionString := connectionString;
               up_runId := runId;
               up_appName := appName |}, w)
    end.
Proof.
  intros Hne. unfold newAzureBlobStorageUploader.
  rewrite run_bind. unfold gets at 1. cbv beta iota zeta.
  assert (Hor : orString (Some connectionString) "" = connectionString).
  { unfold orString. apply String.eqb_neq in Hne. now rewrite Hne. }
  rewrite Hor. apply String.eqb_neq in Hne. rewrite Hne.
  rewrite run_bind. unfold gets at 1. cbv beta iota.
  now destruct (connection_fault w connectionString).
Qed.

Lemma onExit_run (budget : nat) (r : Reporter) (w : World) (cs : string) :
  configuredConnectionString r = Some cs -> cs <> "" ->
  onExit budget (r, w)
  = match connection_fault w cs with
    | Some e => (Throw e, (r, w))
    | None =>
        let w1 := set_console
                    (console w ++ ["Starting upload to Azure blob storage ..."]) w in
        (fst (uploadPlaywrightReport budget (uploaderOf r w cs) w1),
         (r, snd (uploadPlaywrightReport budget (uploaderOf r w cs) w1)))
    end.
Proof.
  intros Hcs Hne. unfold onExit. rewrite run_bind, run_this. cbv zeta.
  unfold configuredConnectionString in Hcs. rewrite Hcs.
  assert (Hor : orString (Some cs) "" = cs).
  { unfold orString. apply String.eqb_neq in Hne. now rewrite Hne. }
  rewrite Hor. apply String.eqb_neq in Hne as Hne'. rewrite Hne'. cbn [negb].
  rewrite run_bind, run_inWorld.
  rewrite (newAzureBlobStorageUploader_run _ _ _ cs _ w Hne).
  destruct (connection_fault w cs) as [e|]; [reflexivity |].
  cbn [fst snd].
  rewrite run_bind, run_inWorld_console_log.
  rewrite run_inWorld. reflexivity.
Qed.

(** X13. The uploader is built outside the [try] of the upload: when the client
    library rejects the configured connection string, the exception leaves
    [onExit], and nothing has been logged, sent or changed. *)
Theorem onExit_connection_rejected (budget : nat) (r : Reporter) (w : World)
  (cs : string) (e : Error) :
  configuredConnectionString r = Some cs -> cs <> "" ->
  connection_fault w cs = Some e ->
  onExit budget (r, w) = (Throw e, (r, w)).
Proof.
  intros Hcs Hne Hfault. rewrite (onExit_run budget r w cs Hcs Hne).
  now rewrite Hfault.
Qed.

(** X14. With a connection string the client accepts, in a process whose working
    directory is an absolute normalized path and whose report directory is
    there: [onExit] returns whatever the service does, changes no file and
    not the reporter; it asks for the configured container (['reports'] by
    default) and uploads the files of the report directory in listing order
    under [chalisha-reporter/<host application's name>/<run identifier>],
    stopping at the first request that fails.  The connection string is
    written to the console. *)
Theorem onExit_uploads_report (budget : nat) (r : Reporter) (w : World)
  (cs : string) (es : list (string * Fs.node)) :
  Path.resolve "/" [cwd w] = cwd w ->
  configuredConnectionString r = Some cs -> cs <> "" ->
  connection_fault w cs = None ->
  Fs.find (locate w (Path.resolve (cwd w) [cwd w; reportDir r])) (fs w)
  = Some (Fs.Dir es) ->
  Fs.wf (Fs.Dir es) = true ->
  (treeHeight (Fs.Dir es) <= budget)%nat ->
  let container := configuredContainerName r in
  let root := "chalisha-reporter/" +:+ orString (hostAppPackageJson r ≫= pkg_name) ""
              +:+ "/" +:+ runId r in
  let requests := CreateIfNotExists container "container"
                  :: map (uploadOf container root) (filesOf (Fs.Dir es)) in
  exists (out : result unit) w' sent,
    onExit budget (r, w) = (Ok tt, (r, w'))
    /\ fs w' = fs w
    /\ network w' = network w ++ sent
    /\ match out with
       | Ok _ => sent = requests /\ accepted (azure_fault w) (network w) requests = true
       | Throw e =>
           exists before c after,
             requests = before ++ c :: after /\ sent = before ++ [c]
             /\ accepted (azure_fault w) (network w) before = true
             /\ azure_fault w (network w ++ before) c = Some e
       | Unfinished => False
       end
    /\ In ("Azure Storage Connection String: " +:+ cs) (console w').
Proof.
  intros Hc Hcs Hne Hfault Hf Hw Hh container root requests.
  rewrite (onExit_run budget r w cs Hcs Hne), Hfault. cbv zeta.
  set (w1 := set_console _ w). set (u := uploaderOf r w cs).
  destruct (locate_resolve w Hc w [cwd w; reportDir r] eq_refl) as (N & HN & Hn & HO).
  assert (Hd : Path.resolve "/" [up_localReportDir u] = up_localReportDir u).
  { unfold u, uploaderOf. cbn [up_localReportDir]. rewrite HN.
    now apply resolve_fixed. }
  destruct (uploadPlaywrightReport_trace budget u w1 es Hd Hf Hw Hh)
    as (out & w' & sent & Hrun & (Hfs & _) & Hnet & Hsent & [rest Hcon] & _).
  rewrite Hrun. cbn [fst snd].
  exists out, w', sent. split; [reflexivity |]. split; [exact Hfs |].
  split; [exact Hnet |]. split; [exact Hsent |].
  rewrite Hcon. apply in_or_app. right. now left.
Qed.

(** ** Remote paths of different runs *)

Lemma isUuid_proper (u : string) : isUuid u = true -> proper u.
Proof.
  intros H. apply isUuid_spec in H as [Hl _].
  repeat split; intros ->; discriminate.
Qed.

Lemma remoteRoot_segments (u : AzureBlobStorageUploader) :
  Fs.validName (up_appName u) = true -> isUuid (up_runId u) = true ->
  prefixRoot (remoteRoot u) = ""
  /\ prefixSegments (remoteRoot u)
     = ["chalisha-reporter"; up_appName u; up_runId u].
Proof.
  intros Ha Hr. apply validName_spec in Ha as [Hap Has].
  pose proof (isUuid_proper _ Hr) as Hrp.
  apply isUuid_spec in Hr as [_ Hrs].
  split; [reflexivity |].
  unfold prefixSegments.
  change (Path.isAbsolute (remoteRoot u)) with false. cbn [negb].
  change (remoteRoot u)
    with ("chalisha-reporter" +:+ "/" +:+ (up_appName u +:+ "/" +:+ up_runId u)).
  rewrite !split_slash, Has, Hrs.
  apply normalizeSegments_proper.
  repeat constructor; try discriminate; (apply Hap || apply Hrp).
Qed.

Lemma isUuidChar_not_backslash (c : ascii) :
  isUuidChar c = true -> notBackslash c = true.
Proof. destruct c as [[] [] [] [] [] [] [] []]; simpl; intros H; try reflexivity; discriminate. Qed.

Lemma isUuid_backslashFree (u : string) : isUuid u = true -> backslashFree u = true.
Proof.
  unfold isUuid. rewrite andb_true_iff. intros [_ H].
  apply backslashFree_allChars.
  induction u as [|c u IH]; [reflexivity |]. simpl in *.
  apply andb_true_iff in H as [Hc Hu].
  now rewrite (isUuidChar_not_backslash c Hc), IH.
Qed.

(** X18. For host applications whose names are file names without a
    backslash, runs whose identifiers are of the uuid form, and files of
    well-formed report directories whose names, and those of the directories
    that lead to them, have no backslash: the blob path of a file tells the
    application, the run and the names that lead to the file.  Two such
    files are never uploaded at the same blob path unless the application,
    the run and the relative path are the same. *)
Theorem upload_paths_of_runs_differ (u1 u2 : AzureBlobStorageUploader)
  (n1 n2 : Fs.node) (f1 f2 : list string * string) :
  Fs.validName (up_appName u1) = true -> backslashFree (up_appName u1) = true ->
  isUuid (up_runId u1) = true ->
  Fs.validName (up_appName u2) = true -> backslashFree (up_appName u2) = true ->
  isUuid (up_runId u2) = true ->
  Fs.wf n1 = true -> In f1 (filesOf n1) ->
  Forall (fun k => backslashFree k = true) (fst f1) ->
  Fs.wf n2 = true -> In f2 (filesOf n2) ->
  Forall (fun k => backslashFree k = true) (fst f2) ->
  blobPathOf (remoteRoot u1) (fst f1) = blobPathOf (remoteRoot u2) (fst f2) ->
  up_appName u1 = up_appName u2 /\ up_runId u1 = up_runId u2
  /\ fst f1 = fst f2.
Proof.
  intros Ha1 Hb1 Hr1 Ha2 Hb2 Hr2 Hw1 Hf1 Hp1 Hw2 Hf2 Hp2 E.
  pose proof (filesOf_not_nil _ _ Hf1) as Hne1.
  pose proof (filesOf_not_nil _ _ Hf2) as Hne2.
  pose proof (filesOf_names _ _ f1 (le_n _) Hw1 Hf1) as Hn1.
  pose proof (filesOf_names _ _ f2 (le_n _) Hw2 Hf2) as Hn2.
  rewrite (blobPathOf_join _ (remoteRoot u1) Hne1 Hn1 Hp1),
          (blobPathOf_join _ (remoteRoot u2) Hne2 Hn2 Hp2) in E;
    try (apply backslashFree_remoteRoot;
         [assumption | now apply isUuid_backslashFree]).
  rewrite (join_names _ _ Hne1 Hn1), (join_names _ _ Hne2 Hn2) in E.
  destruct (remoteRoot_segments u1 Ha1 Hr1) as [R1 S1].
  destruct (remoteRoot_segments u2 Ha2 Hr2) as [R2 S2].
  rewrite R1, S1, R2, S2, !append_nil_l in E.
  apply (f_equal Path.split) in E.
  apply validName_spec in Ha1 as [_ Has1]. apply validName_spec in Ha2 as [_ Has2].
  apply isUuid_spec in Hr1 as [_ Hrs1]. apply isUuid_spec in Hr2 as [_ Hrs2].
  rewrite !split_concat in E; try discriminate.
  - injection E as -> -> ->. now repeat split.
  - repeat constructor; try assumption. now apply names_slashFree.
  - repeat constructor; try assumption. now apply names_slashFree.
Qed.

(** ** Locations *)




(** ** [onBegin] *)

(** X5. [onBegin] returns, whatever the configuration: it sets the declared
    number of tests and the browser contexts, and leaves the counters, the
    entries, the settings of the reporter and the process as they are. *)
Theorem onBegin_frame (config : FullConfig) (allTests : list TestCase)
  (r : Reporter) (w : World) :
  exists r',
    onBegin config allTests (r, w) = (Ok tt, (r', w))
    /\ totalTests r' = Z.of_nat (length allTests)
    /\ counted r' = counted r
    /\ testResults r' = testResults r
    /\ sameSettings r r'.
Proof.
  rewrite onBegin_run. cbn [fst snd]. eexists. split; [reflexivity |].
  destruct (storeProjects_fields (projects config)
              (set_totalTests (Z.of_nat (length allTests)) r)) as (S0 & T0 & R0).
  split; [exact T0 |]. split; [now rewrite counted_storeProjects |].
  split; [exact R0 |].
  eapply sameSettings_trans; [|exact S0]. now repeat split.
Qed.

(** X17. When the report directory is not there (nothing, or a regular file, at
    its path), [uploadPlaywrightReport] still asks for the container; when
    the service accepts that, listing the directory throws; no file is
    uploaded, the message of the error (of the service, or of the listing)
    is written to the console after the words that announce it, and the
    method returns. *)
Theorem uploadPlaywrightReport_without_report_directory (budget : nat)
  (u : AzureBlobStorageUploader) (w : World) :
  (0 < budget)%nat ->
  (forall es, Fs.find (locate w (up_localReportDir u)) (fs w) <> Some (Fs.Dir es)) ->
  let create := CreateIfNotExists (up_containerName u) "container" in
  exists w' e,
    uploadPlaywrightReport budget u w = (Ok tt, w')
    /\ fs w' = fs w
    /\ network w' = network w ++ [create]
    /\ last (console w')
       = Some ("Error uploading report to Azure Blob Storage: " +:+ message e)
    /\ (azure_fault w (network w) create = Some e
        \/ azure_fault w (network w) create = None
           /\ fst (readdirSync_withFileTypes (up_localReportDir u) w) = Throw e).
Proof.
  intros Hb Hf create.
  destruct budget as [|budget]; [lia |].
  unfold uploadPlaywrightReport. rewrite run_tryCatch.
  unfold uploadPlaywrightReport_try.
  rewrite run_bind. unfold console_log at 1, modify at 1. cbv beta iota.
  rewrite run_bind. unfold console_log at 1, modify at 1. cbv beta iota.
  set (w1 := set_console _ (set_console _ w)).
  rewrite run_bind. unfold request at 1.
  change (network w1) with (network w). change (azure_fault w1) with (azure_fault w).
  fold create.
  destruct (azure_fault w (network w) create) as [e|] eqn:Hfault.
  - unfold uploadPlaywrightReport_catch, console_error, console_log, modify.
    eexists _, e. split; [reflexivity |]. split; [reflexivity |].
    split; [reflexivity |]. split; [|now left].
    cbn [console set_console]. apply last_snoc.
  - set (w2 := set_network _ w1).
    rewrite run_bind. unfold console_log at 1, modify at 1. cbv beta iota.
    set (w3 := set_console _ w2). cbv zeta. rewrite run_bind.
    cbn [uploadDirectoryToBlobStorage]. rewrite run_bind.
    unfold console_log at 1, modify at 1. cbv beta iota.
    set (w4 := set_console _ w3).
    rewrite run_bind. unfold readdirSync_withFileTypes, fsQuery, fsCall, Fs.readdir.
    change (locate w4 (up_localReportDir u)) with (locate w (up_localReportDir u)).
    change (fs w4) with (fs w).
    destruct (Fs.find (locate w (up_localReportDir u)) (fs w)) as [[d|es]|] eqn:E.
    + unfold uploadPlaywrightReport_catch, console_error, console_log, modify.
      eexists _, _. split; [reflexivity |]. split; [reflexivity |].
      split; [reflexivity |]. split; [|right; split; reflexivity].
      cbn [console set_console]. apply last_snoc.
    + now destruct (Hf es).
    + unfold uploadPlaywrightReport_catch, console_error, console_log, modify.
      eexists _, _. split; [reflexivity |]. split; [reflexivity |].
      split; [reflexivity |]. split; [|right; split; reflexivity].
      cbn [console set_console]. apply last_snoc.
Qed.

(** ** Examples of the further properties *)

Example constructor_fields_example :
  exists r w',
    newChalishaReporter Sample.azureOptions Sample.world = (Ok r, w')
    /\ reportDir r = "reports/chalisha-reporter/"
    /\ resultFileName r = "result.json"
    /\ runId r = "0f8fad5b-d9cb-469f-a165-70867728950e"
    /\ uuid_drawn w' = 1%nat
    /\ network w' = [].
Proof.
  eexists _, _. split; [vm_compute; reflexivity |].
  match goal with |- reportDir ?r = _ /\ _ /\ _ /\ uuid_drawn ?w' = _ /\ _ =>
    destruct (constructor_fields Sample.azureOptions Sample.world w' r)
      as (H1 & _ & H3 & H4 & H5 & _ & _ & _ & _ & _ & _ & _ & _ & H14)
  end.
  - vm_compute. reflexivity.
  - split; [exact H1 |]. split; [exact H3 |]. split; [exact H4 |].
    split; [exact H5 | exact H14].
Defined.

Example constructor_blocked_by_file_example :
  exists e w',
    newChalishaReporter Sample.blockedOptions Sample.world = (Throw e, w')
    /\ fs w' = fs Sample.world.
Proof.
  destruct (constructor_blocked_by_file Sample.blockedOptions Sample.world
              ["proj"; "package.json"] "{ name: shop }" eq_refl)
    as (e & w' & Hrun & Hfs & _).
  - exists []. vm_compute. reflexivity.
  - reflexivity.
  - exists e, w'. split; assumption.
Defined.

Example onTestEnd_without_paths_example :
  exists r' entry,
    onTestEnd Sample.test Sample.quietResult (Sample.reporter, Sample.runningWorld)
    = (Ok tt, (r', Sample.runningWorld))
    /\ testResults r' = [entry]
    /\ e_attachments entry = [Sample.note]
    /\ counted r' = 1.
Proof.
  destruct (onTestEnd_without_paths Sample.test Sample.quietResult
              Sample.reporter Sample.runningWorld)
    as (r' & entry & Hrun & Hr & Ha & _ & _ & Hc).
  - repeat constructor.
  - exists r', entry. split; [exact Hrun |]. split; [exact Hr |].
    split; [exact Ha | exact Hc].
Defined.

Example onTestEnd_missing_source_example :
  exists e r' w',
    onTestEnd Sample.test Sample.lostResult (Sample.reporter, Sample.runningWorld)
    = (Throw e, (r', w'))
    /\ counted r' = 1
    /\ testResults r' = []
    /\ uuid_drawn w' = 2%nat.
Proof.
  destruct (onTestEnd_missing_source Sample.test Sample.lostResult
              Sample.reporter Sample.runningWorld
              Sample.lostScreenshot [Sample.screenshot] eq_refl eq_refl eq_refl)
    as (e & r' & w' & Hrun & Hc & Hr & Hd & _).
  exists e, r', w'. split; [exact Hrun |]. split; [exact Hc |].
  split; [exact Hr | exact Hd].
Defined.

Example onEnd_writes_reports_example :
  exists w',
    onEnd Sample.js Sample.fullResult (Sample.reporter, Sample.runningWorld)
    = (Ok tt, (Sample.reporter, w'))
    /\ contentAt w' "/proj/reports/chalisha-reporter/report.json"
       = Some "report 0f8fad5b-d9cb-469f-a165-70867728950e tests=0"
    /\ contentAt w' "/proj/reports/chalisha-reporter/result.json"
       = Some "result 0f8fad5b-d9cb-469f-a165-70867728950e passed=0 failed=0 total=0"
    /\ Fs.find ["tmp"; "shot.png"] (fs w') = Some (Fs.File "PNG-1").
Proof.
  destruct (onEnd_writes_reports Sample.js Sample.fullResult Sample.reporter
              Sample.runningWorld
              [("report.json", Fs.File "stale");
               ("data", Fs.Dir [("old.png", Fs.File "stale")])]
              eq_refl eq_refl eq_refl eq_refl)
    as (w' & Hrun & Hrep & Hres & Hframe & _).
  - intros es'. vm_compute. discriminate.
  - intros es'. vm_compute. discriminate.
  - exists w'. split; [exact Hrun |]. split; [exact Hrep |].
    split; [apply Hres; discriminate |].
    rewrite (Hframe ["tmp"; "shot.png"]); [reflexivity | |];
      vm_compute; intros [k Hk]; discriminate.
Defined.

Example onEnd_without_output_directory_example :
  exists e w',
    onEnd Sample.js Sample.fullResult (Sample.reporter, Sample.bareWorld)
    = (Throw e, (Sample.reporter, w'))
    /\ fs w' = fs Sample.bareWorld.
Proof.
  destruct (onEnd_without_output_directory Sample.js Sample.fullResult
              Sample.reporter Sample.bareWorld eq_refl eq_refl)
    as (e & w' & Hrun & Hfs & _).
  - intros es. vm_compute. discriminate.
  - exists e, w'. split; assumption.
Defined.

Example result_file_totals_example :
  exists r w1,
    newChalishaReporter Sample.defaults Sample.world = (Ok r, w1)
    /\ exists s' rc,
         onEnd Sample.js Sample.fullResult
           (deliver [(Sample.test, Sample.testResult);
                     (Sample.test, Sample.lostResult);
                     (Sample.test, Sample.quietResult)]
              (snd (onBegin Sample.config [Sample.test] (r, w1))))
         = (Ok tt, s')
         /\ contentAt (snd s') "/proj/reports/chalisha-reporter/result.json"
            = Some (JSON_stringify_result Sample.js rc)
         /\ rc_passedTests rc + rc_failedTests rc + rc_skippedTests rc
            + rc_timedOutTests rc + rc_interruptedTests rc = 3
         /\ rc_totalTests rc = 1.
Proof.
  eexists _, _. split; [vm_compute; reflexivity |].
  match goal with
  | |- exists s' rc, onEnd _ _ (deliver ?evs (snd (onBegin _ _ (?r, ?w1)))) = _ /\ _ =>
      destruct (result_file_totals Sample.js Sample.defaults Sample.world w1 r
                  Sample.config [Sample.test] evs Sample.fullResult
                  (snd (onEnd Sample.js Sample.fullResult
                          (deliver evs (snd (onBegin Sample.config [Sample.test]
                                               (r, w1))))))
                  eq_refl)
        as (rc & H1 & H2 & H3 & _)
  end.
  - vm_compute. reflexivity.
  - reflexivity.
  - reflexivity.
  - discriminate.
  - vm_compute. reflexivity.
  - eexists _, rc. split; [vm_compute; reflexivity |]. split; [exact H1 |].
    split; [exact H2 | exact H3].
Defined.

Example getContentType_by_extension_example :
  getContentType ("Photo" +:+ "." +:+ "PNG") = "image/png".
Proof.
  destruct (getContentType_by_extension "Photo" "PNG" ltac:(discriminate) eq_refl)
    as (_ & _ & _ & H & _).
  exact (H eq_refl).
Defined.

Example getContentType_without_extension_example :
  getContentType "json" = "application/octet-stream"
  /\ getContentType ".json" = "application/octet-stream".
Proof. exact (getContentType_without_extension "json" eq_refl eq_refl). Defined.

Example mirror_stops_at_first_failure_example :
  (exists (out : result unit) w' sent,
     uploadDirectoryToBlobStorage 2 Sample.uploader "/root" "P" Sample.offline
     = (out, w')
     /\ fs w' = fs Sample.offline
     /\ network w' = sent
     /\ sent `prefix_of` [UploadData "reports" "P/a.json" "{}" "application/json";
                          UploadData "reports" "P/sub/b.png" "PNG-2" "image/png"])
  /\ (exists w',
        uploadDirectoryToBlobStorage 2 Sample.uploader "/mirror" "P"
          Sample.backslashWorld = (Ok tt, w')
        /\ network w'
           = [UploadData "reports" "P/a/b.json" "1" "application/json";
              UploadData "reports" "P/a/b.json" "2" "application/json"]).
Proof.
  split.
  - destruct (mirror_stops_at_first_failure 2 Sample.uploader "/root" "P" Sample.offline
                [("a.json", Fs.File "{}"); ("sub", Fs.Dir [("b.png", Fs.File "PNG-2")])]
                eq_refl eq_refl eq_refl (le_n 2))
      as (out & w' & sent & Hrun & Hfs & Hnet & Hpre & _).
    exists out, w', sent. split; [exact Hrun |]. split; [exact Hfs |].
    split; [exact Hnet | exact Hpre].
  - destruct (mirror_stops_at_first_failure 2 Sample.uploader "/mirror" "P"
                Sample.backslashWorld
                [("a\b.json", Fs.File "1"); ("a", Fs.Dir [("b.json", Fs.File "2")])]
                eq_refl eq_refl eq_refl (le_n 2))
      as (out & w' & sent & Hrun & _ & Hnet & _ & Hout).
    destruct out as [[]|e|]; [| |contradiction].
    + destruct Hout as [-> _]. exists w'. split; [exact Hrun | exact Hnet].
    + destruct Hout as (before & c & after & _ & _ & _ & Hfault). discriminate.
Defined.

Example uploadPlaywrightReport_outcome_example :
  exists (out : result unit) w' sent,
    uploadPlaywrightReport 2 Sample.uploader Sample.flaky = (Ok tt, w')
    /\ network w' = sent
    /\ sent `prefix_of`
         [CreateIfNotExists "reports" "container";
          UploadData "reports"
            "chalisha-reporter/shop/0f8fad5b-d9cb-469f-a165-70867728950e/a.json"
            "{}" "application/json";
          UploadData "reports"
            "chalisha-reporter/shop/0f8fad5b-d9cb-469f-a165-70867728950e/sub/b.png"
            "PNG-2" "image/png"]
    /\ out = Throw {| message := "503 Server Busy" |}
    /\ last (console w')
       = Some "Error uploading report to Azure Blob Storage: 503 Server Busy"
    /\ In "Azure Storage Connection String: UseDevelopmentStorage=true" (console w').
Proof.
  destruct (uploadPlaywrightReport_outcome 2 Sample.uploader Sample.flaky
              [("a.json", Fs.File "{}"); ("sub", Fs.Dir [("b.png", Fs.File "PNG-2")])]
              eq_refl eq_refl eq_refl (le_n 2))
    as (out & w' & sent & Hrun & _ & Hnet & Hout & Hin & Hlast).
  assert (Hthrow : out = Throw {| message := "503 Server Busy" |}).
  { destruct out as [[]|e|]; [| |contradiction].
    - destruct Hout as [_ Hacc]. vm_compute in Hacc. discriminate.
    - destruct Hout as (before & c & after & Hreq & _ & Hacc & Hfault).
      f_equal. unfold Sample.flaky in Hfault. cbn [azure_fault network] in Hfault.
      destruct (length ([] ++ before) <? 2)%nat; [discriminate |].
      now injection Hfault as <-. }
  exists out, w', sent. split; [exact Hrun |]. split; [exact Hnet |].
  split.
  - rewrite Hthrow in Hout. destruct Hout as (before & c & after & Hreq & -> & _).
    change (requestsOf Sample.uploader _)
      with [CreateIfNotExists "reports" "container";
            UploadData "reports"
              "chalisha-reporter/shop/0f8fad5b-d9cb-469f-a165-70867728950e/a.json"
              "{}" "application/json";
            UploadData "reports"
              "chalisha-reporter/shop/0f8fad5b-d9cb-469f-a165-70867728950e/sub/b.png"
              "PNG-2" "image/png"] in Hreq.
    rewrite Hreq. exists after. now rewrite <- app_assoc.
  - split; [exact Hthrow |]. rewrite Hthrow in Hlast. split; [exact Hlast | exact Hin].
Defined.

Example onExit_connection_rejected_example :
  onExit 3 (Sample.azureReporter, Sample.rejecting)
  = (Throw {| message := "Invalid connection string" |},
     (Sample.azureReporter, Sample.rejecting)).
Proof.
  apply (onExit_connection_rejected 3 Sample.azureReporter Sample.rejecting
           "UseDevelopmentStorage=true");
    [reflexivity | discriminate | reflexivity].
Defined.

Example onExit_uploads_report_example :
  exists w',
    onExit 2 (Sample.azureReporter, Sample.runningWorld)
    = (Ok tt, (Sample.azureReporter, w'))
    /\ network w'
       = [CreateIfNotExists "reports" "container";
          UploadData "reports"
            "chalisha-reporter/shop/0f8fad5b-d9cb-469f-a165-70867728950e/report.json"
            "stale" "application/json";
          UploadData "reports"
            "chalisha-reporter/shop/0f8fad5b-d9cb-469f-a165-70867728950e/data/old.png"
            "stale" "image/png"]
    /\ fs w' = fs Sample.runningWorld.
Proof.
  destruct (onExit_uploads_report 2 Sample.azureReporter Sample.runningWorld
              "UseDevelopmentStorage=true"
              [("report.json", Fs.File "stale");
               ("data", Fs.Dir [("old.png", Fs.File "stale")])]
              eq_refl eq_refl ltac:(discriminate) eq_refl eq_refl eq_refl (le_n 2))
    as (out & w' & sent & Hrun & Hfs & Hnet & Hout & _).
  exists w'. split; [exact Hrun |]. split; [|exact Hfs].
  destruct out as [[]|e|]; [| |contradiction].
  - destruct Hout as [-> _]. rewrite Hnet. reflexivity.
  - destruct Hout as (before & c & after & _ & _ & _ & Hfault). discriminate.
Defined.

Example upload_paths_of_runs_differ_example :
  let archive := {| up_containerName := "archive"; up_localReportDir := "/elsewhere";
                    up_connectionString := "UseDevelopmentStorage=true";
                    up_runId := "0f8fad5b-d9cb-469f-a165-70867728950e";
                    up_appName := "shop" |} in
  let next := {| up_containerName := "reports"; up_localReportDir := "/root";
                 up_connectionString := "UseDevelopmentStorage=true";
                 up_runId := "7c9e6679-7425-40de-944b-e07fc1f90ae7";
                 up_appName := "shop" |} in
  (blobPathOf (remoteRoot Sample.uploader) ["sub"; "b.png"]
   = blobPathOf (remoteRoot archive) ["sub"; "b.png"]
   /\ up_runId Sample.uploader = up_runId archive)
  /\ blobPathOf (remoteRoot Sample.uploader) ["sub"; "b.png"]
     <> blobPathOf (remoteRoot next) ["sub"; "b.png"].
Proof.
  intros archive next.
  pose (root := Fs.Dir [("a.json", Fs.File "{}");
                        ("sub", Fs.Dir [("b.png", Fs.File "PNG-2")])]).
  assert (Hin : In (["sub"; "b.png"], "PNG-2") (filesOf root)) by (right; now left).
  assert (Hplain : Forall (fun k => backslashFree k = true) ["sub"; "b.png"])
    by (repeat constructor).
  split.
  - split; [reflexivity |].
    destruct (upload_paths_of_runs_differ Sample.uploader archive root root
                (["sub"; "b.png"], "PNG-2") (["sub"; "b.png"], "PNG-2")
                eq_refl eq_refl eq_refl eq_refl eq_refl eq_refl
                eq_refl Hin Hplain eq_refl Hin Hplain eq_refl)
      as (_ & H & _).
    exact H.
  - intros E.
    destruct (upload_paths_of_runs_differ Sample.uploader next root root
                (["sub"; "b.png"], "PNG-2") (["sub"; "b.png"], "PNG-2")
                eq_refl eq_refl eq_refl eq_refl eq_refl eq_refl
                eq_refl Hin Hplain eq_refl Hin Hplain E)
      as (_ & H & _).
    discriminate H.
Defined.

(** A directory name with backslashes leads out of the run's directory: the
    file [report.json] below it gets the blob path of the report of another
    run. *)
Lemma blob_path_in_other_run :
  blobPathOf "chalisha-reporter/shop/0f8fad5b-d9cb-469f-a165-70867728950e"
    ["x\..\..\7c9e6679-7425-40de-944b-e07fc1f90ae7"; "report.json"]
  = blobPathOf "chalisha-reporter/shop/7c9e6679-7425-40de-944b-e07fc1f90ae7"
      ["report.json"]
  /\ Fs.validName "x\..\..\7c9e6679-7425-40de-944b-e07fc1f90ae7" = true.
Proof. split; reflexivity. Qed.


Example uploadPlaywrightReport_without_report_directory_example :
  exists w' e,
    uploadPlaywrightReport 1 Sample.uploader Sample.bareWorld = (Ok tt, w')
    /\ fs w' = fs Sample.bareWorld
    /\ network w' = [CreateIfNotExists "reports" "container"]
    /\ fst (readdirSync_withFileTypes "/root" Sample.bareWorld) = Throw e
    /\ last (console w')
       = Some ("Error uploading report to Azure Blob Storage: " +:+ message e).
Proof.
  destruct (uploadPlaywrightReport_without_report_directory 1 Sample.uploader
              Sample.bareWorld (le_n 1))
    as (w' & e & Hrun & Hfs & Hnet & Hlast & Hwhy).
  - intros es. vm_compute. discriminate.
  - exists w', e. split; [exact Hrun |]. split; [exact Hfs |].
    split; [exact Hnet |]. split; [|exact Hlast].
    destruct Hwhy as [Hfault|[_ Hlist]]; [discriminate | exact Hlist].
Defined.
